(** * Label verification engine: [normalize] and [performVerification]

    A shallow embedding of the verification engine of the label checker
    (the file that exports [performVerification]), together with the part
    of the JavaScript runtime that engine calls: string primitives, the
    coercions [!x], [x || d], [String(x)], [x + s], and regular
    expressions.

    Strings.  A JavaScript string is a sequence of 16-bit code units.  The
    model of the engine takes the code units below 256 (the Latin-1
    range), which is what [Stdlib.Strings.String.string] holds.  On that
    range [toLowerCase] stays inside the range, and the white space and
    word character tables of ECMAScript are the finite ones written out
    below.  [normalize] is given a second time on sequences of 16-bit code
    units (module [Wide]), with a [toLowerCase] that works on code points;
    the two are proved to agree on the code units below 256
    ([NormalizeWide.normalize_below_256]), and what holds of [normalize]
    only below 256 is stated there with that bound.

    Values.  A form field is one of: absent ([undefined]), [null], a string,
    or an integral Number (rendered by [String(x)] as its decimal digits,
    as ECMAScript does for integers of magnitude below 10^21; the
    statements that rest on the rendering of a Number other than 0 carry
    the bound [Declared.safeInteger]).

    Outcomes.  A call returns a value, throws ([TypeError] or [SyntaxError])
    or, for a pattern text that uses regular expression syntax this
    development does not cover, is [Unmodelled].

    Around the engine.  The handler of the route POST /api/verify is
    embedded as the trace of what it does to the outside (module [Route]),
    the engine of the earlier server file as [Legacy.performVerification],
    and the test suite as the module [Tests]. *)

From Stdlib Require Import Bool Arith List Lia ZArith.
From Stdlib Require Import Ascii String DecimalString.
Import ListNotations.

Local Open Scope string_scope.
Local Open Scope bool_scope.
Local Open Scope nat_scope.

(* ================================================================== *)
(** * Outcomes of a call *)

Inductive jserror : Type :=
| TypeError
| SyntaxError.

Inductive outcome (A : Type) : Type :=
| Returns (a : A)
| Throws (e : jserror)
| Unmodelled.

Arguments Returns {A} a.
Arguments Throws {A} e.
Arguments Unmodelled {A}.

Definition bind {A B : Type} (m : outcome A) (k : A -> outcome B) : outcome B :=
  match m with
  | Returns a => k a
  | Throws e => Throws e
  | Unmodelled => Unmodelled
  end.

Notation "'do' x <- m ; k" := (bind m (fun x => k))
  (at level 10, x name, m at level 100, k at level 200).

(* ================================================================== *)
(** * Code units *)

Module Char.

Definition code (c : ascii) : nat := nat_of_ascii c.

Definition between (lo hi : nat) (c : ascii) : bool :=
  (lo <=? code c) && (code c <=? hi).

(** ECMAScript WhiteSpace and LineTerminator below 256: TAB, LF, VT, FF,
    CR, SP, NBSP.  This one table serves [\s] and [String.prototype.trim]. *)
Definition isWhiteSpace (c : ascii) : bool :=
  between 9 13 c || (code c =? 32) || (code c =? 160).

(** LineTerminator: what [.] does not match. *)
Definition isLineTerminator (c : ascii) : bool :=
  (code c =? 10) || (code c =? 13).

Definition isDigit (c : ascii) : bool := between 48 57 c.

Definition isAsciiUpper (c : ascii) : bool := between 65 90 c.
Definition isAsciiLower (c : ascii) : bool := between 97 122 c.
Definition isAsciiLetter (c : ascii) : bool := isAsciiUpper c || isAsciiLower c.

(** [\w], and the test behind [\b]: [A-Za-z0-9_]. *)
Definition isWordChar (c : ascii) : bool :=
  isAsciiLetter c || isDigit c || (code c =? 95).

(** Upper case letters of Latin-1: A-Z and U+00C0..U+00DE except U+00D7. *)
Definition isUpper (c : ascii) : bool :=
  isAsciiUpper c || (between 192 222 c && negb (code c =? 215)).

(** Lower case letters of Latin-1 whose upper case is again in Latin-1:
    a-z and U+00E0..U+00FE except U+00F7. *)
Definition isLowerPaired (c : ascii) : bool :=
  isAsciiLower c || (between 224 254 c && negb (code c =? 247)).

Definition toLower (c : ascii) : ascii :=
  if isUpper c then ascii_of_nat (code c + 32) else c.

(** Canonicalize of a case-insensitive pattern without the [u] flag: the
    code unit's upper case when that is one code unit, except that a code
    unit of 128 or more is not mapped below 128.  For U+00DF (upper case
    of two code units), U+00B5 and U+00FF (upper case outside Latin-1, and
    the image of no other code unit below 256) the code unit itself is
    taken as representative, which gives the same equalities. *)
Definition canonicalize (c : ascii) : ascii :=
  if isLowerPaired c then ascii_of_nat (code c - 32) else c.

(** The set of the first [replace] of [normalize]:
    [[.,\/#!$%\^&\*;:{}=\-_`~()]]. *)
Definition punctuation : list ascii :=
  list_ascii_of_string ".,/#!$%^&*;:{}=-_`~()".

Definition isPunctuation (c : ascii) : bool :=
  existsb (Ascii.eqb c) punctuation.

End Char.

(* ================================================================== *)
(** * String primitives *)

Module Str.

Fixpoint map (f : ascii -> ascii) (s : string) : string :=
  match s with
  | EmptyString => EmptyString
  | String c r => String (f c) (map f r)
  end.

Definition isEmpty (s : string) : bool :=
  match s with EmptyString => true | String _ _ => false end.

(** [String.prototype.toLowerCase]. *)
Definition toLowerCase (s : string) : string := map Char.toLower s.

Fixpoint trimStart (s : string) : string :=
  match s with
  | EmptyString => EmptyString
  | String c r => if Char.isWhiteSpace c then trimStart r else s
  end.

Fixpoint trimEnd (s : string) : string :=
  match s with
  | EmptyString => EmptyString
  | String c r =>
      let r' := trimEnd r in
      if Char.isWhiteSpace c && isEmpty r' then EmptyString else String c r'
  end.

(** [String.prototype.trim]. *)
Definition trim (s : string) : string := trimEnd (trimStart s).

(** [String.prototype.includes]: [needle] occurs in [hay] as a contiguous
    substring. *)
Fixpoint includes (hay needle : string) : bool :=
  String.prefix needle hay ||
  match hay with
  | EmptyString => false
  | String _ r => includes r needle
  end.

Fixpoint drop (n : nat) (s : string) : string :=
  match n, s with
  | O, _ => s
  | S n', String _ r => drop n' r
  | S _, EmptyString => EmptyString
  end.

(** [hay.replace(pat, rep)] with a string pattern: the first occurrence
    only.  [rep] is taken literally (the two replacement texts of the
    engine hold no [$]). *)
Fixpoint replaceFirst (hay pat rep : string) : string :=
  if String.prefix pat hay then String.append rep (drop (String.length pat) hay)
  else match hay with
       | EmptyString => EmptyString
       | String c r => String c (replaceFirst r pat rep)
       end.

End Str.

(* ================================================================== *)
(** * Values of form fields and their coercions *)

Inductive jsvalue : Type :=
| JUndefined
| JNull
| JStr (s : string)
| JNum (z : Z).

(** ToBoolean. *)
Definition truthy (v : jsvalue) : bool :=
  match v with
  | JUndefined | JNull => false
  | JStr s => negb (Str.isEmpty s)
  | JNum z => negb (Z.eqb z 0)
  end.

(** [v || d]. *)
Definition orElse (v d : jsvalue) : jsvalue := if truthy v then v else d.

(** [String(v)], also the ToString of [v + "..."]. *)
Definition toString (v : jsvalue) : string :=
  match v with
  | JUndefined => "undefined"
  | JNull => "null"
  | JStr s => s
  | JNum z => NilZero.string_of_int (Z.to_int z)
  end.

(** [v + s] for a string [s]. *)
Definition plusString (v : jsvalue) (s : string) : string :=
  String.append (toString v) s.

(* ================================================================== *)
(** * Regular expressions

    The patterns the engine uses, as syntax trees, a backtracking matcher
    for them (greedy, leftmost alternative first, as ECMAScript's), the
    methods [exec], [test] and the global [replace], and the [RegExp]
    constructor for the pattern texts the engine assembles at run time.
    None of the engine's patterns has the [m], [s], [u] or [y] flag; the
    two of [normalize] have [g] and are used with [replace] only. *)

Module RegExp.

Inductive charClass : Type :=
| Digit                       (* \d *)
| Space                       (* \s *)
| Word                        (* \w *)
| Letter                      (* [a-zA-Z] *)
| OneOf (cs : list ascii).    (* [...] listing its characters *)

Inductive regex : Type :=
| Empty
| Chr (c : ascii)
| Any                                   (* . *)
| Class (negated : bool) (k : charClass)
| WordBoundary (negated : bool)         (* \b \B *)
| InputStart                            (* ^ *)
| InputEnd                              (* $ *)
| Seq (r1 r2 : regex)
| Alt (r1 r2 : regex)
| Star (r : regex)
| Group (n : nat) (r : regex).          (* the n-th capturing group *)

Definition Plus (r : regex) : regex := Seq r (Star r).
Definition Opt (r : regex) : regex := Alt r Empty.

Record regexp : Type := mkRegExp { source : regex; ignoreCase : bool }.

Definition sameChar (ci : bool) (c d : ascii) : bool :=
  if ci then Ascii.eqb (Char.canonicalize c) (Char.canonicalize d)
  else Ascii.eqb c d.

(** Membership in a class.  Under [i] a character is in a class when its
    canonical form is that of a member; for the four named classes that is
    membership itself, as canonicalization maps letters to letters only. *)
Definition inClass (ci : bool) (k : charClass) (c : ascii) : bool :=
  match k with
  | Digit => Char.isDigit c
  | Space => Char.isWhiteSpace c
  | Word => Char.isWordChar c
  | Letter => Char.isAsciiLetter c
  | OneOf cs => existsb (fun m => sameChar ci m c) cs
  end.

(** A position in the input: the character before it (for [\b] and [^]),
    the input from it on, and the captures made so far. *)
Record mstate : Type := mkState {
  prev : option ascii;
  rest : string;
  caps : list (nat * string)
}.

Definition isWordOpt (o : option ascii) : bool :=
  match o with Some c => Char.isWordChar c | None => false end.

Definition atWordBoundary (st : mstate) : bool :=
  xorb (isWordOpt (prev st))
       (match rest st with String c _ => Char.isWordChar c | EmptyString => false end).

(** Consume one character satisfying [p]. *)
Definition step (p : ascii -> bool) (st : mstate)
    (k : mstate -> option mstate) : option mstate :=
  match rest st with
  | String c t => if p c then k (mkState (Some c) t (caps st)) else None
  | EmptyString => None
  end.

Fixpoint take (n : nat) (s : string) : string :=
  match n, s with
  | S n', String c r => String c (take n' r)
  | _, _ => EmptyString
  end.

(** The text between two positions of one input. *)
Definition consumed (from to : mstate) : string :=
  take (String.length (rest from) - String.length (rest to)) (rest from).

Definition matcher : Type := mstate -> (mstate -> option mstate) -> option mstate.

(** Greedy repetition of [body], then [k].  An iteration that consumes
    nothing is refused, as in ECMAScript's RepeatMatcher, so the number of
    iterations is bounded by the length of the remaining input, which is
    what [fuel] is set to. *)
Fixpoint iterate (body : matcher) (k : mstate -> option mstate)
    (fuel : nat) (st : mstate) {struct fuel} : option mstate :=
  match fuel with
  | O => k st
  | S fuel' =>
      match body st
              (fun st' =>
                 if String.length (rest st') <? String.length (rest st)
                 then iterate body k fuel' st'
                 else None) with
      | Some m => Some m
      | None => k st
      end
  end.

(** [run ci r st k]: match [r] at [st] and continue with [k]; backtrack
    into [r] when [k] fails. *)
Fixpoint run (ci : bool) (r : regex) {struct r} : matcher :=
  fun st k =>
  match r with
  | Empty => k st
  | Chr c => step (sameChar ci c) st k
  | Any => step (fun d => negb (Char.isLineTerminator d)) st k
  | Class neg cl => step (fun d => xorb neg (inClass ci cl d)) st k
  | WordBoundary neg => if xorb neg (atWordBoundary st) then k st else None
  | InputStart => match prev st with None => k st | Some _ => None end
  | InputEnd => match rest st with EmptyString => k st | String _ _ => None end
  | Seq r1 r2 => run ci r1 st (fun st' => run ci r2 st' k)
  | Alt r1 r2 =>
      match run ci r1 st k with
      | Some m => Some m
      | None => run ci r2 st k
      end
  | Star r1 => iterate (run ci r1) k (String.length (rest st)) st
  | Group n r1 =>
      run ci r1 st
          (fun st' => k (mkState (prev st') (rest st')
                                 ((n, consumed st st') :: caps st')))
  end.

(** The result of [exec]: the matched text and the captures. *)
Record matchResult : Type := mkMatch {
  whole : string;
  groups : list (nat * string)
}.

(** Leftmost match: the start positions are tried from left to right. *)
Fixpoint searchFrom (re : regexp) (before : option ascii) (s : string)
    : option matchResult :=
  let st := mkState before s [] in
  match run (ignoreCase re) (source re) st Some with
  | Some m => Some (mkMatch (consumed st m) (caps m))
  | None =>
      match s with
      | EmptyString => None
      | String c t => searchFrom re (Some c) t
      end
  end.

(** [re.exec(s)], which is also [s.match(re)] for a pattern without [g]. *)
Definition exec (re : regexp) (s : string) : option matchResult :=
  searchFrom re None s.

(** [re.test(s)]. *)
Definition test (re : regexp) (s : string) : bool :=
  match exec re s with Some _ => true | None => false end.

(** [s.replace(re, rep)] for a pattern with the [g] flag and a replacement
    text without [$]: every match, found from left to right, is replaced.
    [inMatch] counts the characters of the last match still to pass over;
    after an empty match the search moves on by one character. *)
Fixpoint replaceFrom (re : regexp) (rep : string) (inMatch : nat)
    (before : option ascii) (s : string) {struct s} : string :=
  match inMatch with
  | S n =>
      match s with
      | EmptyString => EmptyString
      | String c r => replaceFrom re rep n (Some c) r
      end
  | O =>
      match run (ignoreCase re) (source re) (mkState before s []) Some with
      | Some m =>
          String.append rep
            match s with
            | EmptyString => EmptyString
            | String c r =>
                match String.length s - String.length (rest m) with
                | O => String c (replaceFrom re rep 0 (Some c) r)
                | S n => replaceFrom re rep n (Some c) r
                end
            end
      | None =>
          match s with
          | EmptyString => EmptyString
          | String c r => String c (replaceFrom re rep 0 (Some c) r)
          end
      end
  end.

Definition replaceAll (re : regexp) (rep : string) (s : string) : string :=
  replaceFrom re rep 0 None s.

(** [m[n]] for a capturing group that took part in the match. *)
Fixpoint capture (n : nat) (cs : list (nat * string)) : option string :=
  match cs with
  | [] => None
  | (i, t) :: cs' => if i =? n then Some t else capture n cs'
  end.

Definition group (m : matchResult) (n : nat) : option string :=
  capture n (groups m).


(** ** The [RegExp] constructor

    [parse] reads a pattern text from left to right with a stack of open
    groups.  It covers: pattern characters, [.], [^], [$], [|], groups
    [( )] and [(?: )], the greedy quantifiers [*] [+] [?], the escapes
    [\b \B \d \D \s \S \w \W \f \n \r \t \v] and the identity escape of a
    character that is neither a letter nor a digit.  It reports the
    SyntaxErrors of that fragment (a quantifier with nothing to repeat,
    an unmatched or unterminated parenthesis, a trailing backslash).
    Anything else ([[ ]] classes, braces, lazy quantifiers, [(?=], [(?!],
    [(?<], back references and the other letter or digit escapes) is
    outside the fragment and makes the result [Unmodelled]. *)

Record frame : Type := mkFrame {
  closedAlts : list regex;   (* alternatives ended by [|], last first *)
  terms : list regex;        (* terms of the open alternative, last first *)
  quantifiable : bool;       (* the last term is an atom *)
  capturing : option nat     (* [Some n] inside the n-th capturing group *)
}.

Definition openFrame (g : option nat) : frame := mkFrame [] [] false g.

Definition alternative (ts : list regex) : regex :=
  fold_left (fun acc t => match acc with Empty => t | _ => Seq t acc end)
            ts Empty.

Definition disjunction (f : frame) : regex :=
  fold_left (fun acc a => Alt a acc) (closedAlts f) (alternative (terms f)).

Definition closeGroup (f : frame) : regex :=
  match capturing f with
  | Some n => Group n (disjunction f)
  | None => disjunction f
  end.

Definition pushTerm (t : regex) (q : bool) (f : frame) : frame :=
  mkFrame (closedAlts f) (t :: terms f) q (capturing f).

Definition isAlnum (c : ascii) : bool :=
  Char.isAsciiLetter c || Char.isDigit c.

(** What [\e] stands for; [None] when outside the fragment. *)
Definition escape (e : ascii) : option (regex * bool) :=
  match e with
  | "b"%char => Some (WordBoundary false, false)
  | "B"%char => Some (WordBoundary true, false)
  | "d"%char => Some (Class false Digit, true)
  | "D"%char => Some (Class true Digit, true)
  | "s"%char => Some (Class false Space, true)
  | "S"%char => Some (Class true Space, true)
  | "w"%char => Some (Class false Word, true)
  | "W"%char => Some (Class true Word, true)
  | "t"%char => Some (Chr (ascii_of_nat 9), true)
  | "n"%char => Some (Chr (ascii_of_nat 10), true)
  | "v"%char => Some (Chr (ascii_of_nat 11), true)
  | "f"%char => Some (Chr (ascii_of_nat 12), true)
  | "r"%char => Some (Chr (ascii_of_nat 13), true)
  | _ => if isAlnum e then None else Some (Chr e, true)
  end.

Definition quantify (q : ascii) (t : regex) : regex :=
  match q with
  | "*"%char => Star t
  | "+"%char => Plus t
  | _ => Opt t
  end.

Fixpoint parseFrom (p : string) (ngroups : nat) (stack : list frame)
    (f : frame) {struct p} : outcome regex :=
  match p with
  | EmptyString =>
      match stack with
      | [] => Returns (disjunction f)
      | _ :: _ => Throws SyntaxError           (* unterminated group *)
      end
  | String c r =>
      match c with
      | "|"%char =>
          parseFrom r ngroups stack
            (mkFrame (alternative (terms f) :: closedAlts f) [] false
                     (capturing f))
      | "("%char =>
          match r with
          | String "?"%char (String ":"%char r') =>
              parseFrom r' ngroups (f :: stack) (openFrame None)
          | String "?"%char _ => Unmodelled
          | _ =>
              parseFrom r (S ngroups) (f :: stack)
                        (openFrame (Some (S ngroups)))
          end
      | ")"%char =>
          match stack with
          | [] => Throws SyntaxError           (* unmatched ')' *)
          | g :: stack' =>
              parseFrom r ngroups stack' (pushTerm (closeGroup f) true g)
          end
      | "*"%char | "+"%char | "?"%char =>
          match quantifiable f, terms f with
          | true, t :: ts =>
              match r with
              | String "?"%char _ => Unmodelled (* lazy quantifier *)
              | _ =>
                  parseFrom r ngroups stack
                    (mkFrame (closedAlts f) (quantify c t :: ts) false
                             (capturing f))
              end
          | _, _ => Throws SyntaxError         (* nothing to repeat *)
          end
      | "\"%char =>
          match r with
          | EmptyString => Throws SyntaxError  (* \ at end of pattern *)
          | String e r' =>
              match escape e with
              | Some (t, q) => parseFrom r' ngroups stack (pushTerm t q f)
              | None => Unmodelled
              end
          end
      | "."%char => parseFrom r ngroups stack (pushTerm Any true f)
      | "^"%char => parseFrom r ngroups stack (pushTerm InputStart false f)
      | "$"%char => parseFrom r ngroups stack (pushTerm InputEnd false f)
      | "["%char | "{"%char => Unmodelled
      | _ => parseFrom r ngroups stack (pushTerm (Chr c) true f)
      end
  end.

Definition parse (p : string) : outcome regex :=
  parseFrom p 0 [] (openFrame None).

(** [new RegExp(pattern, 'i')]. *)
Definition newRegExpI (p : string) : outcome regexp :=
  do r <- parse p; Returns (mkRegExp r true).

End RegExp.

(* ================================================================== *)
(** * normalize *)

(** The class of the first [replace]: the characters between the brackets,
    with [g]. *)
Definition punctuationPattern : RegExp.regexp :=
  RegExp.mkRegExp (RegExp.Class false (RegExp.OneOf Char.punctuation)) false.

(** The pattern of the second [replace]: [\s] twice, then [\s] any number of
    times, which is [\s{2,}]; with [g]. *)
Definition whiteSpaceRunPattern : RegExp.regexp :=
  RegExp.mkRegExp
    (RegExp.Seq (RegExp.Class false RegExp.Space)
       (RegExp.Seq (RegExp.Class false RegExp.Space)
          (RegExp.Star (RegExp.Class false RegExp.Space))))
    false.

(** The chain of the [return] statement, on a string. *)
Definition normalizeString (text : string) : string :=
  Str.trim
    (RegExp.replaceAll whiteSpaceRunPattern " "
       (RegExp.replaceAll punctuationPattern "" (Str.toLowerCase text))).

(** [normalize(text)]: a falsy argument gives [''] ; a string goes through
    the chain; a non-zero Number has no [toLowerCase] method. *)
Definition normalize (text : jsvalue) : outcome string :=
  if negb (truthy text) then Returns ""
  else match text with
       | JStr s => Returns (normalizeString s)
       | _ => Throws TypeError
       end.

(* ================================================================== *)
(** * normalize on strings of 16-bit code units

    A JavaScript string is a sequence of 16-bit code units, and
    [toLowerCase] works on the code points they encode.  [Wide.normalize]
    is [normalize] on such strings.  Its [toLowerCase] covers the code
    points below 256, U+0130, the surrogates that stand alone, and the
    Deseret letters; on a string with another code point it is
    [Unmodelled].  The two [replace] calls and [trim] are in their direct
    forms: every code unit of the class deleted, every run of two or more
    white space code units made one space, white space removed at both
    ends.  On strings of code units below 256 this is the [normalize]
    above ([NormalizeWide.normalize_below_256]). *)

Module Wide.

Local Open Scope N_scope.

Definition jsstring : Type := list N.

(** The string of code units below 256 as a sequence of code units. *)
Fixpoint ofString (s : string) : jsstring :=
  match s with
  | EmptyString => []
  | String c r => N_of_ascii c :: ofString r
  end.

Definition below256 (s : jsstring) : bool := forallb (fun u => u <? 256) s.

Definition isHighSurrogate (u : N) : bool := (0xD800 <=? u) && (u <=? 0xDBFF).
Definition isLowSurrogate (u : N) : bool := (0xDC00 <=? u) && (u <=? 0xDFFF).

(** StringToCodePoints: a high surrogate followed by a low one is one
    code point, any other code unit is a code point by itself. *)
Fixpoint codePoints (s : jsstring) : list N :=
  match s with
  | [] => []
  | u :: r =>
      match r with
      | v :: r' =>
          if isHighSurrogate u && isLowSurrogate v
          then (0x10000 + (u - 0xD800) * 0x400 + (v - 0xDC00)) :: codePoints r'
          else u :: codePoints r
      | [] => [u]
      end
  end.

(** UTF16EncodeCodePoint. *)
Definition encode (cp : N) : jsstring :=
  if cp <? 0x10000 then [cp]
  else [0xD800 + (cp - 0x10000) / 0x400; 0xDC00 + (cp - 0x10000) mod 0x400].

(** The lower case of a code point, by the Unicode Character Database:
    below 256 the table of [Char.toLower]; U+0130 gives U+0069 U+0307; a
    surrogate has no case; the Deseret capital letters U+10400..U+10427
    have their small letters 40 places on. *)
Definition lowerCodePoint (cp : N) : outcome (list N) :=
  if cp <? 0x100 then Returns [N_of_ascii (Char.toLower (ascii_of_N cp))]
  else if cp =? 0x130 then Returns [0x69; 0x307]
  else if isHighSurrogate cp || isLowSurrogate cp then Returns [cp]
  else if (0x10400 <=? cp) && (cp <=? 0x10427) then Returns [cp + 0x28]
  else if (0x10428 <=? cp) && (cp <=? 0x1044F) then Returns [cp]
  else Unmodelled.

Fixpoint lowerAll (cps : list N) : outcome jsstring :=
  match cps with
  | [] => Returns []
  | cp :: r =>
      do lowered <- lowerCodePoint cp;
      do rest <- lowerAll r;
      Returns (flat_map encode lowered ++ rest)%list
  end.

(** [String.prototype.toLowerCase]. *)
Definition toLowerCase (s : jsstring) : outcome jsstring :=
  lowerAll (codePoints s).

(** WhiteSpace and LineTerminator of ECMAScript: what [\s] matches and
    [trim] removes. *)
Definition isWhiteSpace (u : N) : bool :=
  existsb (N.eqb u)
    [0x9; 0xA; 0xB; 0xC; 0xD; 0x20; 0xA0; 0x1680; 0x2028; 0x2029; 0x202F;
     0x205F; 0x3000; 0xFEFF]
  || ((0x2000 <=? u) && (u <=? 0x200A)).

(** The class of the first [replace]. *)
Definition isPunctuation (u : N) : bool :=
  existsb (N.eqb u) (List.map N_of_ascii Char.punctuation).

(** The first [replace]: every code unit of the class is deleted. *)
Definition deleteAll (s : jsstring) : jsstring :=
  List.filter (fun u => negb (isPunctuation u)) s.

Definition headIsWhiteSpace (s : jsstring) : bool :=
  match s with [] => false | u :: _ => isWhiteSpace u end.

(** The second [replace]: every run of two or more white space code units
    becomes one space; [inRun] as in [Direct.collapseRuns]. *)
Fixpoint collapseRuns (inRun : bool) (s : jsstring) : jsstring :=
  match s with
  | [] => []
  | u :: r =>
      if isWhiteSpace u then
        if inRun then collapseRuns true r
        else if headIsWhiteSpace r
             then 0x20 :: collapseRuns true r
             else u :: collapseRuns false r
      else u :: collapseRuns false r
  end.

Fixpoint trimStart (s : jsstring) : jsstring :=
  match s with
  | [] => []
  | u :: r => if isWhiteSpace u then trimStart r else s
  end.

Fixpoint trimEnd (s : jsstring) : jsstring :=
  match s with
  | [] => []
  | u :: r =>
      let r' := trimEnd r in
      if isWhiteSpace u && match r' with [] => true | _ => false end
      then [] else u :: r'
  end.

Definition trim (s : jsstring) : jsstring := trimEnd (trimStart s).

(** The chain of the [return] statement after [toLowerCase]. *)
Definition afterLowerCase (lowered : jsstring) : jsstring :=
  trim (collapseRuns false (deleteAll lowered)).

(** [normalize(text)] for a string, or for [undefined] or [null]
    ([None]). *)
Definition normalize (text : option jsstring) : outcome jsstring :=
  match text with
  | None | Some [] => Returns []
  | Some s =>
      do lowered <- toLowerCase s;
      Returns (afterLowerCase lowered)
  end.

End Wide.

(* ================================================================== *)
(** * The verification report *)

Inductive FieldName : Type :=
| BrandName
| ProductClass
| AlcoholContent
| NetContents
| GovernmentWarning.

Inductive MatchStatus : Type :=
| Match
| NotFoundOrMismatch
| MismatchUnitMissing.

(** The texts the engine writes in the [field] and [status] properties. *)
Definition fieldText (f : FieldName) : string :=
  match f with
  | BrandName => "Brand Name"
  | ProductClass => "Product Class/Type"
  | AlcoholContent => "Alcohol Content"
  | NetContents => "Net Contents"
  | GovernmentWarning => "Government Warning"
  end.

Definition statusText (s : MatchStatus) : string :=
  match s with
  | Match => "Match"
  | NotFoundOrMismatch => "Not Found/Mismatch"
  | MismatchUnitMissing => "Mismatch (Unit Missing)"
  end.

Definition isMatch (s : MatchStatus) : bool :=
  match s with Match => true | _ => false end.

Record FieldCheck : Type := mkCheck {
  field : FieldName;
  status : MatchStatus;
  expected : jsvalue
}.

Record VerificationReport : Type := mkReport {
  overall_match : bool;
  discrepancies : list FieldCheck
}.

(** The object submitted by the form.  A property that is not there reads
    as [JUndefined]. *)
Module Form.
Record t : Type := mk {
  brandName : jsvalue;
  productClass : jsvalue;
  alcoholContent : jsvalue;
  netContents : jsvalue
}.
End Form.

(* ================================================================== *)
(** * performVerification *)

Section Patterns.
Import RegExp.

(** The literal of [volumeOnly]: one capturing group holding [\d+], an
    optional [\.] and [\d*]; no flag. *)
Definition volumeOnlyPattern : regexp :=
  mkRegExp
    (Group 1 (Seq (Plus (Class false Digit))
                  (Seq (Opt (Chr ".")) (Star (Class false Digit)))))
    false.

(** The literal of [netContentsMatch]: the same group, then [\s*], then a
    second capturing group holding [[a-zA-Z]+]; flag [i]. *)
Definition netContentsPattern : regexp :=
  mkRegExp
    (Seq (Group 1 (Seq (Plus (Class false Digit))
                       (Seq (Opt (Chr ".")) (Star (Class false Digit)))))
         (Seq (Star (Class false Space))
              (Group 2 (Plus (Class false Letter)))))
    true.

(** The template of [abvRegex], with [alcoholContent] spliced in twice. *)
Definition abvPatternText (alcoholContent : string) : string :=
  String.append "\b"
 (String.append alcoholContent
 (String.append "(?:\.0)?\s*%\s*(?:alc\.|vol\.|by\s*vol\.)?|\b"
 (String.append alcoholContent "(?:\.0)?\s*%"))).

(** The template of [searchRegex]. *)
Definition searchPatternText (volume unitPattern : string) : string :=
  String.append "\b"
 (String.append volume
 (String.append "\s*"
 (String.append unitPattern "\b"))).

(** [m[n]] of a match array: the capture, or [undefined]. *)
Definition matchAt (m : matchResult) (n : nat) : jsvalue :=
  match group m n with
  | Some s => JStr s
  | None => JUndefined
  end.

(** [v.match(re)]: only a string has the method. *)
Definition matchMethod (v : jsvalue) (re : regexp)
    : outcome (option matchResult) :=
  match v with
  | JStr s => Returns (exec re s)
  | _ => Throws TypeError
  end.

End Patterns.

(** [results.push(x)] *)
Definition push {A : Type} (results : list A) (x : A) : list A :=
  (results ++ [x])%list.

Definition doubleQuote : string := String (ascii_of_nat 34) EmptyString.

(** ['Phrase "GOVERNMENT WARNING" present'] *)
Definition warningExpected : string :=
  String.append "Phrase "
 (String.append doubleQuote
 (String.append "GOVERNMENT WARNING"
 (String.append doubleQuote " present"))).

Definition performVerification (extractedText : string) (formInput : Form.t)
    : outcome VerificationReport :=
  do normalizedText <- normalize (JStr extractedText);
  let results : list FieldCheck := [] in
  let overallMatch := true in

  (* --- 0. Setup Normalized Inputs --- *)
  do brandName <- normalize (orElse (Form.brandName formInput) (JStr ""));
  do productClass <- normalize (orElse (Form.productClass formInput) (JStr ""));
  do netContents <- normalize (orElse (Form.netContents formInput) (JStr ""));
  let alcoholContent :=
    Str.trim (toString (orElse (Form.alcoholContent formInput) (JNum 0))) in

  (* --- 1. Brand Name Check --- *)
  let brandFound :=
    (0 <? String.length brandName) && Str.includes normalizedText brandName in
  let brandStatus := if brandFound then Match else NotFoundOrMismatch in
  let overallMatch := if brandFound then overallMatch else false in
  let results :=
    push results (mkCheck BrandName brandStatus (Form.brandName formInput)) in

  (* --- 2. Product Class/Type Check --- *)
  let classFound :=
    (0 <? String.length productClass)
    && Str.includes normalizedText productClass in
  let classStatus := if classFound then Match else NotFoundOrMismatch in
  let overallMatch := if classFound then overallMatch else false in
  let results :=
    push results (mkCheck ProductClass classStatus (Form.productClass formInput)) in

  (* --- 3. Alcohol Content (ABV) Check --- *)
  do abvRegex <- RegExp.newRegExpI (abvPatternText alcoholContent);
  let abvFound :=
    negb (String.eqb alcoholContent "0") && RegExp.test abvRegex extractedText in
  let abvStatus := if abvFound then Match else NotFoundOrMismatch in
  let overallMatch := if abvFound then overallMatch else false in
  let results :=
    push results (mkCheck AlcoholContent abvStatus
                  (JStr (plusString (Form.alcoholContent formInput)
                                    "% (within tolerance)"))) in

  (* --- 4. Net Contents Check --- *)
  let isMandatoryCheck := 0 <? String.length netContents in
  do netContentsMatch <-
    matchMethod (Form.netContents formInput) netContentsPattern;
  do net <-
    match netContentsMatch with
    | Some m =>
        let volume := matchAt m 1 in
        do unit <- normalize (matchAt m 2);
        let unitPattern :=
          Str.replaceFirst
            (Str.replaceFirst unit "floz" "fl\s*oz|floz")
            "ml" "m\s*l|ml|milliliter|millilitres" in
        do searchRegex <-
          RegExp.newRegExpI (searchPatternText (toString volume) unitPattern);
        if RegExp.test searchRegex normalizedText
        then Returns (Match, overallMatch)
        else Returns (NotFoundOrMismatch,
                      if isMandatoryCheck then false else overallMatch)
    | None =>
        if isMandatoryCheck then
          do normalizedDeclared <- normalize (Form.netContents formInput);
          match RegExp.exec volumeOnlyPattern normalizedDeclared with
          | Some volumeOnly =>
              if Str.includes normalizedText (toString (matchAt volumeOnly 1))
              then Returns (MismatchUnitMissing, false)
              else Returns (NotFoundOrMismatch, false)
          | None => Returns (NotFoundOrMismatch, false)
          end
        else Returns (NotFoundOrMismatch, overallMatch)
    end;
  let netStatus := fst net in
  let overallMatch := snd net in
  let results :=
    push results (mkCheck NetContents netStatus
                  (JStr (plusString (Form.netContents formInput)
                           (if isMandatoryCheck then "" else " (Optional)")))) in

  (* --- 5. Government Warning Check --- *)
  let warningPhrase := "government warning" in
  let warningFound := Str.includes normalizedText warningPhrase in
  let warningStatus := if warningFound then Match else NotFoundOrMismatch in
  let overallMatch := if warningFound then overallMatch else false in
  let results :=
    push results (mkCheck GovernmentWarning warningStatus (JStr warningExpected)) in

  Returns (mkReport overallMatch results).

(* ================================================================== *)
(** * The route POST /api/verify

    The handler of the route, with what it does to the outside written as
    a trace of events: the call of the text detection, what it logs, the
    response it sends and the removal of the uploaded file.  The two
    collaborators, the text detection and the file system, are the fields
    of [world]; the engine is the parameter [verify], as the two versions
    of the server file have the same handler around their own engine. *)

Module Route.

(** The fixed texts of the responses: "No image file uploaded.", "A server
    error occurred during AI processing. Check Google Vision setup.", and
    the text of the [error] property when no text was read. *)
Inductive notice : Type :=
| NoImageFile
| ProcessingError
| NoTextRead.

(** What was caught: what the text detection rejected with, or an error
    thrown by the engine.  A rejection is [null] or [undefined] ([None]),
    or a value of which the handler reads the property [message]
    ([JUndefined] when it has none). *)
Inductive cause : Type :=
| Provider (error : option jsvalue)
| Engine (e : jserror).

(** The object given to [res.json]: [{success: false, message, details}],
    or [{success: true, ...verificationResults, extracted_text, form_input}],
    where [discrepancies] and [error] are there or not.  The [details] are
    the [message] of the cause. *)
Inductive body : Type :=
| Refused (message : notice) (details : option cause)
| Answered (overallMatch : bool) (rows : option (list FieldCheck))
           (error : option notice) (extractedText : string)
           (formInput : Form.t).

Record response : Type := mkResponse { statusCode : nat; json : body }.

Inductive event : Type :=
| TextDetection (imagePath : string)
| LogError (c : cause)
| Respond (r : response)
| Unlink (imagePath : string)
| LogUnlinkError (message : string).

(** What [visionClient.textDetection] does: it rejects, with [null] or
    [undefined] or with a value that has a [message] or not; or it answers
    with [result.textAnnotations], absent or an array, of which the
    handler reads the [description] of the first element, a string. *)
Inductive ocrOutcome : Type :=
| OcrFails (error : option jsvalue)
| OcrAnswers (textAnnotations : option (list string)).

Record world : Type := mkWorld {
  textDetection : string -> ocrOutcome;
  unlink : string -> option string     (* the [err] of the callback *)
}.

(** [req.file], as the path of the stored upload, and [req.body]. *)
Record request : Type := mkRequest {
  file : option string;
  formFields : Form.t
}.

(** [extractedText.substring(0, 300) + (extractedText.length > 300 ? '...' : '')] *)
Definition excerpt (extractedText : string) : string :=
  String.append (String.substring 0 300 extractedText)
                (if 300 <? String.length extractedText then "..." else "").

Section Handler.

Variable verify : string -> Form.t -> outcome VerificationReport.
Variable env : world.

(** The [catch] block: it logs what was caught, then builds the body of
    the response.  Reading [error.message] throws a TypeError when what
    was caught is [null] or [undefined]: the block ends there, before the
    response is sent. *)
Definition caught (c : cause) : list event * outcome unit :=
  match c with
  | Provider None => ([LogError c], Throws TypeError)
  | _ =>
      ([LogError c; Respond (mkResponse 500 (Refused ProcessingError (Some c)))],
       Returns tt)
  end.

(** The [finally] block, and the callback of [fs.unlink]. *)
Definition cleanup (imagePath : string) : list event :=
  Unlink imagePath ::
  match unlink env imagePath with
  | Some message => [LogUnlinkError message]
  | None => []
  end.

(** The [try] block with its [catch]: what happens after the call of the
    text detection, and how it ends. *)
Definition attempt (imagePath : string) (formFields : Form.t)
    : list event * outcome unit :=
  match textDetection env imagePath with
  | OcrFails error => caught (Provider error)
  | OcrAnswers detections =>
      match detections with
      | None | Some [] =>
          ([Respond (mkResponse 200
                       (Answered false None (Some NoTextRead) (excerpt "")
                                 formFields))],
           Returns tt)
      | Some (description :: _) =>
          let extractedText := description in
          match verify extractedText formFields with
          | Returns verificationResults =>
              ([Respond (mkResponse 200
                           (Answered (overall_match verificationResults)
                                     (Some (discrepancies verificationResults))
                                     None (excerpt extractedText) formFields))],
               Returns tt)
          | Throws e => caught (Engine e)
          | Unmodelled => ([], Unmodelled)
          end
      end
  end.

(** The handler: what it does, and how it ends.  The [finally] block runs
    however the [try] and the [catch] end. *)
Definition serve (req : request) : list event * outcome unit :=
  match file req with
  | None =>
      ([Respond (mkResponse 400 (Refused NoImageFile None))], Returns tt)
  | Some imagePath =>
      let (events, completion) := attempt imagePath (formFields req) in
      ((TextDetection imagePath :: events ++ cleanup imagePath)%list,
       completion)
  end.

(** The trace of a request that the handler finishes; an exception that
    leaves the handler otherwise. *)
Definition handler (req : request) : outcome (list event) :=
  match serve req with
  | (trace, Returns _) => Returns trace
  | (_, Throws e) => Throws e
  | (_, Unmodelled) => Unmodelled
  end.

End Handler.

End Route.

(** The route of the server file that exports [performVerification]. *)
Definition verifyRoute : Route.world -> Route.request -> outcome (list Route.event) :=
  Route.handler performVerification.

(* ================================================================== *)
(** * The earlier server file

    [performVerification] of the server file without the net contents and
    product class checks: the text is lower-cased only, and the report has
    three rows. *)

Module Legacy.

(** [v.toLowerCase()]: only a string has the method. *)
Definition toLowerCaseOf (v : jsvalue) : outcome string :=
  match v with
  | JStr s => Returns (Str.toLowerCase s)
  | _ => Throws TypeError
  end.

(** The template of [abvRegex]. *)
Definition abvPatternText (alcoholContent : string) : string :=
  String.append "\b"
 (String.append alcoholContent
 (String.append "(\.0)?%|"
 (String.append alcoholContent "(\.0)?\s*(alc\.|vol\.)"))).

Definition performVerification (extractedText : string) (formInput : Form.t)
    : outcome VerificationReport :=
  let normalizedText := Str.toLowerCase extractedText in
  let results : list FieldCheck := [] in
  let overallMatch := true in

  (* --- 1. Brand Name Check --- *)
  do lowered <- toLowerCaseOf (orElse (Form.brandName formInput) (JStr ""));
  let brandName := Str.trim lowered in
  let brandFound :=
    (0 <? String.length brandName) && Str.includes normalizedText brandName in
  let brandStatus := if brandFound then Match else NotFoundOrMismatch in
  let overallMatch := if brandFound then overallMatch else false in
  let results :=
    push results (mkCheck BrandName brandStatus (Form.brandName formInput)) in

  (* --- 2. Alcohol Content (ABV) Check --- *)
  let alcoholContent :=
    Str.trim (toString (orElse (Form.alcoholContent formInput) (JNum 0))) in
  do abvRegex <- RegExp.newRegExpI (abvPatternText alcoholContent);
  let abvFound :=
    negb (String.eqb alcoholContent "0") && RegExp.test abvRegex extractedText in
  let abvStatus := if abvFound then Match else NotFoundOrMismatch in
  let overallMatch := if abvFound then overallMatch else false in
  let results :=
    push results (mkCheck AlcoholContent abvStatus
                    (JStr (plusString (Form.alcoholContent formInput) "%"))) in

  (* --- 3. Bonus Check: Government Warning --- *)
  let warningText := "government warning" in
  let warningFound := Str.includes normalizedText warningText in
  let warningStatus := if warningFound then Match else NotFoundOrMismatch in
  let overallMatch := if warningFound then overallMatch else false in
  let results :=
    push results (mkCheck GovernmentWarning warningStatus (JStr warningText)) in

  Returns (mkReport overallMatch results).

(** The route of that file. *)
Definition verifyRoute : Route.world -> Route.request -> outcome (list Route.event) :=
  Route.handler performVerification.

End Legacy.

(* ================================================================== *)
(** * Definitions for the statements and the proofs

    From here on nothing is part of the engine: these are the notions the
    theorems are stated with, and direct recursive forms of what the
    matcher computes for the engine's own patterns. *)

(** ** Direct forms on strings *)

Module Direct.

Fixpoint filter (p : ascii -> bool) (s : string) : string :=
  match s with
  | EmptyString => EmptyString
  | String c r => if p c then String c (filter p r) else filter p r
  end.

Fixpoint all (p : ascii -> bool) (s : string) : bool :=
  match s with
  | EmptyString => true
  | String c r => p c && all p r
  end.

(** Does the string start with a character satisfying [p]? *)
Definition headIs (p : ascii -> bool) (s : string) : bool :=
  match s with EmptyString => false | String c _ => p c end.

Fixpoint takeWhile (p : ascii -> bool) (s : string) : string :=
  match s with
  | EmptyString => EmptyString
  | String c r => if p c then String c (takeWhile p r) else EmptyString
  end.

Fixpoint dropWhile (p : ascii -> bool) (s : string) : string :=
  match s with
  | EmptyString => EmptyString
  | String c r => if p c then dropWhile p r else s
  end.

(** Every character of the class is deleted: the first [replace] of
    [normalize]. *)
Definition deleteAll (cls : ascii -> bool) (s : string) : string :=
  filter (fun c => negb (cls c)) s.

(** Every run of two or more white space characters becomes one space: the
    second [replace] of [normalize].  [inRun] says that the scan is inside
    such a run, whose space has been written. *)
Fixpoint collapseRuns (inRun : bool) (s : string) : string :=
  match s with
  | EmptyString => EmptyString
  | String c r =>
      if Char.isWhiteSpace c then
        if inRun then collapseRuns true r
        else if headIs Char.isWhiteSpace r
             then String " " (collapseRuns true r)
             else String c (collapseRuns false r)
      else String c (collapseRuns false r)
  end.

Definition collapseWhiteSpace (s : string) : string := collapseRuns false s.

(** The first numeric substring of a string, in the words of the
    specification: the leftmost maximal run of decimal digits. *)
Fixpoint firstNumericSubstring (s : string) : option string :=
  match s with
  | EmptyString => None
  | String c r =>
      if Char.isDigit c then Some (String c (takeWhile Char.isDigit r))
      else firstNumericSubstring r
  end.

End Direct.

(** ** What [normalize] returns *)

(** A character [toLowerCase] leaves alone. *)
Definition lowerFixed (c : ascii) : bool := Ascii.eqb (Char.toLower c) c.

Definition notPunctuation (c : ascii) : bool := negb (Char.isPunctuation c).

(** No two adjacent white space characters. *)
Fixpoint noWhiteSpacePair (s : string) : bool :=
  match s with
  | EmptyString => true
  | String c r =>
      negb (Char.isWhiteSpace c && Direct.headIs Char.isWhiteSpace r)
      && noWhiteSpacePair r
  end.

(** The shape of every value [normalize] returns. *)
Record normalized (n : string) : Prop := {
  norm_lower : Direct.all lowerFixed n = true;
  norm_punct : Direct.all notPunctuation n = true;
  norm_pairs : noWhiteSpacePair n = true;
  norm_trim : Str.trim n = n
}.

(** ** Positions and continuations of the matcher *)

Module Position.
Import RegExp.

(** The position after the longest run of [p] characters. *)
Fixpoint skipFrom (p : ascii -> bool) (before : option ascii) (s : string)
    : option ascii * string :=
  match s with
  | EmptyString => (before, s)
  | String c r => if p c then skipFrom p (Some c) r else (before, s)
  end.

Definition skip (p : ascii -> bool) (st : mstate) : mstate :=
  mkState (fst (skipFrom p (prev st) (rest st)))
          (snd (skipFrom p (prev st) (rest st)))
          (caps st).

(** The matcher of a one-character class. *)
Definition one (p : ascii -> bool) : matcher := fun st k => step p st k.

(** The continuations of the pattern of [volumeOnly], from the inside
    out: closing group 1, [\d*], the optional dot. *)
Definition close (start : mstate) : mstate -> option mstate :=
  fun st' =>
    Some (mkState (prev st') (rest st')
                  ((1, consumed start st') :: caps st')).

Definition digits (k : mstate -> option mstate) : mstate -> option mstate :=
  fun st => iterate (one Char.isDigit) k (String.length (rest st)) st.

Definition optionalDot (k : mstate -> option mstate)
    : mstate -> option mstate :=
  fun st =>
    match step (sameChar false ".") st k with
    | Some m => Some m
    | None => k st
    end.

End Position.

(** ** What a pattern matches

    A declarative reading of the patterns, against which the matcher is
    checked: [matches ci r st st'] says that [r] matches the input between
    the positions [st] and [st'], and that [st'] holds the captures made on
    the way. *)

Module Semantics.
Import RegExp.

(** The test of a pattern that consumes one character. *)
Definition leaf (ci : bool) (r : regex) : option (ascii -> bool) :=
  match r with
  | Chr c => Some (sameChar ci c)
  | Any => Some (fun d => negb (Char.isLineTerminator d))
  | Class neg cl => Some (fun d => xorb neg (inClass ci cl d))
  | _ => None
  end.

(** The test of a pattern that consumes nothing. *)
Definition assertion (r : regex) : option (mstate -> bool) :=
  match r with
  | WordBoundary neg => Some (fun st => xorb neg (atWordBoundary st))
  | InputStart => Some (fun st => match prev st with None => true | Some _ => false end)
  | InputEnd => Some (fun st => Str.isEmpty (rest st))
  | _ => None
  end.

(** [matches ci r st st']: [r] matches the input between the positions
    [st] and [st'], and [st'] holds the captures made on the way. *)
Inductive matches (ci : bool) : regex -> mstate -> mstate -> Prop :=
| MEmpty st : matches ci Empty st st
| MLeaf r p st c t :
    leaf ci r = Some p -> rest st = String c t -> p c = true ->
    matches ci r st (mkState (Some c) t (caps st))
| MAssert r a st :
    assertion r = Some a -> a st = true -> matches ci r st st
| MSeq r1 r2 st st1 st2 :
    matches ci r1 st st1 -> matches ci r2 st1 st2 ->
    matches ci (Seq r1 r2) st st2
| MAltL r1 r2 st st' : matches ci r1 st st' -> matches ci (Alt r1 r2) st st'
| MAltR r1 r2 st st' : matches ci r2 st st' -> matches ci (Alt r1 r2) st st'
| MStarNil r st : matches ci (Star r) st st
| MStarCons r st st1 st2 :
    matches ci r st st1 -> matches ci (Star r) st1 st2 ->
    matches ci (Star r) st st2
| MGroup n r st st' :
    matches ci r st st' ->
    matches ci (Group n r) st
            (mkState (prev st') (rest st') ((n, consumed st st') :: caps st')).

End Semantics.

(** ** Patterns over a set of characters *)

Module Alphabet.
Import RegExp Semantics.

(** Every character [r] can consume satisfies [P], and [r] has no
    capturing group. *)
Fixpoint alphabet (ci : bool) (P : ascii -> bool) (r : regex) : Prop :=
  match r with
  | Empty | WordBoundary _ | InputStart | InputEnd => True
  | Chr _ | Any | Class _ _ =>
      forall p d, leaf ci r = Some p -> p d = true -> P d = true
  | Seq r1 r2 | Alt r1 r2 => alphabet ci P r1 /\ alphabet ci P r2
  | Star r1 => alphabet ci P r1
  | Group _ _ => False
  end.

Definition digitOrDot (c : ascii) : bool :=
  Char.isDigit c || Ascii.eqb c ".".

End Alphabet.

(** ** Pattern texts without parentheses

    What the constructor makes of the texts of [searchRegex]: a reading of
    a pattern text character by character. *)

Module PatternText.

(** What the constructor has read of a pattern text without parentheses:
    whether the last term takes a quantifier, or a backslash, or a
    quantifier has just been read. *)
Inductive pstate : Type :=
| Term (quantifiable : bool)
| Backslash
| Quantified.

(** A character that stands for itself in a pattern. *)
Definition plain (c : ascii) : bool :=
  negb (existsb (Ascii.eqb c) (list_ascii_of_string "|()*+?\.^$[{")).

Definition afterTerm (q : bool) (c : ascii) : option pstate :=
  if Ascii.eqb c "\" then Some Backslash
  else if Ascii.eqb c "*" then (if q then Some Quantified else None)
  else if Ascii.eqb c "|" then Some (Term false)
  else if Ascii.eqb c "." then Some (Term true)
  else if plain c then Some (Term true)
  else None.

Definition next (st : pstate) (c : ascii) : option pstate :=
  match st with
  | Term q => afterTerm q c
  | Backslash =>
      if Ascii.eqb c "s" then Some (Term true)
      else if Ascii.eqb c "b" then Some (Term false)
      else None
  | Quantified => if Ascii.eqb c "?" then None else afterTerm false c
  end.

Fixpoint read (st : pstate) (s : string) : option pstate :=
  match s with
  | EmptyString => Some st
  | String c r =>
      match next st c with
      | Some st' => read st' r
      | None => None
      end
  end.

Definition complete (o : option pstate) : bool :=
  match o with
  | Some (Term _) | Some Quantified => true
  | _ => false
  end.

(** A frame on which a quantifier finds its term. *)
Definition ready (f : RegExp.frame) : Prop :=
  RegExp.quantifiable f = true -> RegExp.terms f <> [].

(** The frame after the plain characters of [s]. *)
Fixpoint pushPlain (s : string) (f : RegExp.frame) : RegExp.frame :=
  match s with
  | EmptyString => f
  | String c r => pushPlain r (RegExp.pushTerm (RegExp.Chr c) true f)
  end.

End PatternText.

(** ** Forms the engine is written for *)

Module WellFormed.

(** A field that [normalize(v || '')] accepts: anything but a non-zero
    Number. *)
Definition textual (v : jsvalue) : Prop :=
  match v with
  | JNum z => z = 0%Z
  | _ => True
  end.

(** A character of a pattern text that is one term by itself. *)
Definition simple (c : ascii) : bool :=
  PatternText.plain c || Ascii.eqb c ".".

Definition settled (st : PatternText.pstate) : bool :=
  match st with
  | PatternText.Backslash => false
  | _ => true
  end.

End WellFormed.

(** ** The pieces of [performVerification] *)

Section Pieces.

(** [normalize(v || '')], the declared text of a field. *)
Definition declaredText (v : jsvalue) : outcome string :=
  normalize (orElse v (JStr "")).

(** [String(formInput.alcoholContent || 0).trim()] *)
Definition declaredAbv (formInput : Form.t) : string :=
  Str.trim (toString (orElse (Form.alcoholContent formInput) (JNum 0))).

(** The condition of checks 1 and 2. *)
Definition substringFound (normalizedText declared : string) : bool :=
  (0 <? String.length declared) && Str.includes normalizedText declared.

(** The condition of check 3. *)
Definition abvFound (abvRegex : RegExp.regexp) (alcoholContent extractedText : string)
    : bool :=
  negb (String.eqb alcoholContent "0") && RegExp.test abvRegex extractedText.

(** [unit.replace('floz', ...).replace('ml', ...)] *)
Definition unitPatternOf (unit : string) : string :=
  Str.replaceFirst
    (Str.replaceFirst unit "floz" "fl\s*oz|floz")
    "ml" "m\s*l|ml|milliliter|millilitres".

(** Check 4 from [if (netContentsMatch)] to the end of the [else if]:
    the status and the new [overallMatch]. *)
Definition netContentsTiers (normalizedText : string) (formInput : Form.t)
    (isMandatoryCheck overallMatch : bool)
    (netContentsMatch : option RegExp.matchResult)
    : outcome (MatchStatus * bool) :=
  match netContentsMatch with
  | Some m =>
      let volume := matchAt m 1 in
      do unit <- normalize (matchAt m 2);
      let unitPattern := unitPatternOf unit in
      do searchRegex <-
        RegExp.newRegExpI (searchPatternText (toString volume) unitPattern);
      if RegExp.test searchRegex normalizedText
      then Returns (Match, overallMatch)
      else Returns (NotFoundOrMismatch,
                    if isMandatoryCheck then false else overallMatch)
  | None =>
      if isMandatoryCheck then
        do normalizedDeclared <- normalize (Form.netContents formInput);
        match RegExp.exec volumeOnlyPattern normalizedDeclared with
        | Some volumeOnly =>
            if Str.includes normalizedText (toString (matchAt volumeOnly 1))
            then Returns (MismatchUnitMissing, false)
            else Returns (NotFoundOrMismatch, false)
        | None => Returns (NotFoundOrMismatch, false)
        end
      else Returns (NotFoundOrMismatch, overallMatch)
  end.

Definition found (b : bool) : MatchStatus :=
  if b then Match else NotFoundOrMismatch.

(** The five rows, given what the checks found. *)
Definition rows (formInput : Form.t) (brand class abv : bool)
    (netStatus : MatchStatus) (isMandatoryCheck warning : bool)
    : list FieldCheck :=
  [ mkCheck BrandName (found brand) (Form.brandName formInput);
    mkCheck ProductClass (found class) (Form.productClass formInput);
    mkCheck AlcoholContent (found abv)
      (JStr (plusString (Form.alcoholContent formInput) "% (within tolerance)"));
    mkCheck NetContents netStatus
      (JStr (plusString (Form.netContents formInput)
               (if isMandatoryCheck then "" else " (Optional)")));
    mkCheck GovernmentWarning (found warning) (JStr warningExpected) ].

End Pieces.

(** ** Reading a report *)

Definition fieldEqb (a b : FieldName) : bool :=
  match a, b with
  | BrandName, BrandName
  | ProductClass, ProductClass
  | AlcoholContent, AlcoholContent
  | NetContents, NetContents
  | GovernmentWarning, GovernmentWarning => true
  | _, _ => false
  end.

(** [report.discrepancies.find(d => d.field === name)], and its status. *)
Definition rowOf (name : FieldName) (report : VerificationReport)
    : option FieldCheck :=
  find (fun d => fieldEqb (field d) name) (discrepancies report).

Definition statusOf (name : FieldName) (report : VerificationReport)
    : option MatchStatus :=
  option_map status (rowOf name report).

(** A check is mandatory: always for four of the fields, and for Net
    Contents when the declared value normalizes to a non-empty string. *)
Definition mandatory (formInput : Form.t) (name : FieldName) : Prop :=
  match name with
  | NetContents =>
      exists n, declaredText (Form.netContents formInput) = Returns n /\ n <> ""
  | _ => True
  end.

(** ** The scenarios of the test suite *)

Module Scenario.

(** MOCK_OCR_TEXT *)
Definition labelText : string := "
    OLD TOM DISTILLERY
    Est. 1878
    Kentucky Straight Bourbon Whiskey
    45% Alc./Vol. (90 Proof)
    NET CONTENTS: 750 ML
    GOVERNMENT WARNING: 
    (1) ACCORDING TO THE SURGEON GENERAL...
".

(** Test 1: full success. *)
Definition fullSuccess : Form.t :=
  Form.mk (JStr "Old Tom Distillery")
          (JStr "Kentucky Straight Bourbon Whiskey")
          (JNum 45)
          (JStr "750 mL").

(** Test 2: brand name mismatch. *)
Definition brandMismatch : Form.t :=
  Form.mk (JStr "Old SAM Distillery")
          (JStr "Kentucky Straight Bourbon Whiskey")
          (JNum 45)
          (JStr "750 mL").

(** Test 3: another case, a shorter class, the unit without a space. *)
Definition normalizationTolerance : Form.t :=
  Form.mk (JStr "OLD TOM DISTILLERY")
          (JStr "Bourbon Whiskey")
          (JNum 45)
          (JStr "750ML").

(** Test 4: net contents without a unit. *)
Definition unitMissing : Form.t :=
  Form.mk (JStr "Old Tom Distillery")
          (JStr "Kentucky Straight Bourbon Whiskey")
          (JNum 45)
          (JStr "750").

(** Net contents declared as the empty string. *)
Definition netContentsEmpty : Form.t :=
  Form.mk (JStr "Old Tom Distillery")
          (JStr "Kentucky Straight Bourbon Whiskey")
          (JNum 45)
          (JStr "").

(** No [netContents] property at all. *)
Definition netContentsAbsent : Form.t :=
  Form.mk (JStr "Old Tom Distillery")
          (JStr "Kentucky Straight Bourbon Whiskey")
          (JNum 45)
          JUndefined.

(** No [alcoholContent] property. *)
Definition abvAbsent : Form.t :=
  Form.mk (JStr "Old Tom Distillery")
          (JStr "Kentucky Straight Bourbon Whiskey")
          JUndefined
          (JStr "750 mL").

(** An alcohol content that is not a number: an opening parenthesis. *)
Definition abvParenthesis : Form.t :=
  Form.mk (JStr "Old Tom Distillery")
          (JStr "Kentucky Straight Bourbon Whiskey")
          (JStr "(")
          (JStr "750 mL").

(** A label of another volume: 500 ml where 750 mL is declared. *)
Definition otherVolumeText : string :=
  "OLD TOM DISTILLERY Kentucky Straight Bourbon Whiskey 45% Alc./Vol. NET CONTENTS: 500 ML GOVERNMENT WARNING".

Definition reportOf (o : outcome VerificationReport) : VerificationReport :=
  match o with
  | Returns r => r
  | _ => mkReport false []
  end.

Definition fullSuccessReport : VerificationReport :=
  Eval vm_compute in reportOf (performVerification labelText fullSuccess).

Definition brandMismatchReport : VerificationReport :=
  Eval vm_compute in reportOf (performVerification labelText brandMismatch).

Definition unitMissingReport : VerificationReport :=
  Eval vm_compute in reportOf (performVerification labelText unitMissing).

Definition netContentsEmptyReport : VerificationReport :=
  Eval vm_compute in reportOf (performVerification labelText netContentsEmpty).

Definition abvAbsentReport : VerificationReport :=
  Eval vm_compute in reportOf (performVerification labelText abvAbsent).

Definition otherVolumeReport : VerificationReport :=
  Eval vm_compute in reportOf (performVerification otherVolumeText fullSuccess).

End Scenario.

(** [searchRegex] for the declared value 750 mL. *)
Definition searchRegex750ml : RegExp.regexp :=
  Eval vm_compute in
    match RegExp.newRegExpI (searchPatternText "750" (unitPatternOf "ml")) with
    | Returns re => re
    | _ => RegExp.mkRegExp RegExp.Empty true
    end.

(** ** More scenarios *)

Module OtherTexts.

(** The test label as [normalize] leaves it, partly in upper case again. *)
Definition plainLabelText : string :=
  "OLD TOM DISTILLERY est 1878 Kentucky straight bourbon whiskey 45 alcvol 90 proof net contents 750 ml GOVERNMENT WARNING 1 according to the surgeon general".

Definition plainLabelReport : VerificationReport :=
  Eval vm_compute in
    Scenario.reportOf (performVerification plainLabelText Scenario.fullSuccess).

End OtherTexts.

(** ** Traces of the route *)

Module Trace.
Import Route.

Definition isRespond (e : event) : bool :=
  match e with Respond _ => true | _ => false end.

Definition isUnlink (e : event) : bool :=
  match e with Unlink _ => true | _ => false end.

(** The responses of a trace, in order. *)
Fixpoint responses (t : list event) : list response :=
  match t with
  | [] => []
  | Respond r :: t' => r :: responses t'
  | _ :: t' => responses t'
  end.

(** The files a trace removes, in order. *)
Fixpoint unlinked (t : list event) : list string :=
  match t with
  | [] => []
  | Unlink p :: t' => p :: unlinked t'
  | _ :: t' => unlinked t'
  end.

(** The text of a response body, when it has one. *)
Definition textOf (b : body) : option string :=
  match b with
  | Answered _ _ _ t _ => Some t
  | Refused _ _ => None
  end.

(** A text detection that reads [text] from every image, and a file system
    on which every removal succeeds. *)
Definition reading (text : string) : world :=
  mkWorld (fun _ => OcrAnswers (Some [text])) (fun _ => None).

Definition upload (formInput : Form.t) : request :=
  mkRequest (Some "uploads/label") formInput.

(** A text detection that rejects with [error] on every image. *)
Definition rejecting (error : option jsvalue) : world :=
  mkWorld (fun _ => OcrFails error) (fun _ => None).

(** The fields of a multipart form are strings: the form of the first test
    as the route receives it, and the same without the net contents. *)
Definition fullSuccessFields : Form.t :=
  Form.mk (JStr "Old Tom Distillery")
          (JStr "Kentucky Straight Bourbon Whiskey")
          (JStr "45")
          (JStr "750 mL").

Definition netContentsAbsentFields : Form.t :=
  Form.mk (JStr "Old Tom Distillery")
          (JStr "Kentucky Straight Bourbon Whiskey")
          (JStr "45")
          JUndefined.

End Trace.

(** ** The test suite

    The test file takes [performVerification] from what the server file
    exports, [require('./server')], and calls it in each of its four
    tests.  A test is the conjunction of its assertions; it throws when
    the call does. *)

Module Tests.
Import Scenario.

Definition engine : Type := string -> Form.t -> outcome VerificationReport.

(** The [module.exports] of the two server files, as far as
    [performVerification] goes: the file in src/unnamed ends with the
    assignment of an object that holds it; src/server.js, the file the
    path of the test file names, assigns nothing. *)
Definition exportsOfPresent : option engine := Some performVerification.
Definition exportsOfEarlier : option engine := None.

Section Suite.

(** The binding [performVerification] of the test file: [undefined] when
    the server file does not export it. *)
Variable required : option engine.

(** The call, and the assertions on its result.  Calling [undefined]
    throws a TypeError. *)
Definition check (formInput : Form.t)
    (assertions : VerificationReport -> outcome bool) : outcome bool :=
  match required with
  | None => Throws TypeError
  | Some performVerification =>
      do results <- performVerification labelText formInput;
      assertions results
  end.

(** Test 1: Full Success Scenario *)
Definition test1 : outcome bool :=
  check fullSuccess (fun results =>
    Returns
      (Bool.eqb (overall_match results) true
       && forallb (fun d => Str.includes (statusText (status d)) "Match")
                  (discrepancies results))).

(** Test 2: Failure Scenario (Brand Name Mismatch) *)
Definition test2 : outcome bool :=
  check brandMismatch (fun results =>
    match find (fun d => String.eqb (fieldText (field d)) "Brand Name")
               (discrepancies results) with
    | Some brandCheck =>
        Returns
          (Bool.eqb (overall_match results) false
           && String.eqb (statusText (status brandCheck)) "Not Found/Mismatch")
    | None =>
        if Bool.eqb (overall_match results) false
        then Throws TypeError          (* [brandCheck.status] of [undefined] *)
        else Returns false
    end).

(** Test 3: Normalization/ABV Tolerance Check *)
Definition test3 : outcome bool :=
  check normalizationTolerance (fun results =>
    Returns (Bool.eqb (overall_match results) true)).

(** Test 4: Net Contents Failure (Unit Missing) *)
Definition test4 : outcome bool :=
  check unitMissing (fun results =>
    Returns (Bool.eqb (overall_match results) false)).

End Suite.

End Tests.

(** ** What [normalize] returns, on code units *)

Module WideShape.
Import Wide.

Definition notPunctuation (u : N) : bool := negb (isPunctuation u).

(** No two adjacent white space code units. *)
Fixpoint noWhiteSpacePair (s : jsstring) : bool :=
  match s with
  | [] => true
  | u :: r => negb (isWhiteSpace u && headIsWhiteSpace r) && noWhiteSpacePair r
  end.

(** The shape of [normalized] on code units: [toLowerCase] leaves the
    string as it is, no code unit is of the punctuation class, no two
    white space code units are adjacent, and none stands at either end. *)
Record normalized (n : jsstring) : Prop := {
  norm_lower : toLowerCase n = Returns n;
  norm_punct : forallb notPunctuation n = true;
  norm_pairs : noWhiteSpacePair n = true;
  norm_trim : trim n = n
}.


End WideShape.

(** ** Alcohol contents the template of [abvRegex] takes as they are *)

Module Declared.

(** An integral Number that [String] renders as its decimal digits: every
    integer of magnitude below 2^53 is a Number, and below 10^21 a Number
    is rendered without an exponent. *)
Definition safeInteger (z : Z) : Prop := (- 2 ^ 53 < z < 2 ^ 53)%Z.

(** The declared alcohol content is absent, [null], such a Number, or a
    string (what a multipart form sends) whose text without the white
    space at its ends has none of the characters that a pattern reads as
    syntax, the dot apart. *)
Definition literal (v : jsvalue) : Prop :=
  match v with
  | JNum z => safeInteger z
  | JStr s => Direct.all WellFormed.simple (Str.trim s) = true
  | _ => True
  end.

(** The frame after the simple characters of [s]: a dot is the term that
    matches any character but a line terminator. *)
Fixpoint pushSimple (s : string) (f : RegExp.frame) : RegExp.frame :=
  match s with
  | EmptyString => f
  | String c r =>
      pushSimple r
        (RegExp.pushTerm (if Ascii.eqb c "." then RegExp.Any else RegExp.Chr c)
                         true f)
  end.

End Declared.

(* ================================================================== *)
(** * Case analysis on a code unit *)

Ltac each_char c :=
  destruct c as [[] [] [] [] [] [] [] []]; vm_compute; try reflexivity.

Ltac char_cases c :=
  destruct c as [[] [] [] [] [] [] [] []]; try discriminate; try reflexivity.

(* ================================================================== *)
(** * Facts about the matcher *)

Module MatcherFacts.
Import RegExp Direct Position.

Lemma skipFrom_rest (p : ascii -> bool) (before : option ascii) (s : string) :
  snd (skipFrom p before s) = dropWhile p s.
Proof.
  revert before. induction s as [|c r IH]; intros before; simpl.
  - reflexivity.
  - destruct (p c); [apply IH|reflexivity].
Qed.

Lemma skip_rest (p : ascii -> bool) (st : mstate) :
  rest (skip p st) = dropWhile p (rest st).
Proof. apply skipFrom_rest. Qed.

Lemma skipFrom_again (p : ascii -> bool) (before : option ascii) (s : string) :
  skipFrom p (fst (skipFrom p before s)) (snd (skipFrom p before s))
  = skipFrom p before s.
Proof.
  revert before. induction s as [|c r IH]; intros before.
  - reflexivity.
  - cbn [skipFrom]. destruct (p c) eqn:E; [apply IH|].
    cbn [fst snd skipFrom]. now rewrite E.
Qed.

Lemma skip_skip (p : ascii -> bool) (st : mstate) :
  skip p (skip p st) = skip p st.
Proof.
  unfold skip. cbn [prev rest caps]. now rewrite skipFrom_again.
Qed.

Lemma length_takeWhile_dropWhile (p : ascii -> bool) (s : string) :
  String.length s
  = String.length (takeWhile p s) + String.length (dropWhile p s).
Proof.
  induction s as [|c r IH]; [reflexivity|].
  cbn [takeWhile dropWhile]. destruct (p c); cbn [String.length plus]; lia.
Qed.

Lemma length_dropWhile (p : ascii -> bool) (s : string) :
  String.length (dropWhile p s) <= String.length s.
Proof. rewrite (length_takeWhile_dropWhile p s). lia. Qed.

Lemma take_dropWhile (p : ascii -> bool) (s : string) :
  take (String.length s - String.length (dropWhile p s)) s = takeWhile p s.
Proof.
  induction s as [|c r IH].
  - reflexivity.
  - cbn [dropWhile takeWhile]. destruct (p c) eqn:E.
    + pose proof (length_dropWhile p r).
      replace (String.length (String c r) - String.length (dropWhile p r))
        with (S (String.length r - String.length (dropWhile p r)))
        by (cbn [String.length]; lia).
      cbn [take]. now rewrite IH.
    + now rewrite Nat.sub_diag.
Qed.

Lemma take_run (p : ascii -> bool) (c : ascii) (r : string) :
  take (String.length (String c r) - String.length (dropWhile p r))
       (String c r)
  = String c (takeWhile p r).
Proof.
  pose proof (length_dropWhile p r).
  replace (String.length (String c r) - String.length (dropWhile p r))
    with (S (String.length r - String.length (dropWhile p r)))
    by (cbn [String.length]; lia).
  cbn [take]. now rewrite take_dropWhile.
Qed.

Lemma all_dropWhile (q p : ascii -> bool) (s : string) :
  all q s = true -> all q (dropWhile p s) = true.
Proof.
  induction s as [|c r IH]; simpl; intros H; [reflexivity|].
  destruct (p c); simpl; auto.
  apply andb_true_iff in H as [_ Hr]. auto.
Qed.

Lemma or_else_total {A : Type} (x y : option A) :
  x <> None -> match x with Some m => Some m | None => y end = x.
Proof. destruct x; congruence. Qed.

(** Greedy repetition of a one-character matcher, followed by a
    continuation that cannot fail, stops after the longest run. *)
Lemma iterate_one_total (p : ascii -> bool) (k : mstate -> option mstate)
    (fuel : nat) (st : mstate) :
  (forall x, k x <> None) ->
  String.length (rest st) <= fuel ->
  iterate (one p) k fuel st = k (skip p st).
Proof.
  intros Hk. revert st.
  induction fuel as [|fuel IH]; intros [before s cs] Hlen; cbn [rest] in Hlen.
  - destruct s; [reflexivity|simpl in Hlen; lia].
  - cbn [iterate]. unfold one at 1, step at 1. cbn [rest prev caps].
    destruct s as [|c r]; [reflexivity|].
    unfold skip. cbn [skipFrom rest prev caps].
    destruct (p c) eqn:E; [|reflexivity].
    cbn [rest String.length].
    replace (String.length r <? S (String.length r)) with true
      by (symmetry; apply Nat.ltb_lt; lia).
    simpl in Hlen.
    rewrite IH by (cbn [rest]; lia).
    rewrite or_else_total by apply Hk.
    reflexivity.
Qed.

End MatcherFacts.

(* ================================================================== *)
(** * The matcher finds matches only *)

Module Soundness.
Import RegExp Semantics.

Lemma step_sound (ci : bool) (r : regex) (p : ascii -> bool) (st : mstate)
    (k : mstate -> option mstate) (m : mstate) :
  leaf ci r = Some p ->
  step p st k = Some m ->
  exists st', matches ci r st st' /\ k st' = Some m.
Proof.
  intros Hleaf. unfold step.
  destruct (rest st) as [|c t] eqn:E; [discriminate|].
  destruct (p c) eqn:Ep; [|discriminate].
  intros Hk. eexists. split; [|exact Hk].
  now apply MLeaf with (p := p).
Qed.

Lemma iterate_sound (ci : bool) (r : regex) (k : mstate -> option mstate)
    (m : mstate) :
  (forall st k' m', run ci r st k' = Some m' ->
                    exists st', matches ci r st st' /\ k' st' = Some m') ->
  forall fuel st,
    iterate (run ci r) k fuel st = Some m ->
    exists st', matches ci (Star r) st st' /\ k st' = Some m.
Proof.
  intros Hbody. induction fuel as [|fuel IH]; intros st; cbn [iterate].
  - intros Hk. exists st. split; [constructor|exact Hk].
  - destruct (run ci r st _) as [m'|] eqn:E.
    + intros [= ->]. apply Hbody in E as (st1 & Hm & Hc).
      destruct (String.length (rest st1) <? String.length (rest st));
        [|discriminate].
      apply IH in Hc as (st2 & Hs & Hk).
      exists st2. split; [|exact Hk]. now apply MStarCons with st1.
    + intros Hk. exists st. split; [constructor|exact Hk].
Qed.

(** Whatever the matcher finds is a match. *)
Lemma run_sound (ci : bool) (r : regex) :
  forall st k m,
    run ci r st k = Some m ->
    exists st', matches ci r st st' /\ k st' = Some m.
Proof.
  induction r as [|c| |neg cl|neg| | |r1 IH1 r2 IH2|r1 IH1 r2 IH2|r1 IH1|n r1 IH1];
    intros st k m; cbn [run].
  - intros Hk. exists st. split; [constructor|exact Hk].
  - now apply step_sound.
  - now apply step_sound.
  - now apply step_sound.
  - destruct (xorb neg (atWordBoundary st)) eqn:E; [|discriminate].
    intros Hk. exists st. split; [|exact Hk].
    now apply MAssert with (a := fun st => xorb neg (atWordBoundary st)).
  - destruct (prev st) eqn:E; [discriminate|].
    intros Hk. exists st. split; [|exact Hk].
    apply MAssert with (a := fun st => match prev st with None => true | Some _ => false end);
      [reflexivity|now rewrite E].
  - destruct (rest st) eqn:E; [|discriminate].
    intros Hk. exists st. split; [|exact Hk].
    apply MAssert with (a := fun st => Str.isEmpty (rest st));
      [reflexivity|now rewrite E].
  - intros H. apply IH1 in H as (st1 & H1 & H).
    apply IH2 in H as (st2 & H2 & H).
    exists st2. split; [|exact H]. now apply MSeq with st1.
  - destruct (run ci r1 st k) as [m'|] eqn:E.
    + intros [= ->]. apply IH1 in E as (st' & H1 & H).
      exists st'. split; [|exact H]. now apply MAltL.
    + intros H. apply IH2 in H as (st' & H2 & H).
      exists st'. split; [|exact H]. now apply MAltR.
  - apply iterate_sound. exact IH1.
  - intros H. apply IH1 in H as (st' & H1 & H).
    eexists. split; [|exact H]. now apply MGroup.
Qed.

End Soundness.

Module AlphabetFacts.
Import RegExp Semantics Alphabet.

Lemma all_append (P : ascii -> bool) (a b : string) :
  Direct.all P (a ++ b) = Direct.all P a && Direct.all P b.
Proof.
  induction a as [|c a IH]; cbn [String.append Direct.all]; [reflexivity|].
  now rewrite IH, andb_assoc.
Qed.

Lemma append_assoc (a b c : string) : ((a ++ b) ++ c = a ++ (b ++ c))%string.
Proof. induction a as [|x a IH]; cbn [String.append]; [reflexivity|now rewrite IH]. Qed.

Lemma length_append (a b : string) :
  String.length (a ++ b) = String.length a + String.length b.
Proof. induction a as [|x a IH]; cbn [String.append String.length]; [reflexivity|now rewrite IH]. Qed.

Lemma take_append (a b : string) : take (String.length a) (a ++ b) = a.
Proof. induction a as [|x a IH]; cbn [String.append String.length take]; [now destruct b|now rewrite IH]. Qed.

Lemma consumed_append (st st' : mstate) (w : string) :
  rest st = (w ++ rest st')%string -> consumed st st' = w.
Proof.
  intros H. unfold consumed. rewrite H, length_append.
  replace (String.length w + String.length (rest st') - String.length (rest st'))
    with (String.length w) by lia.
  apply take_append.
Qed.

(** A match of a pattern over [P] without groups consumes characters of
    [P] only and leaves the captures as they are. *)
Lemma matches_alphabet (ci : bool) (P : ascii -> bool) (r : regex)
    (st st' : mstate) :
  matches ci r st st' ->
  alphabet ci P r ->
  caps st' = caps st
  /\ exists w, rest st = (w ++ rest st')%string /\ Direct.all P w = true.
Proof.
  induction 1 as [st|r p st c t Hleaf Hrest Hp|r a st Ha Hst
                  |r1 r2 st st1 st2 _ IH1 _ IH2
                  |r1 r2 st st' _ IH|r1 r2 st st' _ IH
                  |r st|r st st1 st2 _ IH1 _ IH2|n r st st' _ IH];
    intros Halpha.
  - split; [reflexivity|]. now exists "".
  - split; [reflexivity|]. exists (String c ""). split; [exact Hrest|].
    cbn [Direct.all]. rewrite andb_true_r.
    destruct r; try discriminate Hleaf; now apply (Halpha p c).
  - split; [reflexivity|]. now exists "".
  - destruct Halpha as [H1 H2].
    destruct (IH1 H1) as (Hc1 & w1 & Hr1 & Hw1).
    destruct (IH2 H2) as (Hc2 & w2 & Hr2 & Hw2).
    split; [congruence|]. exists (w1 ++ w2)%string. split.
    + now rewrite Hr1, Hr2, append_assoc.
    + now rewrite all_append, Hw1, Hw2.
  - destruct Halpha as [H1 _]. auto.
  - destruct Halpha as [_ H2]. auto.
  - split; [reflexivity|]. now exists "".
  - cbn [alphabet] in Halpha, IH2.
    destruct (IH1 Halpha) as (Hc1 & w1 & Hr1 & Hw1).
    destruct (IH2 Halpha) as (Hc2 & w2 & Hr2 & Hw2).
    split; [congruence|]. exists (w1 ++ w2)%string. split.
    + now rewrite Hr1, Hr2, append_assoc.
    + now rewrite all_append, Hw1, Hw2.
  - destruct Halpha.
Qed.

(** The consumed text of such a match. *)
Lemma matches_consumed (ci : bool) (P : ascii -> bool) (r : regex)
    (st st' : mstate) :
  matches ci r st st' ->
  alphabet ci P r ->
  caps st' = caps st /\ Direct.all P (consumed st st') = true.
Proof.
  intros Hm Ha.
  destruct (matches_alphabet ci P r st st' Hm Ha) as (Hc & w & Hr & Hw).
  split; [exact Hc|]. now rewrite (consumed_append st st' w Hr).
Qed.

Ltac invert_matches H :=
  inversion H; subst; clear H;
  try match goal with
      | L : leaf _ _ = Some _ |- _ => discriminate L
      | A : assertion _ = Some _ |- _ => discriminate A
      end.

Lemma alphabet_number (ci : bool) :
  alphabet ci digitOrDot
    (Seq (Plus (Class false Digit))
         (Seq (Opt (Chr ".")) (Star (Class false Digit)))).
Proof.
  cbn [alphabet Plus Opt leaf]. unfold digitOrDot.
  repeat split; intros p d [= <-] Hd; cbn [xorb inClass] in Hd.
  - now rewrite Hd.
  - now rewrite Hd.
  - destruct ci; unfold sameChar in Hd.
    + revert Hd. each_char d; discriminate.
    + apply Ascii.eqb_eq in Hd as <-. reflexivity.
  - now rewrite Hd.
Qed.

Lemma alphabet_letters (ci : bool) :
  alphabet ci Char.isAsciiLetter (Plus (Class false Letter)).
Proof.
  cbn [alphabet Plus leaf].
  repeat split; intros p d [= <-] Hd; exact Hd.
Qed.

Lemma alphabet_spaces (ci : bool) :
  alphabet ci Char.isWhiteSpace (Star (Class false Space)).
Proof.
  cbn [alphabet leaf]. intros p d [= <-] Hd; exact Hd.
Qed.

(** The captures of the number-and-letters pattern. *)
Lemma netContents_captures (before : option ascii) (s : string) (m : mstate) :
  run true (source netContentsPattern) (mkState before s []) Some = Some m ->
  exists volume unit,
    caps m = [(2, unit); (1, volume)]
    /\ Direct.all digitOrDot volume = true
    /\ Direct.all Char.isAsciiLetter unit = true.
Proof.
  intros H. apply Soundness.run_sound in H as (st' & Hm & [= ->]).
  cbn [source netContentsPattern] in Hm.
  invert_matches Hm.
  match goal with H : matches _ (Group 1 _) _ _ |- _ => invert_matches H end.
  match goal with H : matches _ (Seq (Star _) _) _ _ |- _ => invert_matches H end.
  match goal with H : matches _ (Group 2 _) _ _ |- _ => invert_matches H end.
  repeat match goal with
         | H : matches _ _ _ _ |- _ =>
             first [ apply (fun h => matches_consumed _ _ _ _ _ h (alphabet_number true)) in H
                   | apply (fun h => matches_consumed _ _ _ _ _ h (alphabet_letters true)) in H
                   | apply (fun h => matches_consumed _ _ _ _ _ h (alphabet_spaces true)) in H ];
             destruct H as [? ?]
         end.
  cbn [caps rest prev] in *.
  eexists _, _. repeat split; [|eassumption|eassumption].
  cbn [caps]. congruence.
Qed.

Lemma searchFrom_run (re : regexp) (before : option ascii) (s : string)
    (found : matchResult) :
  searchFrom re before s = Some found ->
  exists before' s' m,
    run (ignoreCase re) (source re) (mkState before' s' []) Some = Some m
    /\ groups found = caps m.
Proof.
  revert before. induction s as [|c r IH]; intros before; cbn [searchFrom].
  - destruct (run _ _ _ Some) as [m|] eqn:E; [|discriminate].
    intros [= <-]. now exists before, "", m.
  - destruct (run _ _ _ Some) as [m|] eqn:E.
    + intros [= <-]. now exists before, (String c r), m.
    + apply IH.
Qed.

Lemma exec_netContents_groups (declared : string) (found : matchResult) :
  exec netContentsPattern declared = Some found ->
  exists volume unit,
    matchAt found 1 = JStr volume
    /\ matchAt found 2 = JStr unit
    /\ Direct.all digitOrDot volume = true
    /\ Direct.all Char.isAsciiLetter unit = true.
Proof.
  intros H. apply searchFrom_run in H as (b & s & m & Hrun & Hg).
  apply netContents_captures in Hrun as (v & u & Hc & Hv & Hu).
  exists v, u. unfold matchAt, group. rewrite Hg, Hc. auto.
Qed.

End AlphabetFacts.

(* ================================================================== *)
(** * Properties of [normalize] *)

Module NormalizeFacts.
Import MatcherFacts.

(** ** The two global replaces, in direct form *)

Lemma replace_punctuation (before : option ascii) (s : string) :
  RegExp.replaceFrom punctuationPattern "" 0 before s
  = Direct.deleteAll Char.isPunctuation s.
Proof.
  unfold Direct.deleteAll. revert before.
  induction s as [|c r IH]; intros before.
  - reflexivity.
  - cbn [RegExp.replaceFrom RegExp.run RegExp.source RegExp.ignoreCase
         punctuationPattern Direct.filter].
    unfold RegExp.step. cbn [RegExp.rest RegExp.prev RegExp.caps].
    change (xorb false (RegExp.inClass false (RegExp.OneOf Char.punctuation) c))
      with (Char.isPunctuation c).
    destruct (Char.isPunctuation c); cbn [negb RegExp.rest].
    + replace (String.length (String c r) - String.length r) with 1
        by (cbn [String.length]; lia).
      cbn [String.append]. apply IH.
    + now rewrite IH.
Qed.

(** The pattern of white space runs at one position. *)
Lemma run_whiteSpaceRun (before : option ascii) (s : string) :
  RegExp.run false (RegExp.source whiteSpaceRunPattern)
             (RegExp.mkState before s []) Some
  = match s with
    | String c (String d r) =>
        if Char.isWhiteSpace c && Char.isWhiteSpace d
        then Some (Position.skip Char.isWhiteSpace
                     (RegExp.mkState (Some d) r []))
        else None
    | _ => None
    end.
Proof.
  cbn [RegExp.run RegExp.source whiteSpaceRunPattern].
  change (fun d : ascii => xorb false (RegExp.inClass false RegExp.Space d))
    with Char.isWhiteSpace.
  unfold RegExp.step at 1. cbn [RegExp.rest RegExp.prev RegExp.caps].
  destruct s as [|c [|d r]]; [reflexivity| |].
  - destruct (Char.isWhiteSpace c); reflexivity.
  - destruct (Char.isWhiteSpace c); [|reflexivity].
    unfold RegExp.step at 1. cbn [RegExp.rest RegExp.prev RegExp.caps andb].
    destruct (Char.isWhiteSpace d); [|reflexivity].
    change (fun (st : RegExp.mstate) (k : RegExp.mstate -> option RegExp.mstate) =>
              RegExp.step Char.isWhiteSpace st k)
      with (Position.one Char.isWhiteSpace).
    apply iterate_one_total; [discriminate|cbn [RegExp.rest]; lia].
Qed.

Lemma replace_whiteSpaceRuns_both (s : string) :
  (forall before,
      RegExp.replaceFrom whiteSpaceRunPattern " " 0 before s
      = Direct.collapseRuns false s)
  /\ (forall before,
         RegExp.replaceFrom whiteSpaceRunPattern " "
           (String.length (Direct.takeWhile Char.isWhiteSpace s)) before s
         = Direct.collapseRuns true s).
Proof.
  induction s as [|c r [IH0 IHrun]].
  - split; reflexivity.
  - assert (H0 : forall before,
               RegExp.replaceFrom whiteSpaceRunPattern " " 0 before (String c r)
               = Direct.collapseRuns false (String c r)).
    { intros before. cbn [RegExp.replaceFrom RegExp.ignoreCase whiteSpaceRunPattern].
      change (RegExp.Seq _ _) with (RegExp.source whiteSpaceRunPattern).
      rewrite run_whiteSpaceRun. cbn [Direct.collapseRuns].
      destruct r as [|d r'].
      - destruct (Char.isWhiteSpace c); cbn [Direct.headIs];
          now rewrite IH0.
      - cbn [Direct.headIs].
        destruct (Char.isWhiteSpace c) eqn:Ec; cbn [andb].
        + destruct (Char.isWhiteSpace d) eqn:Ed.
          * rewrite skip_rest. cbn [RegExp.rest].
            pose proof (length_takeWhile_dropWhile Char.isWhiteSpace r') as Hlen.
            replace (String.length (String c (String d r'))
                     - String.length (Direct.dropWhile Char.isWhiteSpace r'))
              with (S (String.length
                         (Direct.takeWhile Char.isWhiteSpace (String d r'))))
              by (cbn [Direct.takeWhile]; rewrite Ed; cbn [String.length]; lia).
            cbn [String.append]. f_equal. apply IHrun.
          * now rewrite IH0.
        + now rewrite IH0. }
    split; [exact H0|].
    intros before. cbn [Direct.takeWhile Direct.collapseRuns].
    destruct (Char.isWhiteSpace c) eqn:Ec.
    + cbn [String.length RegExp.replaceFrom]. apply IHrun.
    + cbn [String.length]. rewrite H0. cbn [Direct.collapseRuns].
      now rewrite Ec.
Qed.

Lemma normalizeString_direct (text : string) :
  normalizeString text
  = Str.trim
      (Direct.collapseWhiteSpace
         (Direct.deleteAll Char.isPunctuation (Str.toLowerCase text))).
Proof.
  unfold normalizeString, RegExp.replaceAll, Direct.collapseWhiteSpace.
  rewrite replace_punctuation.
  now rewrite (proj1 (replace_whiteSpaceRuns_both _)).
Qed.

(** ** Characters *)

Lemma toLower_lowerFixed (c : ascii) : lowerFixed (Char.toLower c) = true.
Proof. each_char c. Qed.

Lemma space_lowerFixed : lowerFixed " " = true.
Proof. reflexivity. Qed.

Lemma space_notPunctuation : notPunctuation " " = true.
Proof. reflexivity. Qed.

Lemma lowerFixed_eq (c : ascii) : lowerFixed c = true -> Char.toLower c = c.
Proof. unfold lowerFixed. intros H. now apply Ascii.eqb_eq. Qed.

(** ** What each stage of the chain establishes *)

Lemma all_toLowerCase (s : string) :
  Direct.all lowerFixed (Str.toLowerCase s) = true.
Proof.
  unfold Str.toLowerCase.
  induction s as [|c r IH]; simpl.
  - reflexivity.
  - now rewrite toLower_lowerFixed, IH.
Qed.

Lemma all_filter (p q : ascii -> bool) (s : string) :
  Direct.all p s = true -> Direct.all p (Direct.filter q s) = true.
Proof.
  induction s as [|c r IH]; simpl; intros H.
  - reflexivity.
  - apply andb_true_iff in H as [Hc Hr].
    destruct (q c); simpl; [rewrite Hc|]; auto.
Qed.

Lemma all_deleteAll (s : string) :
  Direct.all notPunctuation (Direct.deleteAll Char.isPunctuation s) = true.
Proof.
  unfold Direct.deleteAll.
  induction s as [|c r IH]; simpl.
  - reflexivity.
  - destruct (Char.isPunctuation c) eqn:E; simpl; auto.
    unfold notPunctuation at 1. now rewrite E.
Qed.

Lemma all_collapseRuns (p : ascii -> bool) (s : string) (inRun : bool) :
  p " "%char = true ->
  Direct.all p s = true -> Direct.all p (Direct.collapseRuns inRun s) = true.
Proof.
  intros Hsp. revert inRun.
  induction s as [|c r IH]; simpl; intros inRun H.
  - reflexivity.
  - apply andb_true_iff in H as [Hc Hr].
    destruct (Char.isWhiteSpace c), inRun; simpl;
      try destruct (Direct.headIs Char.isWhiteSpace r); simpl;
      rewrite ?Hc, ?Hsp; simpl; auto.
Qed.

Lemma all_trimStart (p : ascii -> bool) (s : string) :
  Direct.all p s = true -> Direct.all p (Str.trimStart s) = true.
Proof.
  induction s as [|c r IH]; simpl; intros H.
  - reflexivity.
  - destruct (Char.isWhiteSpace c); simpl; auto.
    apply andb_true_iff in H as [_ Hr]. auto.
Qed.

Lemma all_trimEnd (p : ascii -> bool) (s : string) :
  Direct.all p s = true -> Direct.all p (Str.trimEnd s) = true.
Proof.
  induction s as [|c r IH]; simpl; intros H.
  - reflexivity.
  - apply andb_true_iff in H as [Hc Hr].
    destruct (Char.isWhiteSpace c && Str.isEmpty (Str.trimEnd r)); simpl.
    + reflexivity.
    + rewrite Hc. simpl. auto.
Qed.

Lemma all_trim (p : ascii -> bool) (s : string) :
  Direct.all p s = true -> Direct.all p (Str.trim s) = true.
Proof. intros H. unfold Str.trim. now apply all_trimEnd, all_trimStart. Qed.

Lemma collapseRuns_shape (s : string) :
  noWhiteSpacePair (Direct.collapseRuns false s) = true
  /\ noWhiteSpacePair (Direct.collapseRuns true s) = true
  /\ Direct.headIs Char.isWhiteSpace (Direct.collapseRuns true s) = false.
Proof.
  induction s as [|c r (IHf & IHt & IHh)]; simpl.
  - auto.
  - destruct (Char.isWhiteSpace c) eqn:Ec; simpl.
    + repeat split; auto.
      destruct (Direct.headIs Char.isWhiteSpace r) eqn:Er.
      * cbn [noWhiteSpacePair]. now rewrite IHh, IHt, andb_false_r.
      * cbn [noWhiteSpacePair]. rewrite IHf, andb_true_r.
        destruct r as [|d r']; [now rewrite andb_false_r|].
        cbn [Direct.headIs] in Er. cbn [Direct.collapseRuns Direct.headIs].
        rewrite Er. cbn [Direct.headIs]. now rewrite Er, andb_false_r.
    + rewrite Ec, IHf. simpl. auto.
Qed.

Lemma headIs_trimEnd (p : ascii -> bool) (s : string) :
  Direct.headIs p (Str.trimEnd s) = true -> Direct.headIs p s = true.
Proof.
  destruct s as [|c r]; simpl; auto.
  destruct (Char.isWhiteSpace c && Str.isEmpty (Str.trimEnd r)); simpl; auto.
  discriminate.
Qed.

Lemma noWhiteSpacePair_trimStart (s : string) :
  noWhiteSpacePair s = true -> noWhiteSpacePair (Str.trimStart s) = true.
Proof.
  induction s as [|c r IH]; intros H.
  - reflexivity.
  - simpl Str.trimStart. destruct (Char.isWhiteSpace c); auto.
    simpl in H. apply andb_true_iff in H as [_ Hr]. auto.
Qed.

Lemma noWhiteSpacePair_trimEnd (s : string) :
  noWhiteSpacePair s = true -> noWhiteSpacePair (Str.trimEnd s) = true.
Proof.
  induction s as [|c r IH]; simpl; intros H.
  - reflexivity.
  - apply andb_true_iff in H as [Hc Hr].
    destruct (Char.isWhiteSpace c && Str.isEmpty (Str.trimEnd r)); simpl.
    + reflexivity.
    + rewrite (IH Hr), andb_true_r.
      destruct (Char.isWhiteSpace c); simpl in *; auto.
      destruct (Direct.headIs Char.isWhiteSpace (Str.trimEnd r)) eqn:E; auto.
      apply headIs_trimEnd in E. now rewrite E in Hc.
Qed.

(** ** Stages that leave their argument as it is *)

Lemma toLowerCase_fixed (s : string) :
  Direct.all lowerFixed s = true -> Str.toLowerCase s = s.
Proof.
  unfold Str.toLowerCase.
  induction s as [|c r IH]; simpl; intros H.
  - reflexivity.
  - apply andb_true_iff in H as [Hc Hr].
    now rewrite (lowerFixed_eq c Hc), (IH Hr).
Qed.

Lemma deleteAll_fixed (s : string) :
  Direct.all notPunctuation s = true ->
  Direct.deleteAll Char.isPunctuation s = s.
Proof.
  unfold Direct.deleteAll.
  induction s as [|c r IH]; simpl; intros H.
  - reflexivity.
  - apply andb_true_iff in H as [Hc Hr].
    unfold notPunctuation in Hc. rewrite Hc. now rewrite (IH Hr).
Qed.

Lemma collapseRuns_fixed (s : string) :
  noWhiteSpacePair s = true -> Direct.collapseRuns false s = s.
Proof.
  induction s as [|c r IH]; simpl; intros H.
  - reflexivity.
  - apply andb_true_iff in H as [Hc Hr].
    rewrite (IH Hr).
    destruct (Char.isWhiteSpace c); simpl in *; auto.
    destruct (Direct.headIs Char.isWhiteSpace r); simpl in *;
      [discriminate | reflexivity].
Qed.

Lemma headIs_trimStart (s : string) :
  Direct.headIs Char.isWhiteSpace (Str.trimStart s) = false.
Proof.
  induction s as [|c r IH]; simpl; auto.
  destruct (Char.isWhiteSpace c) eqn:E; simpl; auto.
Qed.

Lemma trimStart_fixed (s : string) :
  Direct.headIs Char.isWhiteSpace s = false -> Str.trimStart s = s.
Proof. destruct s as [|c r]; simpl; intros H; [|rewrite H]; reflexivity. Qed.

Lemma trimEnd_trimEnd (s : string) :
  Str.trimEnd (Str.trimEnd s) = Str.trimEnd s.
Proof.
  induction s as [|c r IH]; simpl.
  - reflexivity.
  - destruct (Char.isWhiteSpace c && Str.isEmpty (Str.trimEnd r)) eqn:E; simpl.
    + reflexivity.
    + now rewrite IH, E.
Qed.

Lemma headIs_trimEnd_false (s : string) :
  Direct.headIs Char.isWhiteSpace s = false ->
  Direct.headIs Char.isWhiteSpace (Str.trimEnd s) = false.
Proof.
  intros H.
  destruct (Direct.headIs Char.isWhiteSpace (Str.trimEnd s)) eqn:E; auto.
  apply headIs_trimEnd in E. congruence.
Qed.

Lemma trim_trim (s : string) : Str.trim (Str.trim s) = Str.trim s.
Proof.
  unfold Str.trim.
  rewrite (trimStart_fixed (Str.trimEnd (Str.trimStart s))).
  - apply trimEnd_trimEnd.
  - apply headIs_trimEnd_false, headIs_trimStart.
Qed.

Lemma normalizeString_normalized (s : string) :
  normalized (normalizeString s).
Proof.
  rewrite normalizeString_direct. unfold Direct.collapseWhiteSpace. split.
  - apply all_trim, all_collapseRuns; [apply space_lowerFixed|].
    apply all_filter, all_toLowerCase.
  - apply all_trim, all_collapseRuns; [apply space_notPunctuation|].
    apply all_deleteAll.
  - unfold Str.trim.
    apply noWhiteSpacePair_trimEnd, noWhiteSpacePair_trimStart,
      collapseRuns_shape.
  - apply trim_trim.
Qed.

Lemma normalizeString_fixed (n : string) :
  normalized n -> normalizeString n = n.
Proof.
  intros [Hl Hp Hw Ht]. rewrite normalizeString_direct.
  unfold Direct.collapseWhiteSpace.
  now rewrite (toLowerCase_fixed n Hl), (deleteAll_fixed n Hp),
    (collapseRuns_fixed n Hw).
Qed.

End NormalizeFacts.

Lemma normalize_JStr (s : string) :
  normalize (JStr s) = Returns (normalizeString s).
Proof. destruct s; reflexivity. Qed.

(* ================================================================== *)
(** * [normalize] on code units below 256 *)

Module NormalizeWide.
Import Wide.

Lemma ofString_injective (a b : string) : ofString a = ofString b -> a = b.
Proof.
  revert b. induction a as [|c a IH]; intros [|d b]; cbn [ofString];
    try discriminate; [reflexivity|].
  intros [= Hc Hr]. f_equal; [|now apply IH].
  rewrite <- (ascii_N_embedding c), <- (ascii_N_embedding d). now rewrite Hc.
Qed.

Lemma length_ofString (s : string) :
  List.length (ofString s) = String.length s.
Proof. induction s as [|c s IH]; cbn [ofString List.length String.length]; auto. Qed.

Lemma below256_ofString (s : string) : below256 (ofString s) = true.
Proof.
  induction s as [|c s IH]; [reflexivity|].
  cbn [ofString below256 forallb]. fold (below256 (ofString s)). rewrite IH.
  rewrite andb_true_r. apply N.ltb_lt. apply N_ascii_bounded.
Qed.

(** Every string of code units below 256 is one of the narrow strings. *)
Lemma below256_string (w : jsstring) :
  below256 w = true -> exists s, w = ofString s.
Proof.
  induction w as [|u w IH]; [now exists ""|].
  cbn [below256 forallb]. fold (below256 w). intros H.
  apply andb_true_iff in H as [Hu Hw]. destruct (IH Hw) as (s & ->).
  exists (String (ascii_of_N u) s). cbn [ofString]. f_equal.
  symmetry. apply N_ascii_embedding. now apply N.ltb_lt.
Qed.

Lemma isHighSurrogate_ascii (c : ascii) : isHighSurrogate (N_of_ascii c) = false.
Proof. each_char c. Qed.

Lemma lowerCodePoint_ascii (c : ascii) :
  lowerCodePoint (N_of_ascii c) = Returns [N_of_ascii (Char.toLower c)].
Proof. each_char c. Qed.

Lemma encode_ascii (c : ascii) : encode (N_of_ascii c) = [N_of_ascii c].
Proof. each_char c. Qed.

Lemma isWhiteSpace_ascii (c : ascii) :
  isWhiteSpace (N_of_ascii c) = Char.isWhiteSpace c.
Proof. each_char c. Qed.

Lemma isPunctuation_ascii (c : ascii) :
  isPunctuation (N_of_ascii c) = Char.isPunctuation c.
Proof. each_char c. Qed.

Lemma codePoints_ofString (s : string) : codePoints (ofString s) = ofString s.
Proof.
  induction s as [|c s IH]; [reflexivity|].
  cbn [ofString codePoints]. cbn [ofString] in IH.
  destruct s as [|d s']; [reflexivity|].
  cbn [ofString] in IH |- *. rewrite isHighSurrogate_ascii, andb_false_l.
  now rewrite IH.
Qed.

(** [toLowerCase] on code units below 256 is the code unit map. *)
Lemma toLowerCase_ofString (s : string) :
  toLowerCase (ofString s) = Returns (ofString (Str.toLowerCase s)).
Proof.
  unfold toLowerCase. rewrite codePoints_ofString.
  induction s as [|c s IH]; [reflexivity|].
  cbn [ofString lowerAll]. rewrite lowerCodePoint_ascii. cbn [bind].
  rewrite IH. cbn [bind flat_map]. rewrite encode_ascii. reflexivity.
Qed.

Lemma deleteAll_ofString (s : string) :
  deleteAll (ofString s)
  = ofString (Direct.deleteAll Char.isPunctuation s).
Proof.
  unfold deleteAll, Direct.deleteAll.
  induction s as [|c s IH]; [reflexivity|].
  cbn [ofString List.filter Direct.filter]. rewrite isPunctuation_ascii.
  destruct (negb (Char.isPunctuation c)); cbn [ofString]; now rewrite IH.
Qed.

Lemma headIsWhiteSpace_ofString (s : string) :
  headIsWhiteSpace (ofString s) = Direct.headIs Char.isWhiteSpace s.
Proof. destruct s; [reflexivity|apply isWhiteSpace_ascii]. Qed.

Lemma collapseRuns_ofString (inRun : bool) (s : string) :
  collapseRuns inRun (ofString s) = ofString (Direct.collapseRuns inRun s).
Proof.
  revert inRun. induction s as [|c s IH]; intros inRun; [reflexivity|].
  cbn [ofString collapseRuns Direct.collapseRuns].
  rewrite isWhiteSpace_ascii, headIsWhiteSpace_ofString.
  destruct (Char.isWhiteSpace c); [destruct inRun|];
    [|destruct (Direct.headIs Char.isWhiteSpace s)|];
    cbn [ofString]; now rewrite IH.
Qed.

Lemma trimStart_ofString (s : string) :
  trimStart (ofString s) = ofString (Str.trimStart s).
Proof.
  induction s as [|c s IH]; [reflexivity|].
  cbn [ofString trimStart Str.trimStart]. rewrite isWhiteSpace_ascii.
  now destruct (Char.isWhiteSpace c).
Qed.

Lemma trimEnd_ofString (s : string) :
  trimEnd (ofString s) = ofString (Str.trimEnd s).
Proof.
  induction s as [|c s IH]; [reflexivity|].
  cbn [ofString trimEnd Str.trimEnd]. rewrite isWhiteSpace_ascii, IH.
  destruct (Str.trimEnd s); cbn [ofString Str.isEmpty];
    destruct (Char.isWhiteSpace c); reflexivity.
Qed.

(** On a string of code units below 256, [Wide.normalize] is the
    [normalize] of the engine's model. *)
Lemma normalize_below_256 (s : string) :
  Wide.normalize (Some (ofString s)) = Returns (ofString (normalizeString s)).
Proof.
  destruct s as [|c s]; [reflexivity|].
  change (Wide.normalize (Some (ofString (String c s))))
    with (do lowered <- toLowerCase (ofString (String c s));
          Returns (afterLowerCase lowered)).
  rewrite toLowerCase_ofString. cbn [bind].
  rewrite NormalizeFacts.normalizeString_direct.
  unfold afterLowerCase, trim, Str.trim, Direct.collapseWhiteSpace.
  now rewrite deleteAll_ofString, collapseRuns_ofString, trimStart_ofString,
    trimEnd_ofString.
Qed.


End NormalizeWide.




(* ================================================================== *)
(** * Pattern texts the constructor compiles *)

Module PatternTextFacts.
Import RegExp PatternText.

Lemma parse_plain (c : ascii) (r : string) (n : nat) (stack : list frame)
    (f : frame) :
  plain c = true ->
  parseFrom (String c r) n stack f
  = parseFrom r n stack (pushTerm (Chr c) true f).
Proof. char_cases c. Qed.

Lemma parse_pushPlain (s r : string) (n : nat) (stack : list frame) (f : frame) :
  Direct.all plain s = true ->
  parseFrom (s ++ r) n stack f = parseFrom r n stack (pushPlain s f).
Proof.
  revert f. induction s as [|c s IH]; intros f H.
  - reflexivity.
  - cbn [Direct.all] in H. apply andb_true_iff in H as [Hc Hs].
    cbn [String.append pushPlain]. rewrite parse_plain by exact Hc.
    now apply IH.
Qed.

Lemma ready_pushTerm (t : regex) (q : bool) (f : frame) : ready (pushTerm t q f).
Proof. intros _. discriminate. Qed.

(** A pattern text that [read] accepts is one the constructor compiles. *)
Lemma parse_read (n : nat) (s : string) :
  (forall f, ready f -> complete (read (Term (quantifiable f)) s) = true ->
             exists r, parseFrom s n [] f = Returns r)
  /\ (forall f, complete (read Backslash s) = true ->
                exists r, parseFrom (String "\" s) n [] f = Returns r).
Proof.
  induction s as [|c s [IHterm IHback]].
  - split; [|discriminate]. intros f _ _. now eexists.
  - assert (Hterm : forall f, ready f ->
               complete (read (Term (quantifiable f)) (String c s)) = true ->
               exists r, parseFrom (String c s) n [] f = Returns r).
    { intros f Hf. cbn [read next]. unfold afterTerm.
      destruct (Ascii.eqb c "\") eqn:E1.
      { apply Ascii.eqb_eq in E1 as ->. apply IHback. }
      destruct (Ascii.eqb c "*") eqn:E2.
      { apply Ascii.eqb_eq in E2 as ->.
        destruct (quantifiable f) eqn:Eq; [|discriminate].
        destruct (terms f) as [|t ts] eqn:Et; [now elim (Hf Eq)|].
        cbn [parseFrom]. rewrite Eq, Et.
        destruct s as [|d s'].
        - intros _. now eexists.
        - cbn [read next].
          destruct (Ascii.eqb d "?") eqn:E3; [discriminate|].
          intros H.
          assert (Hd : exists r, parseFrom (String d s') n []
                                   (mkFrame (closedAlts f) (quantify "*" t :: ts)
                                            false (capturing f)) = Returns r).
          { apply IHterm; [intros Hq; discriminate Hq|exact H]. }
          revert Hd. clear - E3.
          destruct d as [[] [] [] [] [] [] [] []]; try discriminate E3;
            exact (fun h => h). }
      destruct (Ascii.eqb c "|") eqn:E3.
      { apply Ascii.eqb_eq in E3 as ->. intros H. cbn [parseFrom].
        apply IHterm; [intros Hq; discriminate Hq|exact H]. }
      destruct (Ascii.eqb c ".") eqn:E4.
      { apply Ascii.eqb_eq in E4 as ->. intros H. cbn [parseFrom].
        apply IHterm; [apply ready_pushTerm|exact H]. }
      destruct (plain c) eqn:E5; [|discriminate].
      intros H. rewrite parse_plain by exact E5.
      apply IHterm; [apply ready_pushTerm|exact H]. }
    split; [exact Hterm|].
    intros f. cbn [read next].
    destruct (Ascii.eqb c "s") eqn:E1.
    { apply Ascii.eqb_eq in E1 as ->. intros H.
      change (parseFrom (String "\" (String "s" s)) n [] f)
        with (parseFrom s n [] (pushTerm (Class false Space) true f)).
      apply IHterm; [apply ready_pushTerm|exact H]. }
    destruct (Ascii.eqb c "b") eqn:E2; [|discriminate].
    apply Ascii.eqb_eq in E2 as ->. intros H.
    change (parseFrom (String "\" (String "b" s)) n [] f)
      with (parseFrom s n [] (pushTerm (WordBoundary false) false f)).
    apply IHterm; [intros Hq; discriminate Hq|exact H].
Qed.

Lemma newRegExpI_read (p : string) :
  complete (read (Term false) p) = true ->
  exists re, newRegExpI p = Returns re.
Proof.
  intros H. unfold newRegExpI, parse.
  destruct (proj1 (parse_read 0 p) (openFrame None)) as (r & ->).
  - intros Hq. discriminate Hq.
  - exact H.
  - now eexists.
Qed.

Lemma read_append (st : pstate) (a b : string) :
  read st (a ++ b)
  = match read st a with Some st' => read st' b | None => None end.
Proof.
  revert st. induction a as [|c a IH]; intros st; cbn [String.append read].
  - reflexivity.
  - destruct (next st c); [apply IH|reflexivity].
Qed.

End PatternTextFacts.

Module ReturnsFacts.
Import RegExp PatternText PatternTextFacts WellFormed.

Lemma all_impl (P Q : ascii -> bool) (s : string) :
  (forall c, P c = true -> Q c = true) ->
  Direct.all P s = true -> Direct.all Q s = true.
Proof.
  intros HPQ. induction s as [|c s IH]; cbn [Direct.all]; [reflexivity|].
  intros H. apply andb_true_iff in H as [Hc Hs].
  now rewrite (HPQ c Hc), (IH Hs).
Qed.

(** ** Strings and [replace] *)

Lemma prefix_drop (p s : string) :
  String.prefix p s = true -> s = (p ++ Str.drop (String.length p) s)%string.
Proof.
  revert s. induction p as [|a p IH]; intros s.
  - reflexivity.
  - destruct s as [|b s]; cbn [String.prefix]; [easy|].
    destruct (Ascii.ascii_dec a b) as [<-|]; [|easy].
    intros H. cbn [String.length Str.drop String.append]. f_equal. now apply IH.
Qed.

Lemma replaceFirst_cases (hay pat rep : string) :
  Str.replaceFirst hay pat rep = hay
  \/ exists a b,
       hay = (a ++ pat ++ b)%string
       /\ Str.replaceFirst hay pat rep = (a ++ rep ++ b)%string.
Proof.
  induction hay as [|c hay IH].
  - cbn [Str.replaceFirst]. destruct (String.prefix pat "") eqn:E; [|now left].
    right. exists "", (Str.drop (String.length pat) ""). split; [|reflexivity].
    now apply prefix_drop.
  - cbn [Str.replaceFirst].
    destruct (String.prefix pat (String c hay)) eqn:E.
    + right. exists "", (Str.drop (String.length pat) (String c hay)).
      split; [|reflexivity]. now apply prefix_drop.
    + destruct IH as [->|(a & b & -> & ->)]; [now left|].
      right. now exists (String c a), b.
Qed.

(** Replacing a piece of a pattern text by one that reads the same way
    leaves the reading of the whole as it was. *)
Lemma read_replaceFirst (hay pat rep : string) (st st' : pstate) :
  (forall x y, read x pat = Some y -> read x rep = Some y) ->
  read st hay = Some st' ->
  read st (Str.replaceFirst hay pat rep) = Some st'.
Proof.
  intros Hsame H.
  destruct (replaceFirst_cases hay pat rep) as [->|(a & b & -> & ->)];
    [exact H|].
  rewrite read_append in H |- *.
  destruct (read st a) as [x|]; [|exact H].
  rewrite read_append in H |- *.
  destruct (read x pat) as [y|] eqn:E; [|discriminate H].
  now rewrite (Hsame x y E).
Qed.

Lemma read_floz (x y : pstate) :
  read x "floz" = Some y -> read x "fl\s*oz|floz" = Some y.
Proof. destruct x as [[|]| |]; vm_compute; congruence. Qed.

Lemma read_ml (x y : pstate) :
  read x "ml" = Some y -> read x "m\s*l|ml|milliliter|millilitres" = Some y.
Proof. destruct x as [[|]| |]; vm_compute; congruence. Qed.

Lemma read_unitPatternOf (unit : string) (st st' : pstate) :
  read st unit = Some st' -> read st (unitPatternOf unit) = Some st'.
Proof.
  intros H. unfold unitPatternOf.
  apply read_replaceFirst; [exact read_ml|].
  apply read_replaceFirst; [exact read_floz|exact H].
Qed.

Lemma next_simple (c : ascii) (st : pstate) :
  simple c = true -> settled st = true -> next st c = Some (Term true).
Proof.
  destruct st as [[|]| |]; try discriminate; intros H _; revert H;
    char_cases c.
Qed.

Lemma read_simple (s : string) (st : pstate) :
  Direct.all simple s = true -> settled st = true ->
  exists st', read st s = Some st' /\ settled st' = true.
Proof.
  revert st. induction s as [|c s IH]; intros st; cbn [Direct.all read].
  - intros _ H. now exists st.
  - intros H Hst. apply andb_true_iff in H as [Hc Hs].
    rewrite (next_simple c st Hc Hst). now apply IH.
Qed.

(** The text of [searchRegex] compiles for every volume of digits and dots
    and every unit of simple characters. *)
Lemma searchRegex_compiles (volume unit : string) :
  Direct.all simple volume = true ->
  Direct.all simple unit = true ->
  exists re,
    newRegExpI (searchPatternText volume (unitPatternOf unit)) = Returns re.
Proof.
  intros Hv Hu. apply newRegExpI_read.
  unfold searchPatternText.
  change (read (Term false)
            ("\b" ++ volume ++ "\s*" ++ unitPatternOf unit ++ "\b")%string)
    with (read (Term false)
            (volume ++ "\s*" ++ unitPatternOf unit ++ "\b")%string).
  rewrite read_append.
  destruct (read_simple volume (Term false) Hv eq_refl) as (s1 & -> & Hs1).
  assert (Hws : read s1 ("\s*" ++ unitPatternOf unit ++ "\b")%string
                = read Quantified (unitPatternOf unit ++ "\b")%string)
    by (destruct s1 as [[|]| |]; [reflexivity|reflexivity|discriminate|reflexivity]).
  rewrite Hws, read_append.
  destruct (read_simple unit Quantified Hu eq_refl) as (s2 & Hr & Hs2).
  rewrite (read_unitPatternOf unit _ _ Hr).
  destruct s2 as [[|]| |]; [reflexivity|reflexivity|discriminate|reflexivity].
Qed.

(** ** The unit of a match *)

Lemma letter_lower_simple (c : ascii) :
  Char.isAsciiLetter c = true -> simple (Char.toLower c) = true.
Proof. char_cases c. Qed.

Lemma digitOrDot_simple (c : ascii) :
  Alphabet.digitOrDot c = true -> simple c = true.
Proof. char_cases c. Qed.

Lemma all_map (P Q : ascii -> bool) (f : ascii -> ascii) (s : string) :
  (forall c, P c = true -> Q (f c) = true) ->
  Direct.all P s = true -> Direct.all Q (Str.map f s) = true.
Proof.
  intros HPQ. induction s as [|c s IH]; cbn [Direct.all Str.map]; [reflexivity|].
  intros H. apply andb_true_iff in H as [Hc Hs].
  now rewrite (HPQ c Hc), (IH Hs).
Qed.

Lemma normalize_letters (unit : string) :
  Direct.all Char.isAsciiLetter unit = true ->
  exists n, normalize (JStr unit) = Returns n /\ Direct.all simple n = true.
Proof.
  intros H. exists (normalizeString unit). split; [apply normalize_JStr|].
  rewrite NormalizeFacts.normalizeString_direct.
  apply NormalizeFacts.all_trim, NormalizeFacts.all_collapseRuns; [reflexivity|].
  apply NormalizeFacts.all_filter.
  exact (all_map _ _ _ unit letter_lower_simple H).
Qed.

(** ** The text of [abvRegex] for a Number *)

Lemma plain_uint (d : Decimal.uint) :
  Direct.all plain (NilEmpty.string_of_uint d) = true.
Proof. induction d; cbn [NilEmpty.string_of_uint Direct.all]; auto. Qed.

Lemma plain_toString_JNum (z : Z) : Direct.all plain (toString (JNum z)) = true.
Proof.
  cbn [toString]. unfold NilZero.string_of_int, NilZero.string_of_uint.
  destruct (Z.to_int z) as [d|d]; [|cbn [Direct.all andb]];
    (destruct d; [reflexivity|apply (plain_uint (_ _))..]).
Qed.

Lemma parse_abv_middle (n : nat) (f : frame) :
  exists f',
    forall r,
      parseFrom ("(?:\.0)?\s*%\s*(?:alc\.|vol\.|by\s*vol\.)?|\b" ++ r) n [] f
      = parseFrom r n [] f'.
Proof. destruct f as [alts ts q g]. eexists. intros r. simpl. reflexivity. Qed.

Lemma parse_abv_end (n : nat) (f : frame) :
  exists re, parseFrom "(?:\.0)?\s*%" n [] f = Returns re.
Proof. destruct f as [alts ts q g]. eexists. simpl. reflexivity. Qed.

Lemma abvRegex_compiles (alcoholContent : string) :
  Direct.all plain alcoholContent = true ->
  exists re, newRegExpI (abvPatternText alcoholContent) = Returns re.
Proof.
  intros H. unfold newRegExpI, parse, abvPatternText.
  change (parseFrom ("\b" ++ ?x) 0 [] (openFrame None))
    with (parseFrom x 0 [] (pushTerm (WordBoundary false) false (openFrame None))).
  rewrite parse_pushPlain by exact H.
  destruct (parse_abv_middle 0
              (pushPlain alcoholContent
                 (pushTerm (WordBoundary false) false (openFrame None))))
    as (f' & ->).
  rewrite parse_pushPlain by exact H.
  destruct (parse_abv_end 0 (pushPlain alcoholContent f')) as (re & ->).
  now eexists.
Qed.

End ReturnsFacts.

(* ================================================================== *)
(** * Every report, in terms of the pieces *)

(** [performVerification] as the sequence of its pieces. *)
Lemma performVerification_pieces (extractedText : string) (formInput : Form.t) :
  performVerification extractedText formInput
  = (let normalizedText := normalizeString extractedText in
     do brandName <- declaredText (Form.brandName formInput);
     do productClass <- declaredText (Form.productClass formInput);
     do netContents <- declaredText (Form.netContents formInput);
     do abvRegex <- RegExp.newRegExpI (abvPatternText (declaredAbv formInput));
     do netContentsMatch <-
       matchMethod (Form.netContents formInput) netContentsPattern;
     let brand := substringFound normalizedText brandName in
     let class := substringFound normalizedText productClass in
     let abv := abvFound abvRegex (declaredAbv formInput) extractedText in
     let isMandatoryCheck := 0 <? String.length netContents in
     let warning := Str.includes normalizedText "government warning" in
     do net <- netContentsTiers normalizedText formInput isMandatoryCheck
                 (brand && class && abv) netContentsMatch;
     Returns (mkReport (snd net && warning)
                (rows formInput brand class abv (fst net)
                      isMandatoryCheck warning))).
Proof.
  unfold performVerification. rewrite normalize_JStr. unfold bind at 1.
  fold (declaredText (Form.brandName formInput)).
  fold (declaredText (Form.productClass formInput)).
  fold (declaredText (Form.netContents formInput)).
  fold (declaredAbv formInput).
  cbv zeta.
  destruct (declaredText (Form.brandName formInput)) as [bn| |];
    [cbn [bind]|reflexivity|reflexivity].
  destruct (declaredText (Form.productClass formInput)) as [pc| |];
    [cbn [bind]|reflexivity|reflexivity].
  destruct (declaredText (Form.netContents formInput)) as [nc| |];
    [cbn [bind]|reflexivity|reflexivity].
  destruct (RegExp.newRegExpI (abvPatternText (declaredAbv formInput)))
    as [re| |]; [cbn [bind]|reflexivity|reflexivity].
  destruct (matchMethod (Form.netContents formInput) netContentsPattern)
    as [m| |]; [cbn [bind]|reflexivity|reflexivity].
  fold (substringFound (normalizeString extractedText) bn).
  fold (substringFound (normalizeString extractedText) pc).
  fold (abvFound re (declaredAbv formInput) extractedText).
  set (brand := substringFound (normalizeString extractedText) bn).
  set (class := substringFound (normalizeString extractedText) pc).
  set (abv := abvFound re (declaredAbv formInput) extractedText).
  replace (if abv then if class then if brand then true else false
                        else false else false)
    with (brand && class && abv) by (destruct brand, class, abv; reflexivity).
  change (match m with
          | Some m0 => _
          | None => _
          end)
    with (netContentsTiers (normalizeString extractedText) formInput
            (0 <? String.length nc) (brand && class && abv) m).
  destruct (netContentsTiers (normalizeString extractedText) formInput
              (0 <? String.length nc) (brand && class && abv) m)
    as [net| |]; [cbn [bind]|reflexivity|reflexivity].
  unfold rows, found, push. cbn [app].
  destruct (Str.includes (normalizeString extractedText) "government warning");
    [now rewrite andb_true_r | now rewrite andb_false_r].
Qed.

(** Every report [performVerification] returns, in terms of the pieces. *)
Lemma performVerification_returns (extractedText : string) (formInput : Form.t)
    (report : VerificationReport) :
  performVerification extractedText formInput = Returns report ->
  exists brandName productClass netContents abvRegex netContentsMatch net,
    declaredText (Form.brandName formInput) = Returns brandName
    /\ declaredText (Form.productClass formInput) = Returns productClass
    /\ declaredText (Form.netContents formInput) = Returns netContents
    /\ RegExp.newRegExpI (abvPatternText (declaredAbv formInput)) = Returns abvRegex
    /\ matchMethod (Form.netContents formInput) netContentsPattern
       = Returns netContentsMatch
    /\ (let normalizedText := normalizeString extractedText in
        let brand := substringFound normalizedText brandName in
        let class := substringFound normalizedText productClass in
        let abv := abvFound abvRegex (declaredAbv formInput) extractedText in
        let isMandatoryCheck := 0 <? String.length netContents in
        let warning := Str.includes normalizedText "government warning" in
        netContentsTiers normalizedText formInput isMandatoryCheck
                         (brand && class && abv) netContentsMatch
        = Returns net
        /\ report = mkReport (snd net && warning)
                      (rows formInput brand class abv (fst net)
                            isMandatoryCheck warning)).
Proof.
  rewrite performVerification_pieces. cbv zeta.
  destruct (declaredText (Form.brandName formInput)) as [bn| |];
    [cbn [bind]|discriminate|discriminate].
  destruct (declaredText (Form.productClass formInput)) as [pc| |];
    [cbn [bind]|discriminate|discriminate].
  destruct (declaredText (Form.netContents formInput)) as [nc| |];
    [cbn [bind]|discriminate|discriminate].
  destruct (RegExp.newRegExpI (abvPatternText (declaredAbv formInput)))
    as [re| |]; [cbn [bind]|discriminate|discriminate].
  destruct (matchMethod (Form.netContents formInput) netContentsPattern)
    as [m| |]; [cbn [bind]|discriminate|discriminate].
  destruct (netContentsTiers _ _ _ _ m) as [net| |] eqn:Enet;
    [cbn [bind]|discriminate|discriminate].
  intros [= <-]. exists bn, pc, nc, re, m, net. auto 10.
Qed.

Lemma netContentsTiers_overall (normalizedText : string) (formInput : Form.t)
    (isMandatoryCheck overallMatch : bool)
    (netContentsMatch : option RegExp.matchResult) (net : MatchStatus * bool) :
  netContentsTiers normalizedText formInput isMandatoryCheck overallMatch
                   netContentsMatch = Returns net ->
  snd net = overallMatch && (negb isMandatoryCheck || isMatch (fst net)).
Proof.
  unfold netContentsTiers.
  destruct netContentsMatch as [m|].
  - destruct (normalize (matchAt m 2)) as [unit| |]; cbn [bind];
      try discriminate.
    destruct (RegExp.newRegExpI _) as [re| |]; cbn [bind]; try discriminate.
    destruct (RegExp.test re normalizedText); intros [= <-]; cbn [fst snd isMatch].
    + now rewrite orb_true_r, andb_true_r.
    + destruct isMandatoryCheck, overallMatch; reflexivity.
  - destruct isMandatoryCheck.
    + destruct (normalize (Form.netContents formInput)) as [n| |]; cbn [bind];
        try discriminate.
      destruct (RegExp.exec volumeOnlyPattern n) as [v|].
      * destruct (Str.includes _ _); intros [= <-]; cbn [fst snd isMatch];
          now rewrite andb_false_r.
      * intros [= <-]; cbn [fst snd isMatch]. now rewrite andb_false_r.
    + intros [= <-]; cbn [fst snd negb orb]. now rewrite andb_true_r.
Qed.

Section Returns.
Import WellFormed ReturnsFacts.

Lemma declaredText_textual (v : jsvalue) :
  textual v -> exists n, declaredText v = Returns n.
Proof.
  unfold declaredText.
  destruct v as [| |s|z]; cbn [textual]; intros H.
  - now eexists.
  - now eexists.
  - destruct s; eexists; [reflexivity|apply normalize_JStr].
  - subst z. now eexists.
Qed.

Lemma netContentsTiers_returns (normalizedText declared : string)
    (formInput : Form.t) (isMandatoryCheck overallMatch : bool) :
  Form.netContents formInput = JStr declared ->
  exists net,
    netContentsTiers normalizedText formInput isMandatoryCheck overallMatch
                     (RegExp.exec netContentsPattern declared)
    = Returns net.
Proof.
  intros Hd. unfold netContentsTiers.
  destruct (RegExp.exec netContentsPattern declared) as [m|] eqn:E.
  - apply AlphabetFacts.exec_netContents_groups in E
      as (volume & unit & -> & -> & Hv & Hu).
    destruct (normalize_letters unit Hu) as (n & -> & Hn). cbn [bind toString].
    destruct (searchRegex_compiles volume n) as (re & ->);
      [exact (all_impl _ _ _ digitOrDot_simple Hv)|exact Hn|].
    cbn [bind]. destruct (RegExp.test re normalizedText); now eexists.
  - destruct isMandatoryCheck; [|now eexists].
    rewrite Hd, normalize_JStr. cbn [bind].
    destruct (RegExp.exec volumeOnlyPattern (normalizeString declared));
      [|now eexists].
    destruct (Str.includes _ _); now eexists.
Qed.

End Returns.

Lemma found_Match (b : bool) : found b = Match <-> b = true.
Proof. destruct b; simpl; split; congruence. Qed.

Lemma isMatch_true (s : MatchStatus) : isMatch s = true <-> s = Match.
Proof. destruct s; simpl; split; congruence. Qed.

Lemma length_positive (s : string) : (0 <? String.length s) = true <-> s <> "".
Proof.
  destruct s; cbn; split; intros H; try discriminate; try reflexivity.
  now elim H.
Qed.

Lemma forall_rows (P : FieldCheck -> Prop) (formInput : Form.t)
    (brand class abv : bool) (netStatus : MatchStatus) (isMandatoryCheck warning : bool) :
  (forall d,
      In d (rows formInput brand class abv netStatus isMandatoryCheck warning) ->
      P d)
  <-> (P (mkCheck BrandName (found brand) (Form.brandName formInput))
       /\ P (mkCheck ProductClass (found class) (Form.productClass formInput))
       /\ P (mkCheck AlcoholContent (found abv)
               (JStr (plusString (Form.alcoholContent formInput)
                                 "% (within tolerance)")))
       /\ P (mkCheck NetContents netStatus
               (JStr (plusString (Form.netContents formInput)
                        (if isMandatoryCheck then "" else " (Optional)"))))
       /\ P (mkCheck GovernmentWarning (found warning) (JStr warningExpected))).
Proof.
  unfold rows. split.
  - intros H. repeat split; apply H; simpl; auto 6.
  - intros (H1 & H2 & H3 & H4 & H5) d Hd. simpl in Hd.
    destruct Hd as [<-|[<-|[<-|[<-|[<-|[]]]]]]; assumption.
Qed.

(** The aggregate, as a conjunction. *)
Lemma overall_match_returns
    (extractedText : string) (formInput : Form.t) (report : VerificationReport) :
  performVerification extractedText formInput = Returns report ->
  exists brand class abv netStatus netContents warning,
    declaredText (Form.netContents formInput) = Returns netContents
    /\ discrepancies report
       = rows formInput brand class abv netStatus
              (0 <? String.length netContents) warning
    /\ overall_match report
       = brand && class && abv
         && (negb (0 <? String.length netContents) || isMatch netStatus)
         && warning.
Proof.
  intros H.
  destruct (performVerification_returns _ _ _ H)
    as (bn & pc & nc & re & m & net & _ & _ & Hnc & _ & _ & Hnet & ->).
  apply netContentsTiers_overall in Hnet.
  eexists _, _, _, (fst net), nc, _. repeat split.
  - exact Hnc.
  - cbn [overall_match]. now rewrite Hnet.
Qed.

(* ================================================================== *)
(** * The scenarios, evaluated *)

Module ScenarioFacts.
Import Scenario.

Lemma fullSuccess_returns :
  performVerification labelText fullSuccess = Returns fullSuccessReport.
Proof. vm_compute. reflexivity. Qed.

Lemma fullSuccess_all_match :
  overall_match fullSuccessReport = true
  /\ map status (discrepancies fullSuccessReport)
     = [Match; Match; Match; Match; Match].
Proof. split; reflexivity. Qed.

Lemma brandMismatch_returns :
  performVerification labelText brandMismatch = Returns brandMismatchReport.
Proof. vm_compute. reflexivity. Qed.

Lemma brandMismatch_fails :
  overall_match brandMismatchReport = false
  /\ statusOf BrandName brandMismatchReport = Some NotFoundOrMismatch.
Proof. split; reflexivity. Qed.

Lemma normalizationTolerance_passes :
  exists report,
    performVerification labelText normalizationTolerance = Returns report
    /\ overall_match report = true.
Proof. eexists. split; vm_compute; reflexivity. Qed.

Lemma unitMissing_returns :
  performVerification labelText unitMissing = Returns unitMissingReport.
Proof. vm_compute. reflexivity. Qed.

Lemma unitMissing_fails :
  overall_match unitMissingReport = false
  /\ statusOf NetContents unitMissingReport = Some MismatchUnitMissing.
Proof. split; reflexivity. Qed.

Lemma netContentsEmpty_returns :
  performVerification labelText netContentsEmpty
  = Returns netContentsEmptyReport.
Proof. vm_compute. reflexivity. Qed.

Lemma abvAbsent_returns :
  performVerification labelText abvAbsent = Returns abvAbsentReport.
Proof. vm_compute. reflexivity. Qed.

Lemma otherVolume_returns :
  performVerification otherVolumeText fullSuccess = Returns otherVolumeReport.
Proof. vm_compute. reflexivity. Qed.

End ScenarioFacts.

(* ================================================================== *)
(** * The pattern of [volumeOnly] on a normalized string *)

Module VolumeOnly.
Import RegExp Direct Position MatcherFacts.

Lemma notPunctuation_dot (c : ascii) :
  notPunctuation c = true -> Ascii.eqb "."%char c = false.
Proof. each_char c; discriminate. Qed.

Lemma run_volumeOnly_eq (st : mstate) :
  run false (source volumeOnlyPattern) st Some
  = one Char.isDigit st (digits (optionalDot (digits (close st)))).
Proof. reflexivity. Qed.

Lemma digits_total (k : mstate -> option mstate) (st : mstate) :
  (forall x, k x <> None) -> digits k st = k (skip Char.isDigit st).
Proof. intros Hk. unfold digits. now apply iterate_one_total. Qed.

Lemma optionalDot_total (k : mstate -> option mstate) (st : mstate) :
  (forall x, k x <> None) -> optionalDot k st <> None.
Proof.
  intros Hk. unfold optionalDot.
  destruct (step _ st k); [discriminate|apply Hk].
Qed.

Lemma optionalDot_none (k : mstate -> option mstate) (st : mstate) :
  Direct.all notPunctuation (rest st) = true ->
  optionalDot k st = k st.
Proof.
  intros Hs. unfold optionalDot, step.
  destruct (rest st) as [|d r]; [reflexivity|].
  simpl in Hs. apply andb_true_iff in Hs as [Hd _].
  unfold sameChar. now rewrite (notPunctuation_dot d Hd).
Qed.

(** The pattern at one position of a string without punctuation. *)
Lemma run_volumeOnly (before : option ascii) (s : string) :
  Direct.all notPunctuation s = true ->
  run false (source volumeOnlyPattern) (mkState before s []) Some
  = match s with
    | EmptyString => None
    | String c r =>
        if Char.isDigit c
        then Some (mkState (fst (skipFrom Char.isDigit (Some c) r))
                           (dropWhile Char.isDigit r)
                           [(1, String c (takeWhile Char.isDigit r))])
        else None
    end.
Proof.
  intros Hs. rewrite run_volumeOnly_eq.
  unfold one at 1, step at 1. cbn [rest prev caps].
  destruct s as [|c r]; [reflexivity|].
  destruct (Char.isDigit c) eqn:Ec; [|reflexivity].
  set (start := mkState before (String c r) []).
  set (st1 := mkState (Some c) r []).
  assert (Hclose : forall x, close start x <> None) by (intros x; discriminate).
  assert (Hdigits : forall x, digits (close start) x <> None).
  { intros x. now rewrite digits_total. }
  rewrite digits_total by (intros x; now apply optionalDot_total).
  rewrite optionalDot_none.
  - rewrite digits_total, skip_skip by assumption.
    unfold close. f_equal.
    rewrite skip_rest. unfold consumed. rewrite skip_rest.
    unfold st1, start. cbn [rest prev caps skip].
    now rewrite take_run.
  - rewrite skip_rest. unfold st1. cbn [rest].
    apply all_dropWhile.
    simpl in Hs. now apply andb_true_iff in Hs as [_ Hr].
Qed.

(** On a string without punctuation, [exec] finds the first numeric
    substring, which is also its first capture. *)
Lemma searchFrom_volumeOnly (before : option ascii) (s : string) :
  Direct.all notPunctuation s = true ->
  searchFrom volumeOnlyPattern before s
  = option_map (fun v => mkMatch v [(1, v)]) (firstNumericSubstring s).
Proof.
  revert before. induction s as [|c r IH]; intros before Hs.
  - reflexivity.
  - cbn [searchFrom]. cbn [ignoreCase volumeOnlyPattern].
    change (Group 1 _) with (source volumeOnlyPattern).
    rewrite (run_volumeOnly before (String c r) Hs).
    cbn [firstNumericSubstring].
    destruct (Char.isDigit c) eqn:Ec.
    + cbn [option_map caps]. unfold consumed. cbn [rest].
      now rewrite take_run.
    + apply IH. simpl in Hs. now apply andb_true_iff in Hs as [_ Hr].
Qed.

Lemma exec_volumeOnly_normalized (d : string) :
  exec volumeOnlyPattern (normalizeString d)
  = option_map (fun v => mkMatch v [(1, v)])
               (firstNumericSubstring (normalizeString d)).
Proof.
  apply searchFrom_volumeOnly, NormalizeFacts.normalizeString_normalized.
Qed.

End VolumeOnly.

(* ================================================================== *)
(** * The report: rows and aggregation *)

(** C9.  Whenever [performVerification] returns a report, its discrepancies
    are exactly five rows, one per field, in the order Brand Name, Product
    Class, Alcohol Content, Net Contents, Government Warning. *)
Theorem discrepancies_five_rows_in_order
    (extractedText : string) (formInput : Form.t) (report : VerificationReport) :
  performVerification extractedText formInput = Returns report ->
  map field (discrepancies report)
  = [BrandName; ProductClass; AlcoholContent; NetContents; GovernmentWarning].
Proof.
  intros H.
  destruct (performVerification_returns _ _ _ H)
    as (bn & pc & nc & re & m & net & _ & _ & _ & _ & _ & _ & ->).
  reflexivity.
Qed.

Lemma discrepancies_five_rows_in_order_witness :
  map field (discrepancies Scenario.fullSuccessReport)
  = [BrandName; ProductClass; AlcoholContent; NetContents; GovernmentWarning].
Proof.
  apply (discrepancies_five_rows_in_order Scenario.labelText Scenario.fullSuccess).
  vm_compute. reflexivity.
Defined.

(** C10.  The status of the Government Warning row depends on the extracted
    text only: for one text and any two forms on which a report is returned
    the two rows have the same status, and that status is Match exactly when
    the normalized text includes "government warning". *)
Theorem governmentWarning_from_text_only
    (extractedText : string) (form1 form2 : Form.t)
    (report1 report2 : VerificationReport) :
  performVerification extractedText form1 = Returns report1 ->
  performVerification extractedText form2 = Returns report2 ->
  exists s,
    statusOf GovernmentWarning report1 = Some s
    /\ statusOf GovernmentWarning report2 = Some s
    /\ (s = Match <->
        Str.includes (normalizeString extractedText) "government warning" = true).
Proof.
  intros H1 H2.
  destruct (performVerification_returns _ _ _ H1)
    as (? & ? & ? & ? & ? & ? & _ & _ & _ & _ & _ & _ & ->).
  destruct (performVerification_returns _ _ _ H2)
    as (? & ? & ? & ? & ? & ? & _ & _ & _ & _ & _ & _ & ->).
  exists (found (Str.includes (normalizeString extractedText) "government warning")).
  repeat split; try reflexivity; apply found_Match.
Qed.

Lemma governmentWarning_from_text_only_witness :
  exists s,
    statusOf GovernmentWarning Scenario.fullSuccessReport = Some s
    /\ statusOf GovernmentWarning Scenario.brandMismatchReport = Some s
    /\ (s = Match <->
        Str.includes (normalizeString Scenario.labelText) "government warning"
        = true).
Proof.
  apply (governmentWarning_from_text_only
           Scenario.labelText Scenario.fullSuccess Scenario.brandMismatch);
    vm_compute; reflexivity.
Defined.

(** C8.  Brand Name and Product Class.  When a report is returned, each of
    the two rows has a status; if the declared value normalizes to the empty
    string the status is NotFoundOrMismatch and [overall_match] is false;
    otherwise the status is Match exactly when the normalized haystack
    includes the normalized declared value, and NotFoundOrMismatch if not;
    and a status other than Match makes [overall_match] false. *)
Theorem brand_and_class_substring_check
    (extractedText : string) (formInput : Form.t) (report : VerificationReport) :
  performVerification extractedText formInput = Returns report ->
  forall name declared,
    (name = BrandName /\ declared = Form.brandName formInput)
    \/ (name = ProductClass /\ declared = Form.productClass formInput) ->
    exists n s,
      declaredText declared = Returns n
      /\ statusOf name report = Some s
      /\ (n = "" -> s = NotFoundOrMismatch /\ overall_match report = false)
      /\ (n <> "" ->
          (s = Match <-> Str.includes (normalizeString extractedText) n = true)
          /\ (s = Match \/ s = NotFoundOrMismatch))
      /\ (s <> Match -> overall_match report = false).
Proof.
  intros H name declared Hname.
  destruct (performVerification_returns _ _ _ H)
    as (bn & pc & nc & re & m & net & Hbn & Hpc & _ & _ & _ & Hnet & ->).
  apply netContentsTiers_overall in Hnet.
  cbn [overall_match]. rewrite Hnet. clear Hnet.
  set (hay := normalizeString extractedText).
  assert (Hsub : forall d, d <> "" -> substringFound hay d = Str.includes hay d).
  { intros [|c d] Hd; [congruence|reflexivity]. }
  destruct Hname as [[-> ->]|[-> ->]].
  - exists bn, (found (substringFound hay bn)).
    repeat split; try assumption; try reflexivity.
    + now subst bn.
    + subst bn. reflexivity.
    + rewrite found_Match, Hsub; auto.
    + rewrite found_Match, Hsub; auto.
    + destruct (substringFound hay bn); auto.
    + intros Hs. destruct (substringFound hay bn); [now elim Hs|reflexivity].
  - exists pc, (found (substringFound hay pc)).
    repeat split; try assumption; try reflexivity.
    + now subst pc.
    + subst pc. unfold substringFound at 2. cbn [String.length Nat.ltb Nat.leb andb].
      now rewrite andb_false_r.
    + rewrite found_Match, Hsub; auto.
    + rewrite found_Match, Hsub; auto.
    + destruct (substringFound hay pc); auto.
    + intros Hs. destruct (substringFound hay pc); [now elim Hs|].
      now rewrite andb_false_r.
Qed.

Lemma brand_and_class_substring_check_witness :
  exists n s,
    declaredText (Form.brandName Scenario.brandMismatch) = Returns n
    /\ statusOf BrandName Scenario.brandMismatchReport = Some s
    /\ (n = "" ->
        s = NotFoundOrMismatch
        /\ overall_match Scenario.brandMismatchReport = false)
    /\ (n <> "" ->
        (s = Match <->
         Str.includes (normalizeString Scenario.labelText) n = true)
        /\ (s = Match \/ s = NotFoundOrMismatch))
    /\ (s <> Match -> overall_match Scenario.brandMismatchReport = false).
Proof.
  apply (brand_and_class_substring_check
           Scenario.labelText Scenario.brandMismatch
           Scenario.brandMismatchReport);
    [vm_compute; reflexivity | left; split; reflexivity].
Defined.

(** C4.  When a report is returned, [overall_match] is true exactly when
    every mandatory row has status Match; Brand Name, Product Class, Alcohol
    Content and Government Warning are always mandatory, Net Contents when
    the declared value normalizes to a non-empty string.  So a Net Contents
    row that is not mandatory does not make [overall_match] false, whatever
    its status. *)
Theorem overall_match_iff_mandatory_rows_match
    (extractedText : string) (formInput : Form.t) (report : VerificationReport) :
  performVerification extractedText formInput = Returns report ->
  (overall_match report = true <->
   forall d, In d (discrepancies report) ->
             mandatory formInput (field d) -> status d = Match)
  /\ (~ mandatory formInput NetContents ->
      (forall d, In d (discrepancies report) ->
                 field d <> NetContents -> status d = Match) ->
      overall_match report = true).
Proof.
  intros H.
  destruct (overall_match_returns _ _ _ H)
    as (b & c & a & ns & nc & w & Hnc & -> & ->).
  assert (Hmand : mandatory formInput NetContents
                  <-> (0 <? String.length nc) = true).
  { cbn [mandatory]. rewrite Hnc, length_positive. split.
    - now intros (n & [= <-] & Hn).
    - intros Hn. now exists nc. }
  split; [split|].
  - intros Hov.
    repeat (apply andb_true_iff in Hov as [Hov ?]). subst.
    apply (forall_rows
             (fun d => mandatory formInput (field d) -> status d = Match)).
    cbn [field status mandatory found]. repeat split.
    intros Hm. apply Hmand in Hm. rewrite Hm in *.
    now apply isMatch_true.
  - intros Hrows.
    apply (forall_rows
             (fun d => mandatory formInput (field d) -> status d = Match))
      in Hrows.
    cbn [field status mandatory] in Hrows.
    destruct Hrows as (Hb & Hc & Ha & Hn & Hw).
    apply found_Match in Hb, Hc, Ha, Hw; auto. subst. cbn [andb].
    rewrite andb_true_r.
    destruct (0 <? String.length nc) eqn:E; [|reflexivity].
    cbn [negb orb]. apply isMatch_true, Hn, Hmand. reflexivity.
  - intros Hnot Hrows.
    apply (forall_rows
             (fun d => field d <> NetContents -> status d = Match)) in Hrows.
    cbn [field status] in Hrows.
    destruct Hrows as (Hb & Hc & Ha & _ & Hw).
    rewrite found_Match in Hb, Hc, Ha, Hw.
    rewrite Hb, Hc, Ha, Hw by discriminate. cbn [andb].
    rewrite andb_true_r.
    destruct (0 <? String.length nc) eqn:E; [|reflexivity].
    elim Hnot. now apply Hmand.
Qed.

Lemma overall_match_iff_mandatory_rows_match_witness :
  (overall_match Scenario.netContentsEmptyReport = true <->
   forall d, In d (discrepancies Scenario.netContentsEmptyReport) ->
             mandatory Scenario.netContentsEmpty (field d) -> status d = Match)
  /\ (~ mandatory Scenario.netContentsEmpty NetContents ->
      (forall d, In d (discrepancies Scenario.netContentsEmptyReport) ->
                 field d <> NetContents -> status d = Match) ->
      overall_match Scenario.netContentsEmptyReport = true).
Proof.
  apply (overall_match_iff_mandatory_rows_match
           Scenario.labelText Scenario.netContentsEmpty).
  vm_compute. reflexivity.
Defined.

(** C3, as the claim states it, fails: with net contents declared as the
    empty string the report has [overall_match] true and a Net Contents row
    of status NotFoundOrMismatch. *)
Lemma overall_match_not_iff_all_rows_match :
  ~ (forall extractedText formInput report,
        performVerification extractedText formInput = Returns report ->
        (overall_match report = true <->
         forall d, In d (discrepancies report) -> status d = Match)).
Proof.
  intros H.
  destruct (H Scenario.labelText Scenario.netContentsEmpty
              Scenario.netContentsEmptyReport ScenarioFacts.netContentsEmpty_returns)
    as [Hall _].
  specialize (Hall eq_refl
                (mkCheck NetContents NotFoundOrMismatch (JStr " (Optional)"))).
  cbn [status] in Hall.
  assert (Hd : NotFoundOrMismatch = Match); [|discriminate Hd].
  apply Hall. vm_compute. auto 6.
Qed.

(** C3, amended.  When a report is returned, [overall_match] is true exactly
    when every row has status Match, the Net Contents row excepted when the
    declared net contents normalize to the empty string. *)
Theorem overall_match_iff_rows_match_or_optional
    (extractedText : string) (formInput : Form.t) (report : VerificationReport) :
  performVerification extractedText formInput = Returns report ->
  (overall_match report = true <->
   Forall (fun d =>
             status d = Match
             \/ (field d = NetContents
                 /\ declaredText (Form.netContents formInput) = Returns ""))
          (discrepancies report)).
Proof.
  intros H.
  destruct (overall_match_returns _ _ _ H)
    as (b & c & a & ns & nc & w & Hnc & -> & ->).
  rewrite Forall_forall.
  rewrite (forall_rows
             (fun d => status d = Match
                       \/ (field d = NetContents
                           /\ declaredText (Form.netContents formInput)
                              = Returns ""))).
  cbn [field status]. rewrite Hnc.
  split.
  - intros Hov.
    repeat (apply andb_true_iff in Hov as [Hov ?]). subst.
    cbn [found]. repeat split; auto.
    destruct nc as [|ch nc']; [now right|left].
    now apply isMatch_true.
  - intros (Hb & Hc & Ha & Hn & Hw).
    destruct Hb as [Hb|[Hb _]]; [|discriminate].
    destruct Hc as [Hc|[Hc _]]; [|discriminate].
    destruct Ha as [Ha|[Ha _]]; [|discriminate].
    destruct Hw as [Hw|[Hw _]]; [|discriminate].
    apply found_Match in Hb, Hc, Ha, Hw. subst. cbn [andb].
    rewrite andb_true_r.
    destruct Hn as [->|[_ [= ->]]]; [now rewrite orb_true_r|reflexivity].
Qed.

Lemma overall_match_iff_rows_match_or_optional_witness :
  overall_match Scenario.netContentsEmptyReport = true <->
  Forall (fun d =>
            status d = Match
            \/ (field d = NetContents
                /\ declaredText (Form.netContents Scenario.netContentsEmpty)
                   = Returns ""))
         (discrepancies Scenario.netContentsEmptyReport).
Proof.
  apply (overall_match_iff_rows_match_or_optional
           Scenario.labelText Scenario.netContentsEmpty).
  vm_compute. reflexivity.
Defined.

(** C6.  If the declared alcohol content is the number 0 or is not set, then
    in every report returned the Alcohol Content row has status
    NotFoundOrMismatch, whatever the extracted text, and [overall_match] is
    false. *)
Theorem zero_alcoholContent_never_matches
    (extractedText : string) (formInput : Form.t) (report : VerificationReport) :
  Form.alcoholContent formInput = JNum 0
  \/ Form.alcoholContent formInput = JUndefined ->
  performVerification extractedText formInput = Returns report ->
  statusOf AlcoholContent report = Some NotFoundOrMismatch
  /\ overall_match report = false.
Proof.
  intros Habv H.
  destruct (performVerification_returns _ _ _ H)
    as (bn & pc & nc & re & m & net & _ & _ & _ & _ & _ & Hnet & ->).
  apply netContentsTiers_overall in Hnet.
  assert (Hzero : declaredAbv formInput = "0")
    by (unfold declaredAbv; destruct Habv as [-> | ->]; reflexivity).
  assert (Hno : abvFound re (declaredAbv formInput) extractedText = false)
    by (rewrite Hzero; reflexivity).
  cbn [overall_match]. rewrite Hnet, Hno.
  split; [reflexivity|].
  now rewrite !andb_false_r.
Qed.

Lemma zero_alcoholContent_never_matches_witness :
  statusOf AlcoholContent Scenario.abvAbsentReport = Some NotFoundOrMismatch
  /\ overall_match Scenario.abvAbsentReport = false.
Proof.
  apply (zero_alcoholContent_never_matches
           Scenario.labelText Scenario.abvAbsent);
    [right; reflexivity | vm_compute; reflexivity].
Defined.

(* ================================================================== *)
(** * Net Contents *)

(** C5.  Tier 2.  When the declared net contents are a string on which the
    number-and-letters pattern finds nothing, and which normalizes to a
    non-empty string, the check takes the first numeric substring of the
    normalized declared value: if the normalized haystack includes it the
    status is MismatchUnitMissing, otherwise (also when there is no numeric
    substring) NotFoundOrMismatch; and [overall_match] is false either way. *)
Theorem netContents_fallback_on_number_only
    (extractedText : string) (formInput : Form.t) (report : VerificationReport)
    (declared : string) :
  performVerification extractedText formInput = Returns report ->
  Form.netContents formInput = JStr declared ->
  RegExp.exec netContentsPattern declared = None ->
  normalizeString declared <> "" ->
  statusOf NetContents report
  = Some match Direct.firstNumericSubstring (normalizeString declared) with
         | Some number =>
             if Str.includes (normalizeString extractedText) number
             then MismatchUnitMissing
             else NotFoundOrMismatch
         | None => NotFoundOrMismatch
         end
  /\ overall_match report = false.
Proof.
  intros H Hd Hparse Hmand.
  destruct (performVerification_returns _ _ _ H)
    as (bn & pc & nc & re & m & net & _ & _ & Hnc & _ & Hm & Hnet & ->).
  rewrite Hd in Hnc, Hm.
  assert (Hnorm : normalize (JStr declared) = Returns (normalizeString declared))
    by apply normalize_JStr.
  assert (nc = normalizeString declared) as ->.
  { unfold declaredText in Hnc. destruct declared as [|c d'].
    - now elim Hmand.
    - cbn [orElse truthy Str.isEmpty negb] in Hnc. rewrite Hnorm in Hnc.
      now injection Hnc. }
  cbn [matchMethod] in Hm. rewrite Hparse in Hm. injection Hm as <-.
  apply length_positive in Hmand.
  unfold netContentsTiers in Hnet.
  rewrite Hmand, Hd, Hnorm in Hnet. cbn [bind] in Hnet.
  rewrite VolumeOnly.exec_volumeOnly_normalized in Hnet.
  destruct (Direct.firstNumericSubstring (normalizeString declared))
    as [number|]; cbn [option_map] in Hnet.
  - change (toString (matchAt (RegExp.mkMatch number [(1, number)]) 1))
      with number in Hnet.
    destruct (Str.includes (normalizeString extractedText) number);
      injection Hnet as <-; split; reflexivity.
  - injection Hnet as <-. split; reflexivity.
Qed.

Lemma netContents_fallback_on_number_only_witness :
  statusOf NetContents Scenario.unitMissingReport
  = Some match Direct.firstNumericSubstring (normalizeString "750") with
         | Some number =>
             if Str.includes (normalizeString Scenario.labelText) number
             then MismatchUnitMissing
             else NotFoundOrMismatch
         | None => NotFoundOrMismatch
         end
  /\ overall_match Scenario.unitMissingReport = false.
Proof.
  apply (netContents_fallback_on_number_only
           Scenario.labelText Scenario.unitMissing
           Scenario.unitMissingReport "750");
    vm_compute; (reflexivity || discriminate).
Defined.

(** C1.  Tier 1 at a label of another volume.  The form declares 750 mL and
    the label reads 500 ML: the normalized haystack does not include 750 at
    all, and the Net Contents row is Match, with [overall_match] true. *)
Theorem netContents_match_without_declared_volume :
  performVerification Scenario.otherVolumeText Scenario.fullSuccess
  = Returns Scenario.otherVolumeReport
  /\ Str.includes (normalizeString Scenario.otherVolumeText) "750" = false
  /\ statusOf NetContents Scenario.otherVolumeReport = Some Match
  /\ overall_match Scenario.otherVolumeReport = true.
Proof. repeat split; vm_compute; reflexivity. Qed.

(** C2.  Two forms on which [performVerification] throws, whatever the
    extracted text: one without the [netContents] property (TypeError at the
    call of [match]) and one whose alcohol content is an opening parenthesis
    (SyntaxError in the constructor of [abvRegex]). *)
Theorem performVerification_throws :
  (forall extractedText,
      performVerification extractedText Scenario.netContentsAbsent
      = Throws TypeError)
  /\ (forall extractedText,
         performVerification extractedText Scenario.abvParenthesis
         = Throws SyntaxError).
Proof.
  split; intros extractedText; unfold performVerification;
    rewrite normalize_JStr; reflexivity.
Qed.

(* ================================================================== *)
(** * Extent of the two failures *)

Module Extent.
Import RegExp.

Lemma searchRegex750ml_compiled :
  newRegExpI (searchPatternText "750" (unitPatternOf "ml"))
  = Returns searchRegex750ml.
Proof. vm_compute. reflexivity. Qed.

(** The pattern is an alternation whose second branch is the bare unit. *)
Lemma searchRegex750ml_shape :
  exists withVolume others,
    source searchRegex750ml
    = Alt withVolume (Alt (Seq (Chr "m") (Chr "l")) others).
Proof. eexists _, _. reflexivity. Qed.

Lemma run_alt_second (ci : bool) (a b c : regex) (st : mstate)
    (k : mstate -> option mstate) :
  run ci b st k <> None -> run ci (Alt a (Alt b c)) st k <> None.
Proof.
  intros Hb. cbn [run].
  destruct (run ci a st k); [discriminate|].
  destruct (run ci b st k); [discriminate|now elim Hb].
Qed.

Lemma prefix_ml (s : string) :
  String.prefix "ml" s = true ->
  exists r, s = String "m" (String "l" r).
Proof.
  destruct s as [|c [|d r]]; cbn [String.prefix]; intros H.
  - discriminate H.
  - destruct (Ascii.ascii_dec "m" c); discriminate H.
  - destruct (Ascii.ascii_dec "m" c) as [<-|]; [|discriminate H].
    destruct (Ascii.ascii_dec "l" d) as [<-|]; [|discriminate H].
    now exists r.
Qed.

(** Wherever the haystack reads ml, the pattern matches at that place. *)
Lemma run_at_ml (before : option ascii) (r : string) :
  run true (source searchRegex750ml)
      (mkState before (String "m" (String "l" r)) []) Some
  <> None.
Proof.
  destruct searchRegex750ml_shape as (withVolume & others & ->).
  apply run_alt_second. vm_compute. discriminate.
Qed.

Lemma search_finds_ml (before : option ascii) (hay : string) :
  Str.includes hay "ml" = true ->
  searchFrom searchRegex750ml before hay <> None.
Proof.
  revert before. induction hay as [|c r IH]; intros before.
  - discriminate.
  - cbn [Str.includes]. intros H.
    apply orb_true_iff in H as [H|H].
    + apply prefix_ml in H as (r' & Hr). rewrite Hr.
      cbn [searchFrom ignoreCase searchRegex750ml].
      pose proof (run_at_ml before r') as Hrun.
      cbn [source searchRegex750ml] in Hrun.
      destruct (run true _ _ Some); [discriminate|now elim Hrun].
    + cbn [searchFrom].
      destruct (run _ _ _ Some); [discriminate|]. now apply IH.
Qed.

Lemma tiers_750ml (normalizedText : string) (formInput : Form.t)
    (isMandatoryCheck overallMatch : bool) :
  netContentsTiers normalizedText formInput isMandatoryCheck overallMatch
                   (exec netContentsPattern "750 mL")
  = if test searchRegex750ml normalizedText
    then Returns (Match, overallMatch)
    else Returns (NotFoundOrMismatch,
                  if isMandatoryCheck then false else overallMatch).
Proof. reflexivity. Qed.

(** With 750 mL declared, every label whose normalized text reads ml
    anywhere gets a Net Contents row of status Match. *)
Lemma any_ml_matches_750ml
    (extractedText : string) (formInput : Form.t) (report : VerificationReport) :
  Form.netContents formInput = JStr "750 mL" ->
  performVerification extractedText formInput = Returns report ->
  Str.includes (normalizeString extractedText) "ml" = true ->
  statusOf NetContents report = Some Match.
Proof.
  intros Hd H Hml.
  destruct (performVerification_returns _ _ _ H)
    as (bn & pc & nc & re & m & net & _ & _ & _ & _ & Hm & Hnet & ->).
  rewrite Hd in Hm. injection Hm as <-.
  rewrite tiers_750ml in Hnet.
  unfold RegExp.test, RegExp.exec in Hnet.
  pose proof (search_finds_ml None _ Hml) as Hfound.
  destruct (searchFrom searchRegex750ml None (normalizeString extractedText));
    [|now elim Hfound].
  injection Hnet as <-. reflexivity.
Qed.

(** Without a [netContents] property no report is returned, whatever the
    other fields and the text. *)
Lemma no_report_without_netContents
    (extractedText : string) (formInput : Form.t) (report : VerificationReport) :
  Form.netContents formInput = JUndefined
  \/ Form.netContents formInput = JNull ->
  performVerification extractedText formInput <> Returns report.
Proof.
  intros Habsent H.
  destruct (performVerification_returns _ _ _ H)
    as (bn & pc & nc & re & m & net & _ & _ & _ & _ & Hm & _).
  destruct Habsent as [E|E]; rewrite E in Hm; discriminate.
Qed.

End Extent.

(* ================================================================== *)
(** * More about [normalize] *)

Module NormalizeMore.
Import NormalizeFacts.

Lemma length_filter (p : ascii -> bool) (s : string) :
  String.length (Direct.filter p s) <= String.length s.
Proof.
  induction s as [|c r IH]; cbn [Direct.filter String.length]; [lia|].
  destruct (p c); cbn [String.length]; lia.
Qed.

Lemma length_map (f : ascii -> ascii) (s : string) :
  String.length (Str.map f s) = String.length s.
Proof.
  induction s as [|c r IH]; cbn [Str.map String.length]; [reflexivity|].
  now rewrite IH.
Qed.

Lemma length_collapseRuns (inRun : bool) (s : string) :
  String.length (Direct.collapseRuns inRun s) <= String.length s.
Proof.
  revert inRun. induction s as [|c r IH]; intros inRun;
    cbn [Direct.collapseRuns String.length]; [lia|].
  destruct (Char.isWhiteSpace c); [destruct inRun|];
    [|destruct (Direct.headIs Char.isWhiteSpace r)|];
    cbn [String.length];
    first [pose proof (IH true); lia | pose proof (IH false); lia].
Qed.

Lemma length_trimStart (s : string) :
  String.length (Str.trimStart s) <= String.length s.
Proof.
  induction s as [|c r IH]; cbn [Str.trimStart String.length]; [lia|].
  destruct (Char.isWhiteSpace c); cbn [String.length]; lia.
Qed.

Lemma length_trimEnd (s : string) :
  String.length (Str.trimEnd s) <= String.length s.
Proof.
  induction s as [|c r IH]; cbn [Str.trimEnd String.length]; [lia|].
  destruct (Char.isWhiteSpace c && Str.isEmpty (Str.trimEnd r));
    cbn [String.length]; lia.
Qed.

Lemma length_normalizeString (s : string) :
  String.length (normalizeString s) <= String.length s.
Proof.
  rewrite normalizeString_direct.
  unfold Str.trim, Direct.collapseWhiteSpace, Direct.deleteAll, Str.toLowerCase.
  pose proof (length_trimEnd
                (Str.trimStart
                   (Direct.collapseRuns false
                      (Direct.filter (fun c => negb (Char.isPunctuation c))
                         (Str.map Char.toLower s))))).
  pose proof (length_trimStart
                (Direct.collapseRuns false
                   (Direct.filter (fun c => negb (Char.isPunctuation c))
                      (Str.map Char.toLower s)))).
  pose proof (length_collapseRuns false
                (Direct.filter (fun c => negb (Char.isPunctuation c))
                   (Str.map Char.toLower s))).
  pose proof (length_filter (fun c => negb (Char.isPunctuation c))
                (Str.map Char.toLower s)).
  pose proof (length_map Char.toLower s).
  lia.
Qed.

Lemma toLower_toLower (c : ascii) : Char.toLower (Char.toLower c) = Char.toLower c.
Proof. each_char c. Qed.

Lemma isPunctuation_toLower (c : ascii) :
  Char.isPunctuation (Char.toLower c) = Char.isPunctuation c.
Proof. each_char c. Qed.

Lemma toLowerCase_toLowerCase (s : string) :
  Str.toLowerCase (Str.toLowerCase s) = Str.toLowerCase s.
Proof.
  unfold Str.toLowerCase.
  induction s as [|c r IH]; cbn [Str.map]; [reflexivity|].
  now rewrite toLower_toLower, IH.
Qed.

(** Deleting the punctuation and lower-casing commute. *)
Lemma deleteAll_toLowerCase (s : string) :
  Direct.deleteAll Char.isPunctuation (Str.toLowerCase s)
  = Str.toLowerCase (Direct.deleteAll Char.isPunctuation s).
Proof.
  unfold Direct.deleteAll, Str.toLowerCase.
  induction s as [|c r IH]; cbn [Str.map Direct.filter]; [reflexivity|].
  rewrite isPunctuation_toLower.
  destruct (Char.isPunctuation c); cbn [negb Str.map]; now rewrite IH.
Qed.

Lemma normalizeString_by_letters (s : string) :
  normalizeString s
  = Str.trim (Direct.collapseWhiteSpace
                (Str.toLowerCase (Direct.deleteAll Char.isPunctuation s))).
Proof. now rewrite normalizeString_direct, deleteAll_toLowerCase. Qed.

End NormalizeMore.

Module WideShapeFacts.
Import Wide NormalizeWide.

(** ** What the chain after [toLowerCase] establishes, on every string *)

Lemma notPunctuation_deleteAll (s : jsstring) :
  forallb WideShape.notPunctuation (deleteAll s) = true.
Proof.
  unfold deleteAll. induction s as [|u r IH]; [reflexivity|].
  cbn [List.filter]. destruct (negb (isPunctuation u)) eqn:E; [|exact IH].
  cbn [forallb]. unfold WideShape.notPunctuation at 1. now rewrite E.
Qed.

Lemma forallb_collapseRuns (p : N -> bool) (s : jsstring) (inRun : bool) :
  p 0x20%N = true ->
  forallb p s = true -> forallb p (collapseRuns inRun s) = true.
Proof.
  intros Hsp. revert inRun.
  induction s as [|u r IH]; intros inRun H; [reflexivity|].
  cbn [forallb] in H. apply andb_true_iff in H as [Hu Hr].
  cbn [collapseRuns].
  destruct (isWhiteSpace u), inRun; try destruct (headIsWhiteSpace r);
    cbn [forallb]; rewrite ?Hu, ?Hsp; cbn [andb]; auto.
Qed.

Lemma forallb_trimStart (p : N -> bool) (s : jsstring) :
  forallb p s = true -> forallb p (trimStart s) = true.
Proof.
  induction s as [|u r IH]; intros H; [reflexivity|].
  cbn [trimStart]. destruct (isWhiteSpace u); [|exact H].
  cbn [forallb] in H. apply andb_true_iff in H as [_ Hr]. auto.
Qed.

Lemma forallb_trimEnd (p : N -> bool) (s : jsstring) :
  forallb p s = true -> forallb p (trimEnd s) = true.
Proof.
  induction s as [|u r IH]; intros H; [reflexivity|].
  cbn [forallb] in H. apply andb_true_iff in H as [Hu Hr].
  cbn [trimEnd].
  destruct (isWhiteSpace u && match trimEnd r with [] => true | _ => false end);
    [reflexivity|].
  cbn [forallb]. rewrite Hu. cbn [andb]. auto.
Qed.

Lemma wide_collapseRuns_shape (s : jsstring) :
  WideShape.noWhiteSpacePair (collapseRuns false s) = true
  /\ WideShape.noWhiteSpacePair (collapseRuns true s) = true
  /\ headIsWhiteSpace (collapseRuns true s) = false.
Proof.
  induction s as [|u r (IHf & IHt & IHh)]; [auto|].
  cbn [collapseRuns].
  destruct (isWhiteSpace u) eqn:Eu.
  - repeat split; auto.
    destruct (headIsWhiteSpace r) eqn:Er.
    + cbn [WideShape.noWhiteSpacePair]. now rewrite IHh, IHt, andb_false_r.
    + cbn [WideShape.noWhiteSpacePair]. rewrite IHf, andb_true_r.
      destruct r as [|v r']; [now rewrite andb_false_r|].
      cbn [headIsWhiteSpace] in Er. cbn [collapseRuns headIsWhiteSpace].
      rewrite Er. cbn [headIsWhiteSpace]. now rewrite Er, andb_false_r.
  - cbn [WideShape.noWhiteSpacePair headIsWhiteSpace].
    rewrite Eu, IHf. cbn [andb negb]. auto.
Qed.

Lemma wide_headIs_trimEnd (s : jsstring) :
  headIsWhiteSpace (trimEnd s) = true -> headIsWhiteSpace s = true.
Proof.
  destruct s as [|u r]; [auto|]. cbn [trimEnd].
  destruct (isWhiteSpace u && match trimEnd r with [] => true | _ => false end);
    [discriminate|auto].
Qed.

Lemma wide_noWhiteSpacePair_trimStart (s : jsstring) :
  WideShape.noWhiteSpacePair s = true ->
  WideShape.noWhiteSpacePair (trimStart s) = true.
Proof.
  induction s as [|u r IH]; intros H; [reflexivity|].
  cbn [trimStart]. destruct (isWhiteSpace u); [|exact H].
  cbn [WideShape.noWhiteSpacePair] in H.
  apply andb_true_iff in H as [_ Hr]. auto.
Qed.

Lemma wide_noWhiteSpacePair_trimEnd (s : jsstring) :
  WideShape.noWhiteSpacePair s = true ->
  WideShape.noWhiteSpacePair (trimEnd s) = true.
Proof.
  induction s as [|u r IH]; intros H; [reflexivity|].
  cbn [WideShape.noWhiteSpacePair] in H.
  apply andb_true_iff in H as [Hu Hr].
  cbn [trimEnd].
  destruct (isWhiteSpace u && match trimEnd r with [] => true | _ => false end);
    [reflexivity|].
  cbn [WideShape.noWhiteSpacePair]. rewrite (IH Hr), andb_true_r.
  destruct (isWhiteSpace u); [|reflexivity].
  destruct (headIsWhiteSpace (trimEnd r)) eqn:E; [|reflexivity].
  apply wide_headIs_trimEnd in E. now rewrite E in Hu.
Qed.

Lemma wide_headIs_trimStart (s : jsstring) : headIsWhiteSpace (trimStart s) = false.
Proof.
  induction s as [|u r IH]; [reflexivity|].
  cbn [trimStart]. destruct (isWhiteSpace u) eqn:E; [exact IH|exact E].
Qed.

Lemma wide_trimStart_fixed (s : jsstring) :
  headIsWhiteSpace s = false -> trimStart s = s.
Proof.
  destruct s as [|u r]; [reflexivity|]. cbn [headIsWhiteSpace trimStart].
  now intros ->.
Qed.

Lemma wide_trimEnd_trimEnd (s : jsstring) : trimEnd (trimEnd s) = trimEnd s.
Proof.
  induction s as [|u r IH]; [reflexivity|]. cbn [trimEnd].
  destruct (isWhiteSpace u && match trimEnd r with [] => true | _ => false end)
    eqn:E; [reflexivity|].
  cbn [trimEnd]. now rewrite IH, E.
Qed.

Lemma wide_trim_trim (s : jsstring) : trim (trim s) = trim s.
Proof.
  unfold trim. rewrite (wide_trimStart_fixed (trimEnd (trimStart s))).
  - apply wide_trimEnd_trimEnd.
  - destruct (headIsWhiteSpace (trimEnd (trimStart s))) eqn:E; [|reflexivity].
    apply wide_headIs_trimEnd in E. now rewrite wide_headIs_trimStart in E.
Qed.

(** Whatever [toLowerCase] makes of a string, the rest of the chain
    returns a string without punctuation and without two adjacent white
    space code units, trimmed. *)
Lemma afterLowerCase_shape (lowered : jsstring) :
  forallb WideShape.notPunctuation (afterLowerCase lowered) = true
  /\ WideShape.noWhiteSpacePair (afterLowerCase lowered) = true
  /\ trim (afterLowerCase lowered) = afterLowerCase lowered.
Proof.
  unfold afterLowerCase. repeat split.
  - unfold trim.
    apply forallb_trimEnd, forallb_trimStart, forallb_collapseRuns;
      [reflexivity|apply notPunctuation_deleteAll].
  - unfold trim.
    apply wide_noWhiteSpacePair_trimEnd, wide_noWhiteSpacePair_trimStart,
      wide_collapseRuns_shape.
  - apply wide_trim_trim.
Qed.

(** ** The shape on code units below 256 *)

Lemma notPunctuation_ofString (s : string) :
  forallb WideShape.notPunctuation (ofString s)
  = Direct.all notPunctuation s.
Proof.
  induction s as [|c s IH]; [reflexivity|].
  cbn [ofString forallb Direct.all].
  unfold WideShape.notPunctuation at 1, notPunctuation at 1.
  now rewrite isPunctuation_ascii, IH.
Qed.

Lemma noWhiteSpacePair_ofString (s : string) :
  WideShape.noWhiteSpacePair (ofString s) = noWhiteSpacePair s.
Proof.
  induction s as [|c s IH]; [reflexivity|].
  cbn [ofString WideShape.noWhiteSpacePair noWhiteSpacePair].
  now rewrite isWhiteSpace_ascii, headIsWhiteSpace_ofString, IH.
Qed.

Lemma trim_ofString (s : string) : trim (ofString s) = ofString (Str.trim s).
Proof. unfold trim, Str.trim. now rewrite trimStart_ofString, trimEnd_ofString. Qed.

Lemma lowerFixed_toLowerCase (s : string) :
  Str.toLowerCase s = s -> Direct.all lowerFixed s = true.
Proof.
  intros H. rewrite <- H. apply NormalizeFacts.all_toLowerCase.
Qed.

(** The two notions of shape agree on code units below 256. *)
Lemma normalized_ofString (n : string) :
  WideShape.normalized (ofString n) <-> normalized n.
Proof.
  split.
  - intros [Hl Hp Hw Ht]. split.
    + rewrite toLowerCase_ofString in Hl. injection Hl as Hl.
      now apply lowerFixed_toLowerCase, ofString_injective.
    + now rewrite <- notPunctuation_ofString.
    + now rewrite <- noWhiteSpacePair_ofString.
    + rewrite trim_ofString in Ht. now apply ofString_injective.
  - intros [Hl Hp Hw Ht]. split.
    + now rewrite toLowerCase_ofString, (NormalizeFacts.toLowerCase_fixed n Hl).
    + now rewrite notPunctuation_ofString.
    + now rewrite noWhiteSpacePair_ofString.
    + now rewrite trim_ofString, Ht.
Qed.

End WideShapeFacts.

(** X1.  Every string [normalize] returns holds no code unit of the
    punctuation class, has no two adjacent white space code units and
    neither starts nor ends with white space.  On a string of code units
    below 256 [normalize] does return a string, of code units below 256,
    and [toLowerCase] leaves that string as it is. *)
Theorem normalize_returns_normalized :
  (forall (text : option Wide.jsstring) (n : Wide.jsstring),
      Wide.normalize text = Returns n ->
      forallb WideShape.notPunctuation n = true
      /\ WideShape.noWhiteSpacePair n = true
      /\ Wide.trim n = n)
  /\ (forall s : Wide.jsstring,
         Wide.below256 s = true ->
         exists n,
           Wide.normalize (Some s) = Returns n
           /\ Wide.below256 n = true
           /\ WideShape.normalized n).
Proof.
  split.
  - intros [[|u s]|] n; cbn [Wide.normalize];
      try (intros [= <-]; repeat split; reflexivity).
    destruct (Wide.toLowerCase (u :: s)) as [lowered| |]; cbn [bind];
      try discriminate.
    intros [= <-]. apply WideShapeFacts.afterLowerCase_shape.
  - intros s Hs. destruct (NormalizeWide.below256_string s Hs) as (t & ->).
    exists (Wide.ofString (normalizeString t)).
    split; [apply NormalizeWide.normalize_below_256|].
    split; [apply NormalizeWide.below256_ofString|].
    apply WideShapeFacts.normalized_ofString,
      NormalizeFacts.normalizeString_normalized.
Qed.

Lemma normalize_returns_normalized_witness :
  exists n,
    Wide.normalize (Some (Wide.ofString "  Old-Tom   DISTILLERY! "))
    = Returns n
    /\ Wide.below256 n = true
    /\ WideShape.normalized n.
Proof.
  apply (proj2 normalize_returns_normalized
               (Wide.ofString "  Old-Tom   DISTILLERY! ")).
  vm_compute. reflexivity.
Defined.

(** X2.  Among the strings of code units below 256, the strings
    [normalize] returns unchanged are exactly the strings of that shape. *)
Theorem normalize_fixed_points (n : Wide.jsstring) :
  Wide.below256 n = true ->
  (Wide.normalize (Some n) = Returns n <-> WideShape.normalized n).
Proof.
  intros Hn. destruct (NormalizeWide.below256_string n Hn) as (t & ->).
  rewrite NormalizeWide.normalize_below_256,
    WideShapeFacts.normalized_ofString.
  split.
  - intros [= H]. apply NormalizeWide.ofString_injective in H.
    rewrite <- H. apply NormalizeFacts.normalizeString_normalized.
  - intros H. now rewrite (NormalizeFacts.normalizeString_fixed t H).
Qed.

Lemma normalize_fixed_points_witness :
  Wide.normalize (Some (Wide.ofString "old tom distillery"))
  = Returns (Wide.ofString "old tom distillery")
  <-> WideShape.normalized (Wide.ofString "old tom distillery").
Proof.
  apply (normalize_fixed_points (Wide.ofString "old tom distillery")).
  vm_compute. reflexivity.
Defined.

(** X3.  On a string of code units below 256, [normalize] never returns a
    string longer than its argument.  The bound on the code units is
    needed: the string of the one code unit U+0130 has a normal form of
    two code units. *)
Theorem normalize_never_longer :
  (forall s : Wide.jsstring,
      Wide.below256 s = true ->
      exists n,
        Wide.normalize (Some s) = Returns n
        /\ List.length n <= List.length s)
  /\ exists n,
       Wide.normalize (Some [0x130%N]) = Returns n
       /\ List.length n = 2.
Proof.
  split.
  - intros s Hs. destruct (NormalizeWide.below256_string s Hs) as (t & ->).
    exists (Wide.ofString (normalizeString t)).
    split; [apply NormalizeWide.normalize_below_256|].
    rewrite !NormalizeWide.length_ofString.
    apply NormalizeMore.length_normalizeString.
  - eexists. split; vm_compute; reflexivity.
Qed.

Lemma normalize_never_longer_witness :
  exists n,
    Wide.normalize (Some (Wide.ofString "  Old-Tom   DISTILLERY! "))
    = Returns n
    /\ List.length n
       <= List.length (Wide.ofString "  Old-Tom   DISTILLERY! ").
Proof.
  apply (proj1 normalize_never_longer
               (Wide.ofString "  Old-Tom   DISTILLERY! ")).
  vm_compute. reflexivity.
Defined.

(** X4.  On strings of code units below 256, [normalize] sees neither case
    nor the characters of the punctuation class: two such strings that
    are equal once the punctuation is deleted and the letters are
    lower-cased have the same normal form. *)
Theorem normalize_ignores_case_and_punctuation (s1 s2 : Wide.jsstring) :
  Wide.below256 s1 = true ->
  Wide.below256 s2 = true ->
  Wide.toLowerCase (Wide.deleteAll s1) = Wide.toLowerCase (Wide.deleteAll s2) ->
  Wide.normalize (Some s1) = Wide.normalize (Some s2).
Proof.
  intros H1 H2 H.
  destruct (NormalizeWide.below256_string s1 H1) as (t1 & ->).
  destruct (NormalizeWide.below256_string s2 H2) as (t2 & ->).
  rewrite !NormalizeWide.deleteAll_ofString,
    !NormalizeWide.toLowerCase_ofString in H.
  injection H as H. apply NormalizeWide.ofString_injective in H.
  rewrite !NormalizeWide.normalize_below_256,
    !NormalizeMore.normalizeString_by_letters.
  now rewrite H.
Qed.

Lemma normalize_ignores_case_and_punctuation_witness :
  Wide.normalize (Some (Wide.ofString "Old Tom, Distillery!"))
  = Wide.normalize (Some (Wide.ofString "OLD TOM DISTILLERY.")).
Proof.
  apply (normalize_ignores_case_and_punctuation
           (Wide.ofString "Old Tom, Distillery!")
           (Wide.ofString "OLD TOM DISTILLERY."));
    vm_compute; reflexivity.
Defined.

(* ================================================================== *)
(** * Reports for declared alcohol contents of every receivable kind *)

Module DeclaredFacts.
Import RegExp PatternText PatternTextFacts ReturnsFacts WellFormed Declared.

Lemma parse_simple (c : ascii) (r : string) (n : nat) (stack : list frame)
    (f : frame) :
  simple c = true ->
  parseFrom (String c r) n stack f
  = parseFrom r n stack
      (pushTerm (if Ascii.eqb c "." then Any else Chr c) true f).
Proof. char_cases c. Qed.

Lemma parse_pushSimple (s r : string) (n : nat) (stack : list frame) (f : frame) :
  Direct.all simple s = true ->
  parseFrom (s ++ r) n stack f = parseFrom r n stack (pushSimple s f).
Proof.
  revert f. induction s as [|c s IH]; intros f H.
  - reflexivity.
  - cbn [Direct.all] in H. apply andb_true_iff in H as [Hc Hs].
    cbn [String.append pushSimple]. rewrite parse_simple by exact Hc.
    now apply IH.
Qed.

(** The template of [abvRegex] compiles around simple characters. *)
Lemma abvRegex_compiles_simple (alcoholContent : string) :
  Direct.all simple alcoholContent = true ->
  exists re, newRegExpI (abvPatternText alcoholContent) = Returns re.
Proof.
  intros H. unfold newRegExpI, parse, abvPatternText.
  change (parseFrom ("\b" ++ ?x) 0 [] (openFrame None))
    with (parseFrom x 0 [] (pushTerm (WordBoundary false) false (openFrame None))).
  rewrite parse_pushSimple by exact H.
  destruct (parse_abv_middle 0
              (pushSimple alcoholContent
                 (pushTerm (WordBoundary false) false (openFrame None))))
    as (f' & ->).
  rewrite parse_pushSimple by exact H.
  destruct (parse_abv_end 0 (pushSimple alcoholContent f')) as (re & ->).
  now eexists.
Qed.

Lemma simple_plain (s : string) :
  Direct.all plain s = true -> Direct.all simple s = true.
Proof.
  apply all_impl. intros c Hc. unfold simple. now rewrite Hc.
Qed.

Lemma simple_declaredAbv (formInput : Form.t) :
  literal (Form.alcoholContent formInput) ->
  Direct.all simple (declaredAbv formInput) = true.
Proof.
  intros H. unfold declaredAbv.
  destruct (Form.alcoholContent formInput) as [| |s|z]; cbn [literal] in H.
  - reflexivity.
  - reflexivity.
  - unfold orElse. cbn [truthy]. destruct s as [|c s]; [reflexivity|].
    exact H.
  - apply simple_plain, NormalizeFacts.all_trim.
    unfold orElse. destruct (truthy (JNum z)); [apply plain_toString_JNum|reflexivity].
Qed.

(** A report is returned for every extracted text when brand name and
    product class are strings or absent, the net contents are a string,
    and the pattern of the alcohol content compiles. *)
Lemma performVerification_returns_with
    (extractedText : string) (formInput : Form.t) (declared : string)
    (abvRegex : regexp) :
  textual (Form.brandName formInput) ->
  textual (Form.productClass formInput) ->
  Form.netContents formInput = JStr declared ->
  newRegExpI (abvPatternText (declaredAbv formInput)) = Returns abvRegex ->
  exists report, performVerification extractedText formInput = Returns report.
Proof.
  intros Hb Hc Hn Ha. rewrite performVerification_pieces. cbv zeta.
  destruct (declaredText_textual _ Hb) as (bn & ->).
  destruct (declaredText_textual _ Hc) as (pc & ->).
  destruct (declaredText_textual (Form.netContents formInput)) as (nc & ->);
    [now rewrite Hn|].
  rewrite Ha.
  assert (Hm : matchMethod (Form.netContents formInput) netContentsPattern
               = Returns (RegExp.exec netContentsPattern declared))
    by now rewrite Hn.
  cbn [bind]. rewrite Hm. cbn [bind].
  destruct (netContentsTiers_returns (normalizeString extractedText) declared
              formInput (0 <? String.length nc)
              (substringFound (normalizeString extractedText) bn
               && substringFound (normalizeString extractedText) pc
               && abvFound abvRegex (declaredAbv formInput) extractedText) Hn)
    as (net & ->).
  now eexists.
Qed.

Lemma performVerification_returns_literal
    (extractedText : string) (formInput : Form.t) (declared : string) :
  textual (Form.brandName formInput) ->
  textual (Form.productClass formInput) ->
  Form.netContents formInput = JStr declared ->
  literal (Form.alcoholContent formInput) ->
  exists report, performVerification extractedText formInput = Returns report.
Proof.
  intros Hb Hc Hn Ha.
  destruct (abvRegex_compiles_simple _ (simple_declaredAbv formInput Ha))
    as (re & Hre).
  exact (performVerification_returns_with _ _ _ _ Hb Hc Hn Hre).
Qed.

End DeclaredFacts.

(* ================================================================== *)
(** * More about [performVerification] *)

Module EngineMore.
Import WellFormed ReturnsFacts.

(** The status of check 4 does not depend on [overallMatch]; it is Match
    only in tier 1 and MismatchUnitMissing only in tier 2. *)
Lemma netContentsTiers_status (normalizedText : string) (formInput : Form.t)
    (isMandatoryCheck overallMatch : bool)
    (netContentsMatch : option RegExp.matchResult) (net : MatchStatus * bool) :
  netContentsTiers normalizedText formInput isMandatoryCheck overallMatch
                   netContentsMatch = Returns net ->
  (fst net = Match -> netContentsMatch <> None)
  /\ (fst net = MismatchUnitMissing ->
      netContentsMatch = None /\ snd net = false)
  /\ (forall overallMatch',
         exists b,
           netContentsTiers normalizedText formInput isMandatoryCheck
                            overallMatch' netContentsMatch
           = Returns (fst net, b)).
Proof.
  unfold netContentsTiers.
  destruct netContentsMatch as [m|].
  - destruct (normalize (matchAt m 2)) as [unit| |]; cbn [bind];
      try discriminate.
    destruct (RegExp.newRegExpI _) as [re| |]; cbn [bind]; try discriminate.
    destruct (RegExp.test re normalizedText); intros [= <-]; cbn [fst snd];
      (repeat split; [discriminate..|intros ov'; now eexists]).
  - destruct isMandatoryCheck.
    + destruct (normalize (Form.netContents formInput)) as [n| |]; cbn [bind];
        try discriminate.
      destruct (RegExp.exec volumeOnlyPattern n) as [v|];
        [destruct (Str.includes _ _)|]; intros [= <-]; cbn [fst snd];
        (repeat split; try discriminate; try reflexivity;
         intros ov'; now eexists).
    + intros [= <-]; cbn [fst snd].
      repeat split; try discriminate. intros ov'. now eexists.
Qed.

Lemma matchMethod_string (v : jsvalue) (re : RegExp.regexp)
    (m : option RegExp.matchResult) :
  matchMethod v re = Returns m ->
  exists declared, v = JStr declared /\ m = RegExp.exec re declared.
Proof.
  destruct v as [| |s|z]; cbn [matchMethod]; try discriminate.
  intros [= <-]. now exists s.
Qed.

Lemma declaredText_not_string (v : jsvalue) :
  (forall declared, v <> JStr declared) ->
  declaredText v = Returns "" \/ declaredText v = Throws TypeError.
Proof.
  intros H. unfold declaredText.
  destruct v as [| |s|z]; [now left|now left|now elim (H s)|].
  unfold orElse. destruct (truthy (JNum z)) eqn:E; [right|now left].
  unfold normalize. now rewrite E.
Qed.

Lemma replaceFirst_absent (hay pat rep : string) :
  Str.includes hay pat = false -> Str.replaceFirst hay pat rep = hay.
Proof.
  induction hay as [|c hay IH]; cbn [Str.includes Str.replaceFirst]; intros H;
    apply orb_false_iff in H as [Hp Hr]; rewrite Hp; [reflexivity|].
  now rewrite IH.
Qed.

(** Without a string for the net contents, [match] is not a function. *)
Lemma performVerification_typeError
    (extractedText : string) (formInput : Form.t) :
  WellFormed.textual (Form.brandName formInput) ->
  WellFormed.textual (Form.productClass formInput) ->
  (forall declared, Form.netContents formInput <> JStr declared) ->
  Declared.literal (Form.alcoholContent formInput) ->
  performVerification extractedText formInput = Throws TypeError.
Proof.
  intros Hb Hc Hn Ha. rewrite performVerification_pieces. cbv zeta.
  destruct (declaredText_textual _ Hb) as (bn & ->).
  destruct (declaredText_textual _ Hc) as (pc & ->).
  cbn [bind].
  destruct (declaredText_not_string _ Hn) as [-> | ->];
    [|reflexivity].
  destruct (DeclaredFacts.abvRegex_compiles_simple
              _ (DeclaredFacts.simple_declaredAbv formInput Ha)) as (re & ->).
  cbn [bind].
  destruct (Form.netContents formInput) as [| |s|z];
    [reflexivity|reflexivity|now elim (Hn s)|reflexivity].
Qed.

End EngineMore.

(** X5.  A report is returned for every extracted text when brand name and
    product class are strings or absent, the net contents are a string,
    and the alcohol content is absent, an integer of magnitude below 2^53,
    or a string whose text between the white space at its ends holds none
    of the characters that a pattern reads as syntax, the dot apart: on
    such a form no declared value makes the engine throw. *)
Theorem report_for_every_wellformed_form
    (extractedText : string) (formInput : Form.t) (declared : string) :
  WellFormed.textual (Form.brandName formInput) ->
  WellFormed.textual (Form.productClass formInput) ->
  Form.netContents formInput = JStr declared ->
  Declared.literal (Form.alcoholContent formInput) ->
  exists report, performVerification extractedText formInput = Returns report.
Proof. apply DeclaredFacts.performVerification_returns_literal. Qed.

Lemma report_for_every_wellformed_form_witness :
  exists report,
    performVerification Scenario.labelText Trace.fullSuccessFields
    = Returns report.
Proof.
  apply (report_for_every_wellformed_form
           Scenario.labelText Trace.fullSuccessFields "750 mL");
    vm_compute; auto.
Defined.

(** X6.  When the net contents are anything but a string (absent, null or
    a Number), on a form that is otherwise as above, the engine throws a
    TypeError for every extracted text. *)
Theorem typeError_without_netContents_string
    (extractedText : string) (formInput : Form.t) :
  WellFormed.textual (Form.brandName formInput) ->
  WellFormed.textual (Form.productClass formInput) ->
  (forall declared, Form.netContents formInput <> JStr declared) ->
  Declared.literal (Form.alcoholContent formInput) ->
  performVerification extractedText formInput = Throws TypeError.
Proof. apply EngineMore.performVerification_typeError. Qed.

Lemma typeError_without_netContents_string_witness :
  performVerification Scenario.labelText Trace.netContentsAbsentFields
  = Throws TypeError.
Proof.
  apply (typeError_without_netContents_string
           Scenario.labelText Trace.netContentsAbsentFields);
    vm_compute; auto; discriminate.
Defined.

(** X7.  In every report the status MismatchUnitMissing stands on the Net
    Contents row only, and only with [overall_match] false and a declared
    string in which the number-and-letters pattern finds nothing; and the
    Net Contents row is Match only for a declared string in which the
    pattern finds something. *)
Theorem netContents_status_follows_declared_shape
    (extractedText : string) (formInput : Form.t) (report : VerificationReport) :
  performVerification extractedText formInput = Returns report ->
  exists declared,
    Form.netContents formInput = JStr declared
    /\ (forall d, In d (discrepancies report) ->
                  status d = MismatchUnitMissing ->
                  field d = NetContents
                  /\ RegExp.exec netContentsPattern declared = None
                  /\ overall_match report = false)
    /\ (statusOf NetContents report = Some Match ->
        RegExp.exec netContentsPattern declared <> None).
Proof.
  intros H.
  destruct (performVerification_returns _ _ _ H)
    as (bn & pc & nc & re & m & net & _ & _ & _ & _ & Hm & Hnet & ->).
  apply EngineMore.matchMethod_string in Hm as (declared & Hd & ->).
  apply EngineMore.netContentsTiers_status in Hnet as (HMatch & HUnit & _).
  exists declared. split; [exact Hd|]. split.
  - intros d Hin Hs. unfold rows, found in Hin. cbn [In] in Hin.
    destruct Hin as [<-|[<-|[<-|[<-|[<-|[]]]]]]; cbn [status field] in *.
    + destruct (substringFound _ bn); discriminate.
    + destruct (substringFound _ pc); discriminate.
    + destruct (abvFound _ _ _); discriminate.
    + destruct (HUnit Hs) as [Hnone Hov]. cbn [overall_match].
      rewrite Hov. auto.
    + destruct (Str.includes _ _); discriminate.
  - cbn. intros [= Hs]. auto.
Qed.

Lemma netContents_status_follows_declared_shape_witness :
  exists declared,
    Form.netContents Scenario.unitMissing = JStr declared
    /\ (forall d, In d (discrepancies Scenario.unitMissingReport) ->
                  status d = MismatchUnitMissing ->
                  field d = NetContents
                  /\ RegExp.exec netContentsPattern declared = None
                  /\ overall_match Scenario.unitMissingReport = false)
    /\ (statusOf NetContents Scenario.unitMissingReport = Some Match ->
        RegExp.exec netContentsPattern declared <> None).
Proof.
  apply (netContents_status_follows_declared_shape
           Scenario.labelText Scenario.unitMissing).
  vm_compute. reflexivity.
Defined.

(** X8.  The extracted text enters the Brand Name, Product Class, Net
    Contents and Government Warning checks through [normalize] only: for
    one form, two texts with the same normal form give these four rows the
    same status. *)
Theorem four_rows_depend_on_normalized_text
    (text1 text2 : string) (formInput : Form.t)
    (report1 report2 : VerificationReport) :
  normalizeString text1 = normalizeString text2 ->
  performVerification text1 formInput = Returns report1 ->
  performVerification text2 formInput = Returns report2 ->
  forall name, name <> AlcoholContent ->
               statusOf name report1 = statusOf name report2.
Proof.
  intros Hn H1 H2 name Hname.
  destruct (performVerification_returns _ _ _ H1)
    as (bn & pc & nc & re & m & net & Hb & Hc & Hnc & Hre & Hm & Hnet & ->).
  destruct (performVerification_returns _ _ _ H2)
    as (bn' & pc' & nc' & re' & m' & net' & Hb' & Hc' & Hnc' & Hre' & Hm'
        & Hnet' & ->).
  rewrite Hb in Hb'. rewrite Hc in Hc'. rewrite Hnc in Hnc'.
  rewrite Hre in Hre'. rewrite Hm in Hm'.
  injection Hb' as <-. injection Hc' as <-. injection Hnc' as <-.
  injection Hre' as <-. injection Hm' as <-.
  rewrite <- Hn in Hnet'.
  apply EngineMore.netContentsTiers_status in Hnet as (_ & _ & Hany).
  destruct (Hany (substringFound (normalizeString text1) bn
                  && substringFound (normalizeString text1) pc
                  && abvFound re (declaredAbv formInput) text2)) as (b & Hb2).
  rewrite Hb2 in Hnet'. injection Hnet' as <-.
  rewrite <- Hn.
  destruct name; [reflexivity|reflexivity|now elim Hname|reflexivity|reflexivity].
Qed.

Lemma four_rows_depend_on_normalized_text_witness :
  statusOf NetContents Scenario.fullSuccessReport
  = statusOf NetContents OtherTexts.plainLabelReport.
Proof.
  apply (four_rows_depend_on_normalized_text
           Scenario.labelText OtherTexts.plainLabelText Scenario.fullSuccess
           Scenario.fullSuccessReport OtherTexts.plainLabelReport);
    [vm_compute; reflexivity..|discriminate].
Defined.

(** X9.  The status of the Alcohol Content row depends on the extracted
    text and the declared alcohol content only: two forms with the same
    alcohol content give the row the same status on one text. *)
Theorem alcoholContent_row_from_text_and_abv
    (extractedText : string) (form1 form2 : Form.t)
    (report1 report2 : VerificationReport) :
  Form.alcoholContent form1 = Form.alcoholContent form2 ->
  performVerification extractedText form1 = Returns report1 ->
  performVerification extractedText form2 = Returns report2 ->
  statusOf AlcoholContent report1 = statusOf AlcoholContent report2.
Proof.
  intros Ha H1 H2.
  destruct (performVerification_returns _ _ _ H1)
    as (? & ? & ? & re & ? & ? & _ & _ & _ & Hre & _ & _ & ->).
  destruct (performVerification_returns _ _ _ H2)
    as (? & ? & ? & re' & ? & ? & _ & _ & _ & Hre' & _ & _ & ->).
  assert (Hd : declaredAbv form1 = declaredAbv form2)
    by (unfold declaredAbv; now rewrite Ha).
  rewrite Hd in Hre. rewrite Hre in Hre'. injection Hre' as <-.
  cbn. now rewrite Hd.
Qed.

Lemma alcoholContent_row_from_text_and_abv_witness :
  statusOf AlcoholContent Scenario.fullSuccessReport
  = statusOf AlcoholContent Scenario.brandMismatchReport.
Proof.
  apply (alcoholContent_row_from_text_and_abv
           Scenario.labelText Scenario.fullSuccess Scenario.brandMismatch);
    vm_compute; reflexivity.
Defined.

(** X10.  Only the units that hold ml or floz get other spellings: for any
    other unit the pattern of the unit is the unit itself. *)
Theorem unitPattern_of_other_units (unit : string) :
  Str.includes unit "floz" = false ->
  Str.includes unit "ml" = false ->
  unitPatternOf unit = unit.
Proof.
  intros Hf Hm. unfold unitPatternOf.
  rewrite (EngineMore.replaceFirst_absent unit "floz" _ Hf).
  now apply EngineMore.replaceFirst_absent.
Qed.

Lemma unitPattern_of_other_units_witness : unitPatternOf "oz" = "oz".
Proof.
  apply (unitPattern_of_other_units "oz"); vm_compute; reflexivity.
Defined.

(* ================================================================== *)
(** * The route *)

Module RouteFacts.
Import Route Trace.

Lemma responses_app (a b : list event) :
  responses (a ++ b) = (responses a ++ responses b)%list.
Proof.
  induction a as [|e a IH]; [reflexivity|].
  destruct e; cbn [responses app]; now rewrite IH.
Qed.

Lemma unlinked_app (a b : list event) :
  unlinked (a ++ b) = (unlinked a ++ unlinked b)%list.
Proof.
  induction a as [|e a IH]; [reflexivity|].
  destruct e; cbn [unlinked app]; now rewrite IH.
Qed.

Lemma responses_cleanup (env : world) (p : string) : responses (cleanup env p) = [].
Proof. unfold cleanup. now destruct (unlink env p). Qed.

Lemma unlinked_cleanup (env : world) (p : string) : unlinked (cleanup env p) = [p].
Proof. unfold cleanup. now destruct (unlink env p). Qed.

(** The [try] block and its [catch] remove nothing. *)
Lemma attempt_unlinked (verify : string -> Form.t -> outcome VerificationReport)
    (env : world) (p : string) (formFields : Form.t) :
  unlinked (fst (attempt verify env p formFields)) = [].
Proof.
  unfold attempt, caught.
  destruct (textDetection env p) as [[m|]|[[|d ds]|]]; try reflexivity.
  destruct (verify d formFields); reflexivity.
Qed.

(** When they end normally they leave one response. *)
Lemma attempt_trace (verify : string -> Form.t -> outcome VerificationReport)
    (env : world) (p : string) (formFields : Form.t) (t : list event) (u : unit) :
  attempt verify env p formFields = (t, Returns u) ->
  exists before r,
    t = (before ++ [Respond r])%list
    /\ responses before = []
    /\ (statusCode r = 200 \/ statusCode r = 500).
Proof.
  unfold attempt, caught.
  destruct (textDetection env p) as [[m|]|[[|d ds]|]].
  - intros [= <- _]. exists [LogError (Provider (Some m))]. eexists.
    repeat split. now right.
  - discriminate.
  - intros [= <- _]. exists []. eexists. repeat split. now left.
  - destruct (verify d formFields) as [v|e|]; [| |discriminate].
    + intros [= <- _]. exists []. eexists. repeat split. now left.
    + intros [= <- _]. exists [LogError (Engine e)]. eexists.
      repeat split. now right.
  - intros [= <- _]. exists []. eexists. repeat split. now left.
Qed.

(** When they end with an exception, [null] or [undefined] was caught and
    nothing was sent. *)
Lemma attempt_throws (verify : string -> Form.t -> outcome VerificationReport)
    (env : world) (p : string) (formFields : Form.t) (t : list event)
    (e : jserror) :
  attempt verify env p formFields = (t, Throws e) <->
  textDetection env p = OcrFails None
  /\ t = [LogError (Provider None)] /\ e = TypeError.
Proof.
  unfold attempt, caught.
  destruct (textDetection env p) as [[m|]|[[|d ds]|]].
  - split; [discriminate|]. intros ([= ] & _).
  - split; [intros [= <- <-]; auto|]. now intros (_ & -> & ->).
  - split; [discriminate|]. intros ([= ] & _).
  - destruct (verify d formFields) as [v|e'|];
      (split; [discriminate|]; intros ([= ] & _)).
  - split; [discriminate|]. intros ([= ] & _).
Qed.

Lemma attempt_unmodelled (verify : string -> Form.t -> outcome VerificationReport)
    (env : world) (p : string) (formFields : Form.t) (t : list event) :
  attempt verify env p formFields = (t, Unmodelled) <->
  t = []
  /\ exists d ds,
       textDetection env p = OcrAnswers (Some (d :: ds))
       /\ verify d formFields = Unmodelled.
Proof.
  unfold attempt, caught.
  destruct (textDetection env p) as [[m|]|[[|d ds]|]].
  - split; [discriminate|]. intros (_ & ? & ? & [= ] & _).
  - split; [discriminate|]. intros (_ & ? & ? & [= ] & _).
  - split; [discriminate|]. intros (_ & ? & ? & [= ] & _).
  - destruct (verify d formFields) as [v|e'|] eqn:E.
    + split; [discriminate|]. intros (_ & ? & ? & [= <- <-] & H).
      rewrite E in H. discriminate H.
    + split; [discriminate|]. intros (_ & ? & ? & [= <- <-] & H).
      rewrite E in H. discriminate H.
    + split; [intros [= <-]; split; [reflexivity|]; now exists d, ds|].
      now intros (-> & _).
  - split; [discriminate|]. intros (_ & ? & ? & [= ] & _).
Qed.

(** The trace of a request the handler finishes. *)
Lemma handler_returns (verify : string -> Form.t -> outcome VerificationReport)
    (env : world) (req : request) (trace : list event) :
  handler verify env req = Returns trace ->
  match file req with
  | None => trace = [Respond (mkResponse 400 (Refused NoImageFile None))]
  | Some p =>
      exists t u,
        attempt verify env p (formFields req) = (t, Returns u)
        /\ trace = (TextDetection p :: t ++ cleanup env p)%list
  end.
Proof.
  unfold handler, serve. destruct (file req) as [p|].
  - destruct (attempt verify env p (formFields req)) as [t [u| |]] eqn:E;
      try discriminate.
    intros [= <-]. now exists t, u.
  - now intros [= <-].
Qed.

Lemma length_substring (n : nat) (s : string) :
  String.length (String.substring 0 n s) = Nat.min n (String.length s).
Proof.
  revert s. induction n as [|n IH]; intros [|c s];
    cbn [String.substring String.length Nat.min]; try reflexivity.
  now rewrite IH.
Qed.

Lemma length_excerpt (extractedText : string) :
  String.length (excerpt extractedText) <= 303.
Proof.
  unfold excerpt.
  rewrite AlphabetFacts.length_append, length_substring.
  destruct (300 <? String.length extractedText); cbn [String.length]; lia.
Qed.

(** The response of the [try] block, when there is one that answers. *)
Lemma attempt_answered
    (verify : string -> Form.t -> outcome VerificationReport)
    (env : world) (p : string) (formFields : Form.t) (t : list event)
    (c : outcome unit)
    (code : nat) (ov : bool) (rows : option (list FieldCheck))
    (err : option notice) (text : string) (form : Form.t) :
  attempt verify env p formFields = (t, c) ->
  In (Respond (mkResponse code (Answered ov rows err text form))) t ->
  code = 200 /\ form = formFields
  /\ ((textDetection env p = OcrAnswers None
       \/ textDetection env p = OcrAnswers (Some []))
      /\ ov = false /\ rows = None /\ err = Some NoTextRead /\ text = ""
      \/ exists d ds report,
           textDetection env p = OcrAnswers (Some (d :: ds))
           /\ verify d formFields = Returns report
           /\ ov = overall_match report
           /\ rows = Some (discrepancies report)
           /\ err = None /\ text = excerpt d).
Proof.
  unfold attempt, caught.
  destruct (textDetection env p) as [[m|]|[[|d ds]|]].
  - intros [= <- _] [H|[H|[]]]; discriminate H.
  - intros [= <- _] [H|[]]; discriminate H.
  - intros [= <- _] [[= <- <- <- <- <- <-]|[]]. repeat split. left. auto 6.
  - destruct (verify d formFields) as [report|e|] eqn:E; intros [= <- _].
    + intros [[= <- <- <- <- <- <-]|[]]. repeat split. right.
      exists d, ds, report. auto 6.
    + intros [H|[H|[]]]; discriminate H.
    + intros [].
  - intros [= <- _] [[= <- <- <- <- <- <-]|[]]. repeat split. left. auto 6.
Qed.

Lemma handler_answered
    (verify : string -> Form.t -> outcome VerificationReport)
    (env : world) (req : request) (trace : list event)
    (code : nat) (ov : bool) (rows : option (list FieldCheck))
    (err : option notice) (text : string) (form : Form.t) :
  handler verify env req = Returns trace ->
  In (Respond (mkResponse code (Answered ov rows err text form))) trace ->
  exists p t u,
    file req = Some p
    /\ attempt verify env p (formFields req) = (t, Returns u)
    /\ In (Respond (mkResponse code (Answered ov rows err text form))) t.
Proof.
  intros H Hin. apply handler_returns in H.
  destruct (file req) as [p|].
  - destruct H as (t & u & E & ->). exists p, t, u.
    split; [reflexivity|]. split; [exact E|].
    cbn [In] in Hin. destruct Hin as [H|Hin]; [discriminate H|].
    apply in_app_or in Hin as [Hin|Hin]; [exact Hin|].
    unfold cleanup in Hin. cbn [In] in Hin.
    destruct Hin as [H|Hin]; [discriminate H|].
    destruct (unlink env p); cbn [In] in Hin;
      [destruct Hin as [H|[]]; discriminate H|destruct Hin].
  - subst trace. destruct Hin as [H|[]]. discriminate H.
Qed.

End RouteFacts.

(** X11.  A request that the handler finishes gets exactly one response,
    with status 200, 400 or 500.  The handler lets an exception out in
    one case only: the text detection rejects with [null] or [undefined],
    and reading the message of that in the [catch] block throws a
    TypeError; then no response is sent, and the upload is still removed.
    An error of the engine never leaves the handler. *)
Theorem handler_responds_exactly_once
    (verify : string -> Form.t -> outcome VerificationReport)
    (env : Route.world) (req : Route.request) :
  (forall trace,
      Route.handler verify env req = Returns trace ->
      exists r,
        Trace.responses trace = [r]
        /\ (Route.statusCode r = 200 \/ Route.statusCode r = 400
            \/ Route.statusCode r = 500))
  /\ (forall e,
         Route.handler verify env req = Throws e <->
         e = TypeError
         /\ exists imagePath,
              Route.file req = Some imagePath
              /\ Route.textDetection env imagePath = Route.OcrFails None)
  /\ (forall imagePath,
         Route.file req = Some imagePath ->
         Route.textDetection env imagePath = Route.OcrFails None ->
         Trace.responses (fst (Route.serve verify env req)) = []
         /\ Trace.unlinked (fst (Route.serve verify env req)) = [imagePath])
  /\ (Route.handler verify env req = Unmodelled <->
      exists imagePath detected others,
        Route.file req = Some imagePath
        /\ Route.textDetection env imagePath
           = Route.OcrAnswers (Some (detected :: others))
        /\ verify detected (Route.formFields req) = Unmodelled).
Proof.
  split; [|split; [|split]].
  - intros trace H. apply RouteFacts.handler_returns in H.
    destruct (Route.file req) as [p|].
    + destruct H as (t & u & E & ->).
      destruct (RouteFacts.attempt_trace _ _ _ _ _ _ E)
        as (before & r & -> & Hb & Hr).
      exists r. cbn [Trace.responses].
      rewrite !RouteFacts.responses_app, Hb, RouteFacts.responses_cleanup.
      split; [reflexivity|]. destruct Hr; auto.
    + subst trace. eexists. split; [reflexivity|]. cbn. auto.
  - intros e. unfold Route.handler, Route.serve.
    destruct (Route.file req) as [p|].
    + destruct (Route.attempt verify env p (Route.formFields req))
        as [t [u|e'|]] eqn:E.
      * split; [discriminate|]. intros (-> & p' & [= <-] & Hd).
        assert (H : Route.attempt verify env p (Route.formFields req)
                    = ([Route.LogError (Route.Provider None)], Throws TypeError))
          by now apply RouteFacts.attempt_throws.
        rewrite E in H. discriminate H.
      * apply RouteFacts.attempt_throws in E as (Hd & _ & ->).
        split; [intros [= <-]; split; [reflexivity|]; now exists p|].
        now intros (-> & _).
      * split; [discriminate|]. intros (-> & p' & [= <-] & Hd).
        assert (H : Route.attempt verify env p (Route.formFields req)
                    = ([Route.LogError (Route.Provider None)], Throws TypeError))
          by now apply RouteFacts.attempt_throws.
        rewrite E in H. discriminate H.
    + split; [discriminate|]. intros (_ & p' & [= ] & _).
  - intros p Hp Hd. unfold Route.serve. rewrite Hp.
    assert (H : Route.attempt verify env p (Route.formFields req)
                = ([Route.LogError (Route.Provider None)], Throws TypeError))
      by now apply RouteFacts.attempt_throws.
    rewrite H. cbn [fst app Trace.responses Trace.unlinked].
    now rewrite RouteFacts.responses_cleanup, RouteFacts.unlinked_cleanup.
  - unfold Route.handler, Route.serve.
    destruct (Route.file req) as [p|].
    + destruct (Route.attempt verify env p (Route.formFields req))
        as [t [u|e'|]] eqn:E.
      * split; [discriminate|]. intros (p' & d & ds & [= <-] & Hd & Hv).
        assert (H : Route.attempt verify env p (Route.formFields req)
                    = ([], Unmodelled))
          by (apply RouteFacts.attempt_unmodelled; split; [reflexivity|];
              now exists d, ds).
        rewrite E in H. discriminate H.
      * split; [discriminate|]. intros (p' & d & ds & [= <-] & Hd & Hv).
        assert (H : Route.attempt verify env p (Route.formFields req)
                    = ([], Unmodelled))
          by (apply RouteFacts.attempt_unmodelled; split; [reflexivity|];
              now exists d, ds).
        rewrite E in H. discriminate H.
      * apply RouteFacts.attempt_unmodelled in E as (_ & d & ds & Hd & Hv).
        split; [intros _; now exists p, d, ds|reflexivity].
    + split; [discriminate|]. intros (p' & _ & _ & [= ] & _).
Qed.

Lemma handler_responds_exactly_once_witness :
  Route.handler performVerification (Trace.rejecting None)
                (Trace.upload Trace.fullSuccessFields)
  = Throws TypeError.
Proof.
  apply (proj1 (proj2 (handler_responds_exactly_once
                         performVerification (Trace.rejecting None)
                         (Trace.upload Trace.fullSuccessFields)))
               TypeError).
  split; [reflexivity|]. exists "uploads/label". split; reflexivity.
Defined.

(** X12.  The uploaded file is removed exactly once, after the response,
    whether the text detection or the engine fails or not; the text
    detection is the first thing called, on that file.  A request without
    a file is answered with status 400 and nothing else happens. *)
Theorem handler_removes_the_upload
    (verify : string -> Form.t -> outcome VerificationReport)
    (env : Route.world) (req : Route.request) (trace : list Route.event) :
  Route.handler verify env req = Returns trace ->
  match Route.file req with
  | Some imagePath =>
      Trace.unlinked trace = [imagePath]
      /\ exists before after r,
           trace = (Route.TextDetection imagePath :: before
                      ++ Route.Respond r :: Route.Unlink imagePath :: after)%list
  | None =>
      trace = [Route.Respond
                 (Route.mkResponse 400 (Route.Refused Route.NoImageFile None))]
  end.
Proof.
  intros H. apply RouteFacts.handler_returns in H.
  destruct (Route.file req) as [p|]; [|exact H].
  destruct H as (t & u & E & ->). split.
  - cbn [Trace.unlinked].
    rewrite RouteFacts.unlinked_app, RouteFacts.unlinked_cleanup.
    pose proof (RouteFacts.attempt_unlinked verify env p (Route.formFields req))
      as Hu.
    rewrite E in Hu. cbn [fst] in Hu. now rewrite Hu.
  - destruct (RouteFacts.attempt_trace _ _ _ _ _ _ E)
      as (before & r & -> & _ & _).
    exists before. eexists. exists r. unfold Route.cleanup.
    now rewrite <- app_assoc.
Qed.

Lemma handler_removes_the_upload_witness :
  Trace.unlinked
    [Route.TextDetection "uploads/label";
     Route.Respond
       (Route.mkResponse 200
          (Route.Answered false None (Some Route.NoTextRead) ""
                          Scenario.fullSuccess));
     Route.Unlink "uploads/label"] = ["uploads/label"]
  /\ exists before after r,
       [Route.TextDetection "uploads/label";
        Route.Respond
          (Route.mkResponse 200
             (Route.Answered false None (Some Route.NoTextRead) ""
                             Scenario.fullSuccess));
        Route.Unlink "uploads/label"]
       = (Route.TextDetection "uploads/label" :: before
            ++ Route.Respond r :: Route.Unlink "uploads/label" :: after)%list.
Proof.
  apply (handler_removes_the_upload
           (fun _ _ => Unmodelled)
           (Route.mkWorld (fun _ => Route.OcrAnswers None) (fun _ => None))
           (Trace.upload Scenario.fullSuccess)).
  reflexivity.
Defined.

(** X13.  A response that answers carries at most 303 characters of
    text and the form as it was sent; it has status 200. *)
Theorem answered_text_bounded
    (verify : string -> Form.t -> outcome VerificationReport)
    (env : Route.world) (req : Route.request) (trace : list Route.event)
    (code : nat) (ov : bool) (rows : option (list FieldCheck))
    (err : option Route.notice) (text : string) (form : Form.t) :
  Route.handler verify env req = Returns trace ->
  In (Route.Respond
        (Route.mkResponse code (Route.Answered ov rows err text form))) trace ->
  String.length text <= 303 /\ form = Route.formFields req /\ code = 200.
Proof.
  intros H Hin.
  destruct (RouteFacts.handler_answered _ _ _ _ _ _ _ _ _ _ H Hin)
    as (p & t & u & _ & Ht & Hint).
  destruct (RouteFacts.attempt_answered _ _ _ _ _ _ _ _ _ _ _ _ Ht Hint)
    as (-> & -> & [(_ & _ & _ & _ & ->)|(d & _ & _ & _ & _ & _ & _ & _ & ->)]).
  - repeat split. cbn. lia.
  - repeat split. apply RouteFacts.length_excerpt.
Qed.

Lemma answered_text_bounded_witness :
  String.length (Route.excerpt Scenario.labelText) <= 303
  /\ Scenario.fullSuccess = Route.formFields (Trace.upload Scenario.fullSuccess)
  /\ 200 = 200.
Proof.
  apply (answered_text_bounded
           performVerification (Trace.reading Scenario.labelText)
           (Trace.upload Scenario.fullSuccess)
           [Route.TextDetection "uploads/label";
            Route.Respond
              (Route.mkResponse 200
                 (Route.Answered
                    (overall_match Scenario.fullSuccessReport)
                    (Some (discrepancies Scenario.fullSuccessReport)) None
                    (Route.excerpt Scenario.labelText) Scenario.fullSuccess));
            Route.Unlink "uploads/label"]
           200 (overall_match Scenario.fullSuccessReport)
           (Some (discrepancies Scenario.fullSuccessReport)) None
           (Route.excerpt Scenario.labelText) Scenario.fullSuccess).
  - vm_compute. reflexivity.
  - simpl. auto.
Defined.

(** X14.  The route of the present server file reports an overall match
    only for an upload on which the text detection found a text whose
    normal form holds the words government warning; the response then has
    the five rows and no error notice. *)
Theorem route_match_needs_the_warning
    (env : Route.world) (req : Route.request) (trace : list Route.event)
    (code : nat) (rows : option (list FieldCheck))
    (err : option Route.notice) (text : string) (form : Form.t) :
  verifyRoute env req = Returns trace ->
  In (Route.Respond
        (Route.mkResponse code (Route.Answered true rows err text form))) trace ->
  exists imagePath detected others report,
    Route.file req = Some imagePath
    /\ Route.textDetection env imagePath
       = Route.OcrAnswers (Some (detected :: others))
    /\ Str.includes (normalizeString detected) "government warning" = true
    /\ performVerification detected (Route.formFields req) = Returns report
    /\ rows = Some (discrepancies report)
    /\ map field (discrepancies report)
       = [BrandName; ProductClass; AlcoholContent; NetContents;
          GovernmentWarning]
    /\ err = None.
Proof.
  intros H Hin.
  destruct (RouteFacts.handler_answered _ _ _ _ _ _ _ _ _ _ H Hin)
    as (p & t & u & Hp & Ht & Hint).
  destruct (RouteFacts.attempt_answered _ _ _ _ _ _ _ _ _ _ _ _ Ht Hint)
    as (_ & _ & [(_ & Hov & _)|(d & ds & report & Hd & Hv & Hov & -> & -> & _)]);
    [discriminate Hov|].
  exists p, d, ds, report. repeat split; try assumption.
  - destruct (performVerification_returns _ _ _ Hv)
      as (? & ? & ? & ? & ? & net & _ & _ & _ & _ & _ & _ & ->).
    cbn [overall_match] in Hov. symmetry in Hov.
    now apply andb_true_iff in Hov as [_ Hw].
  - destruct (performVerification_returns _ _ _ Hv)
      as (? & ? & ? & ? & ? & net & _ & _ & _ & _ & _ & _ & ->).
    reflexivity.
Qed.

Lemma route_match_needs_the_warning_witness :
  exists imagePath detected others report,
    Route.file (Trace.upload Scenario.fullSuccess) = Some imagePath
    /\ Route.textDetection (Trace.reading Scenario.labelText) imagePath
       = Route.OcrAnswers (Some (detected :: others))
    /\ Str.includes (normalizeString detected) "government warning" = true
    /\ performVerification detected
         (Route.formFields (Trace.upload Scenario.fullSuccess))
       = Returns report
    /\ Some (discrepancies Scenario.fullSuccessReport)
       = Some (discrepancies report)
    /\ map field (discrepancies report)
       = [BrandName; ProductClass; AlcoholContent; NetContents;
          GovernmentWarning]
    /\ @None Route.notice = None.
Proof.
  apply (route_match_needs_the_warning
           (Trace.reading Scenario.labelText)
           (Trace.upload Scenario.fullSuccess)
           [Route.TextDetection "uploads/label";
            Route.Respond
              (Route.mkResponse 200
                 (Route.Answered true
                    (Some (discrepancies Scenario.fullSuccessReport)) None
                    (Route.excerpt Scenario.labelText) Scenario.fullSuccess));
            Route.Unlink "uploads/label"]
           200 (Some (discrepancies Scenario.fullSuccessReport)) None
           (Route.excerpt Scenario.labelText) Scenario.fullSuccess).
  - vm_compute. reflexivity.
  - simpl. auto.
Defined.

(** X15.  A form without the net contents, its other fields strings as a
    multipart form sends them, gets the status 500 with the notice of a
    processing error from the route whenever the text detection found
    text: the TypeError of the engine is caught, logged and named as the
    cause, and the upload is still removed.  The alcohol content is any
    string whose text between the white space at its ends holds none of
    the characters that a pattern reads as syntax, the dot apart. *)
Theorem route_500_without_netContents
    (env : Route.world) (imagePath detected : string) (others : list string)
    (formInput : Form.t) :
  Route.textDetection env imagePath
  = Route.OcrAnswers (Some (detected :: others)) ->
  WellFormed.textual (Form.brandName formInput) ->
  WellFormed.textual (Form.productClass formInput) ->
  (forall declared, Form.netContents formInput <> JStr declared) ->
  Declared.literal (Form.alcoholContent formInput) ->
  exists trace,
    verifyRoute env (Route.mkRequest (Some imagePath) formInput) = Returns trace
    /\ Trace.responses trace
       = [Route.mkResponse 500
            (Route.Refused Route.ProcessingError
                           (Some (Route.Engine TypeError)))]
    /\ In (Route.LogError (Route.Engine TypeError)) trace
    /\ Trace.unlinked trace = [imagePath].
Proof.
  intros Hd Hb Hc Hn Ha.
  unfold verifyRoute, Route.handler, Route.serve, Route.attempt.
  cbn [Route.file Route.formFields]. rewrite Hd.
  rewrite (EngineMore.performVerification_typeError detected formInput
             Hb Hc Hn Ha).
  unfold Route.caught. eexists. split; [reflexivity|].
  cbn [app Trace.responses Trace.unlinked].
  rewrite RouteFacts.responses_cleanup, RouteFacts.unlinked_cleanup.
  repeat split. cbn. auto.
Qed.

Lemma route_500_without_netContents_witness :
  exists trace,
    verifyRoute (Trace.reading Scenario.labelText)
                (Route.mkRequest (Some "uploads/label")
                                 Trace.netContentsAbsentFields)
    = Returns trace
    /\ Trace.responses trace
       = [Route.mkResponse 500
            (Route.Refused Route.ProcessingError
                           (Some (Route.Engine TypeError)))]
    /\ In (Route.LogError (Route.Engine TypeError)) trace
    /\ Trace.unlinked trace = ["uploads/label"].
Proof.
  apply (route_500_without_netContents
           (Trace.reading Scenario.labelText) "uploads/label"
           Scenario.labelText [] Trace.netContentsAbsentFields);
    vm_compute; auto; discriminate.
Defined.

(** X16.  On a form whose fields are strings as a multipart form sends
    them, the alcohol content as in X15 and the net contents present, the
    route answers every detected text with status 200 and the report of
    the engine on the first detection; the later detections play no part. *)
Theorem route_200_on_wellformed_form
    (env : Route.world) (imagePath detected declared : string)
    (others : list string) (formInput : Form.t) :
  Route.textDetection env imagePath
  = Route.OcrAnswers (Some (detected :: others)) ->
  WellFormed.textual (Form.brandName formInput) ->
  WellFormed.textual (Form.productClass formInput) ->
  Form.netContents formInput = JStr declared ->
  Declared.literal (Form.alcoholContent formInput) ->
  exists trace report,
    verifyRoute env (Route.mkRequest (Some imagePath) formInput) = Returns trace
    /\ performVerification detected formInput = Returns report
    /\ Trace.responses trace
       = [Route.mkResponse 200
            (Route.Answered (overall_match report)
                            (Some (discrepancies report)) None
                            (Route.excerpt detected) formInput)].
Proof.
  intros Hd Hb Hc Hn Ha.
  destruct (DeclaredFacts.performVerification_returns_literal
              detected formInput declared Hb Hc Hn Ha) as (report & Hr).
  unfold verifyRoute, Route.handler, Route.serve, Route.attempt.
  cbn [Route.file Route.formFields]. rewrite Hd, Hr.
  eexists. exists report. split; [reflexivity|]. split; [reflexivity|].
  cbn [app Trace.responses]. now rewrite RouteFacts.responses_cleanup.
Qed.

Lemma route_200_on_wellformed_form_witness :
  exists trace report,
    verifyRoute (Trace.reading Scenario.labelText)
                (Route.mkRequest (Some "uploads/label") Trace.fullSuccessFields)
    = Returns trace
    /\ performVerification Scenario.labelText Trace.fullSuccessFields
       = Returns report
    /\ Trace.responses trace
       = [Route.mkResponse 200
            (Route.Answered (overall_match report)
                            (Some (discrepancies report)) None
                            (Route.excerpt Scenario.labelText)
                            Trace.fullSuccessFields)].
Proof.
  apply (route_200_on_wellformed_form
           (Trace.reading Scenario.labelText) "uploads/label"
           Scenario.labelText "750 mL" [] Trace.fullSuccessFields);
    vm_compute; auto.
Defined.

(* ================================================================== *)
(** * Occurrences of a normalized string *)

Module Occurrence.
Import Direct.

Lemma prefix_append (n y : string) : String.prefix n (n ++ y) = true.
Proof.
  induction n as [|c n IH]; cbn [String.append String.prefix];
    [now destruct y|].
  destruct (Ascii.ascii_dec c c) as [_|N]; [exact IH|now elim N].
Qed.

Lemma includes_empty (hay : string) : Str.includes hay "" = true.
Proof. now destruct hay. Qed.

(** [includes] finds the needle exactly when the hay stack is some string,
    the needle, and some string. *)
Lemma includes_occurs (hay needle : string) :
  Str.includes hay needle = true
  <-> exists x y, hay = (x ++ needle ++ y)%string.
Proof.
  split.
  - induction hay as [|c hay IH]; cbn [Str.includes]; intros H;
      apply orb_true_iff in H as [H|H].
    + exists "". eexists. exact (ReturnsFacts.prefix_drop _ _ H).
    + discriminate H.
    + exists "". eexists. exact (ReturnsFacts.prefix_drop _ _ H).
    + destruct (IH H) as (x & y & ->). now exists (String c x), y.
  - intros (x & y & ->). induction x as [|c x IH].
    + cbn [String.append]. destruct (needle ++ y)%string eqn:E;
        cbn [Str.includes]; rewrite <- E, prefix_append; reflexivity.
    + cbn [String.append Str.includes]. rewrite IH. apply orb_true_r.
Qed.

Lemma filter_append (p : ascii -> bool) (a b : string) :
  filter p (a ++ b) = (filter p a ++ filter p b)%string.
Proof.
  induction a as [|c a IH]; cbn [String.append filter]; [reflexivity|].
  destruct (p c); cbn [String.append]; now rewrite IH.
Qed.

Lemma headIs_append (p : ascii -> bool) (a b : string) :
  a <> "" -> headIs p (a ++ b) = headIs p a.
Proof. destruct a; [now intros H; elim H|reflexivity]. Qed.

(** A string that neither begins nor ends with white space. *)
Lemma trimmed_ends (n : string) :
  Str.trim n = n ->
  headIs Char.isWhiteSpace n = false /\ Str.trimEnd n = n.
Proof.
  intros H. split.
  - destruct (headIs Char.isWhiteSpace n) eqn:E; [|reflexivity].
    rewrite <- H in E. unfold Str.trim in E.
    apply NormalizeFacts.headIs_trimEnd in E.
    now rewrite NormalizeFacts.headIs_trimStart in E.
  - rewrite <- H at 1. unfold Str.trim.
    rewrite NormalizeFacts.trimEnd_trimEnd. exact H.
Qed.

Lemma trimEnd_cons (c : ascii) (r : string) :
  Str.trimEnd (String c r) = String c r ->
  Str.trimEnd r = r /\ (r = "" -> Char.isWhiteSpace c = false).
Proof.
  cbn [Str.trimEnd].
  destruct (Char.isWhiteSpace c && Str.isEmpty (Str.trimEnd r)) eqn:E;
    [discriminate|].
  intros [= H]. split; [exact H|]. intros ->.
  cbn in E. now rewrite andb_true_r in E.
Qed.

(** ** The steps of [normalize] on a string around an occurrence *)

Lemma collapseRuns_occurrence (n y : string) :
  noWhiteSpacePair n = true -> Str.trimEnd n = n -> n <> "" ->
  collapseRuns false (n ++ y) = (n ++ collapseRuns false y)%string.
Proof.
  induction n as [|c r IH]; intros Hp Ht Hn; [now elim Hn|].
  cbn [noWhiteSpacePair] in Hp. apply andb_true_iff in Hp as [Hc Hr].
  apply trimEnd_cons in Ht as [Ht Hlast].
  destruct r as [|d r'].
  - cbn [String.append collapseRuns]. now rewrite (Hlast eq_refl).
  - assert (IH' := IH Hr Ht ltac:(discriminate)).
    change ((String c (String d r') ++ y)%string)
      with (String c (String d r' ++ y)%string).
    cbn [collapseRuns]. rewrite IH'.
    destruct (Char.isWhiteSpace c) eqn:Ec; [|reflexivity].
    cbn [headIs] in Hc. cbn [String.append headIs].
    rewrite andb_true_l in Hc. apply negb_true_iff in Hc. now rewrite Hc.
Qed.

Lemma collapseRuns_before (x z : string) (inRun : bool) :
  headIs Char.isWhiteSpace z = false ->
  exists x', collapseRuns inRun (x ++ z) = (x' ++ collapseRuns false z)%string.
Proof.
  intros Hz. revert inRun. induction x as [|c x IH]; intros inRun.
  - exists "". cbn [String.append]. destruct z as [|d z']; [reflexivity|].
    cbn [headIs] in Hz. cbn [collapseRuns]. now rewrite Hz.
  - cbn [String.append collapseRuns].
    destruct (Char.isWhiteSpace c).
    + destruct inRun.
      * exact (IH true).
      * destruct (headIs Char.isWhiteSpace (x ++ z)).
        -- destruct (IH true) as (x' & ->). now exists (String " " x').
        -- destruct (IH false) as (x' & ->). now exists (String c x').
    + destruct (IH false) as (x' & ->). now exists (String c x').
Qed.

Lemma trimStart_before (x z : string) :
  headIs Char.isWhiteSpace z = false ->
  exists x', Str.trimStart (x ++ z) = (x' ++ z)%string.
Proof.
  intros Hz. induction x as [|c x IH].
  - exists "". cbn [String.append]. now apply NormalizeFacts.trimStart_fixed.
  - cbn [String.append Str.trimStart].
    destruct (Char.isWhiteSpace c); [exact IH|now exists (String c x)].
Qed.

Lemma trimEnd_occurrence (n y : string) :
  Str.trimEnd n = n -> n <> "" ->
  Str.trimEnd (n ++ y) = (n ++ Str.trimEnd y)%string.
Proof.
  induction n as [|c r IH]; intros Ht Hn; [now elim Hn|].
  apply trimEnd_cons in Ht as [Ht Hlast].
  destruct r as [|d r'].
  - cbn [String.append Str.trimEnd]. now rewrite (Hlast eq_refl).
  - assert (IH' := IH Ht ltac:(discriminate)).
    change ((String c (String d r') ++ y)%string)
      with (String c (String d r' ++ y)%string).
    cbn [Str.trimEnd]. cbn [Str.trimEnd] in IH'. rewrite IH'.
    cbn [String.append Str.isEmpty]. now rewrite andb_false_r.
Qed.

Lemma trimEnd_before (x z : string) :
  Str.isEmpty (Str.trimEnd z) = false ->
  Str.trimEnd (x ++ z) = (x ++ Str.trimEnd z)%string.
Proof.
  intros Hz. induction x as [|c x IH]; [reflexivity|].
  cbn [String.append Str.trimEnd]. rewrite IH.
  destruct x; cbn [String.append Str.isEmpty];
    [rewrite Hz|]; now rewrite andb_false_r.
Qed.

(** An occurrence of a normalized string in the lower-cased text is one
    in the normalized text. *)
Lemma normalizeString_occurrence (text n : string) :
  normalized n ->
  Str.includes (Str.toLowerCase text) n = true ->
  Str.includes (normalizeString text) n = true.
Proof.
  intros [Hl Hp Hw Ht] H.
  destruct n as [|c0 n0] eqn:En; [apply includes_empty|]. rewrite <- En in *.
  assert (Hne : n <> "") by (rewrite En; discriminate).
  clear En c0 n0.
  destruct (trimmed_ends n Ht) as [Hhead Hend].
  apply includes_occurs in H as (x & y & Hx). apply includes_occurs.
  rewrite NormalizeFacts.normalizeString_direct, Hx.
  unfold deleteAll. rewrite !filter_append.
  fold (deleteAll Char.isPunctuation n).
  rewrite (NormalizeFacts.deleteAll_fixed n Hp).
  set (x1 := filter _ x). set (y1 := filter _ y).
  unfold collapseWhiteSpace.
  destruct (collapseRuns_before x1 (n ++ y1) false) as (x2 & ->).
  { now rewrite headIs_append. }
  rewrite (collapseRuns_occurrence n y1 Hw Hend Hne).
  set (y2 := collapseRuns false y1).
  unfold Str.trim.
  destruct (trimStart_before x2 (n ++ y2)) as (x3 & ->).
  { now rewrite headIs_append. }
  assert (Hn : Str.trimEnd (n ++ y2) = (n ++ Str.trimEnd y2)%string)
    by now apply trimEnd_occurrence.
  rewrite trimEnd_before, Hn; [now exists x3, (Str.trimEnd y2)|].
  rewrite Hn. destruct n; [now elim Hne|reflexivity].
Qed.

Lemma warning_normalized : normalized "government warning".
Proof. split; reflexivity. Qed.

End Occurrence.

(* ================================================================== *)
(** * The earlier server file *)

Module LegacyFacts.
Import RegExp PatternText PatternTextFacts ReturnsFacts.

Lemma legacy_parse_abv_middle (n : nat) (f : frame) :
  exists f',
    forall r, parseFrom ("(\.0)?%|" ++ r) n [] f = parseFrom r (S n) [] f'.
Proof. destruct f as [alts ts q g]. eexists. intros r. simpl. reflexivity. Qed.

Lemma legacy_parse_abv_end (n : nat) (f : frame) :
  exists re, parseFrom "(\.0)?\s*(alc\.|vol\.)" n [] f = Returns re.
Proof. destruct f as [alts ts q g]. eexists. simpl. reflexivity. Qed.

Lemma legacy_abvRegex_compiles (alcoholContent : string) :
  Direct.all plain alcoholContent = true ->
  exists re, newRegExpI (Legacy.abvPatternText alcoholContent) = Returns re.
Proof.
  intros H. unfold newRegExpI, parse, Legacy.abvPatternText.
  change (parseFrom ("\b" ++ ?x) 0 [] (openFrame None))
    with (parseFrom x 0 [] (pushTerm (WordBoundary false) false (openFrame None))).
  rewrite parse_pushPlain by exact H.
  destruct (legacy_parse_abv_middle 0
              (pushPlain alcoholContent
                 (pushTerm (WordBoundary false) false (openFrame None))))
    as (f' & ->).
  rewrite parse_pushPlain by exact H.
  destruct (legacy_parse_abv_end 1 (pushPlain alcoholContent f')) as (re & ->).
  now eexists.
Qed.

Lemma legacy_abvRegex_compiles_simple (alcoholContent : string) :
  Direct.all WellFormed.simple alcoholContent = true ->
  exists re, newRegExpI (Legacy.abvPatternText alcoholContent) = Returns re.
Proof.
  intros H. unfold newRegExpI, parse, Legacy.abvPatternText.
  change (parseFrom ("\b" ++ ?x) 0 [] (openFrame None))
    with (parseFrom x 0 [] (pushTerm (WordBoundary false) false (openFrame None))).
  rewrite DeclaredFacts.parse_pushSimple by exact H.
  destruct (legacy_parse_abv_middle 0
              (Declared.pushSimple alcoholContent
                 (pushTerm (WordBoundary false) false (openFrame None))))
    as (f' & ->).
  rewrite DeclaredFacts.parse_pushSimple by exact H.
  destruct (legacy_parse_abv_end 1 (Declared.pushSimple alcoholContent f'))
    as (re & ->).
  now eexists.
Qed.

(** The report of the earlier engine, in its pieces. *)
Lemma legacy_performVerification_returns (extractedText : string) (formInput : Form.t)
    (report : VerificationReport) :
  Legacy.performVerification extractedText formInput = Returns report ->
  exists lowered abvRegex,
    Legacy.toLowerCaseOf (orElse (Form.brandName formInput) (JStr ""))
    = Returns lowered
    /\ newRegExpI (Legacy.abvPatternText (declaredAbv formInput))
       = Returns abvRegex
    /\ (let brand :=
          (0 <? String.length (Str.trim lowered))
          && Str.includes (Str.toLowerCase extractedText) (Str.trim lowered) in
        let abv :=
          negb (String.eqb (declaredAbv formInput) "0")
          && test abvRegex extractedText in
        let warning :=
          Str.includes (Str.toLowerCase extractedText) "government warning" in
        report
        = mkReport (brand && abv && warning)
            [ mkCheck BrandName (found brand) (Form.brandName formInput);
              mkCheck AlcoholContent (found abv)
                (JStr (plusString (Form.alcoholContent formInput) "%"));
              mkCheck GovernmentWarning (found warning)
                (JStr "government warning") ]).
Proof.
  unfold Legacy.performVerification. cbv zeta. fold (declaredAbv formInput).
  destruct (Legacy.toLowerCaseOf _) as [lowered| |]; cbn [bind];
    try discriminate.
  destruct (newRegExpI _) as [re| |]; cbn [bind]; try discriminate.
  intros [= <-]. exists lowered, re. split; [reflexivity|].
  split; [reflexivity|]. unfold found, push. cbn [app].
  destruct (_ && Str.includes _ (Str.trim lowered));
    destruct (_ && test re extractedText);
    destruct (Str.includes _ "government warning"); reflexivity.
Qed.

End LegacyFacts.

(** X17.  A string of the shape [normalize] returns that occurs in the
    lower-cased text occurs in the normalized text: deleting punctuation,
    collapsing white space and trimming never break an occurrence of a
    clean string. *)
Theorem normalize_keeps_occurrences (text n : string) :
  normalized n ->
  Str.includes (Str.toLowerCase text) n = true ->
  exists normalizedText,
    normalize (JStr text) = Returns normalizedText
    /\ Str.includes normalizedText n = true.
Proof.
  intros Hn H. exists (normalizeString text). split.
  - apply normalize_JStr.
  - now apply Occurrence.normalizeString_occurrence.
Qed.

Lemma normalize_keeps_occurrences_witness :
  exists normalizedText,
    normalize (JStr Scenario.labelText) = Returns normalizedText
    /\ Str.includes normalizedText "old tom distillery" = true.
Proof.
  apply (normalize_keeps_occurrences Scenario.labelText "old tom distillery").
  - split; vm_compute; reflexivity.
  - vm_compute. reflexivity.
Defined.

(** X18.  The earlier engine returns a report of three rows, Brand Name,
    Alcohol Content and Government Warning, for every text, when the
    brand name is a string or absent and the alcohol content is absent,
    an integer of magnitude below 2^53, or a string whose text between the
    white space at its ends holds none of the characters that a pattern
    reads as syntax, the dot apart; product class and net contents play
    no part. *)
Theorem legacy_report_of_three_rows
    (extractedText : string) (formInput : Form.t) :
  WellFormed.textual (Form.brandName formInput) ->
  Declared.literal (Form.alcoholContent formInput) ->
  exists report,
    Legacy.performVerification extractedText formInput = Returns report
    /\ map field (discrepancies report)
       = [BrandName; AlcoholContent; GovernmentWarning]
    /\ forall productClass netContents,
         Legacy.performVerification extractedText
           (Form.mk (Form.brandName formInput) productClass
                    (Form.alcoholContent formInput) netContents)
         = Returns report.
Proof.
  intros Hb Ha.
  assert (Hlow : exists lowered,
             Legacy.toLowerCaseOf (orElse (Form.brandName formInput) (JStr ""))
             = Returns lowered).
  { unfold orElse.
    destruct (Form.brandName formInput) as [| |s|z]; cbn [truthy];
      try (now eexists).
    - destruct (negb (Str.isEmpty s)); now eexists.
    - cbn [WellFormed.textual] in Hb. subst z. now eexists. }
  destruct Hlow as (lowered & Hlow).
  destruct (LegacyFacts.legacy_abvRegex_compiles_simple
              _ (DeclaredFacts.simple_declaredAbv formInput Ha)) as (re & Hre).
  unfold Legacy.performVerification. cbv zeta.
  cbn [Form.brandName Form.alcoholContent].
  fold (declaredAbv formInput). rewrite Hlow, Hre. cbn [bind].
  eexists. split; [reflexivity|]. split; [reflexivity|].
  intros productClass netContents. reflexivity.
Qed.

Lemma legacy_report_of_three_rows_witness :
  exists report,
    Legacy.performVerification Scenario.labelText Trace.netContentsAbsentFields
    = Returns report
    /\ map field (discrepancies report)
       = [BrandName; AlcoholContent; GovernmentWarning]
    /\ forall productClass netContents,
         Legacy.performVerification Scenario.labelText
           (Form.mk (Form.brandName Trace.netContentsAbsentFields) productClass
                    (Form.alcoholContent Trace.netContentsAbsentFields)
                    netContents)
         = Returns report.
Proof.
  apply (legacy_report_of_three_rows
           Scenario.labelText Trace.netContentsAbsentFields);
    vm_compute; auto.
Defined.

(** X19.  In the earlier engine [overall_match] is true exactly when every
    row of the report has the status Match, and no row has the status
    Mismatch (Unit Missing). *)
Theorem legacy_overall_match_iff_all_rows_match
    (extractedText : string) (formInput : Form.t) (report : VerificationReport) :
  Legacy.performVerification extractedText formInput = Returns report ->
  (overall_match report = true
   <-> forall d, In d (discrepancies report) -> status d = Match)
  /\ forall d, In d (discrepancies report) -> status d <> MismatchUnitMissing.
Proof.
  intros H.
  destruct (LegacyFacts.legacy_performVerification_returns _ _ _ H)
    as (lowered & re & _ & _ & ->).
  cbv zeta. cbn [overall_match discrepancies].
  destruct (_ && Str.includes _ (Str.trim lowered));
    destruct (_ && RegExp.test re extractedText);
    destruct (Str.includes _ "government warning");
    cbn [andb found]; (split; [split|]);
    try (intros _ d [<-|[<-|[<-|[]]]]; reflexivity);
    try (intros d [<-|[<-|[<-|[]]]]; discriminate);
    try reflexivity; try discriminate;
    intros Hall.
  all: try (specialize (Hall _ (or_introl eq_refl)); discriminate Hall).
  all: try (specialize (Hall _ (or_intror (or_introl eq_refl)));
            discriminate Hall).
  all: try (specialize (Hall _ (or_intror (or_intror (or_introl eq_refl))));
            discriminate Hall).
Qed.

Lemma legacy_overall_match_iff_all_rows_match_witness :
  exists report,
    Legacy.performVerification Scenario.labelText Scenario.fullSuccess
    = Returns report
    /\ (overall_match report = true
        <-> forall d, In d (discrepancies report) -> status d = Match)
    /\ forall d, In d (discrepancies report) -> status d <> MismatchUnitMissing.
Proof.
  eexists. split; [vm_compute; reflexivity|].
  apply (legacy_overall_match_iff_all_rows_match
           Scenario.labelText Scenario.fullSuccess).
  vm_compute. reflexivity.
Defined.

(** X20.  A text in which the earlier engine finds the government warning
    is one in which the present engine finds it: on one text and one
    form, the Government Warning row of the present report is Match when
    that of the earlier report is. *)
Theorem warning_found_by_both_engines
    (extractedText : string) (formInput : Form.t)
    (earlier present : VerificationReport) :
  Legacy.performVerification extractedText formInput = Returns earlier ->
  performVerification extractedText formInput = Returns present ->
  statusOf GovernmentWarning earlier = Some Match ->
  statusOf GovernmentWarning present = Some Match.
Proof.
  intros He Hp.
  destruct (LegacyFacts.legacy_performVerification_returns _ _ _ He)
    as (lowered & re & _ & _ & ->).
  destruct (performVerification_returns _ _ _ Hp)
    as (? & ? & ? & ? & ? & net & _ & _ & _ & _ & _ & _ & ->).
  cbv zeta. unfold statusOf, rowOf. cbn.
  destruct (Str.includes (Str.toLowerCase extractedText) "government warning")
    eqn:E; [|discriminate].
  intros _.
  now rewrite (Occurrence.normalizeString_occurrence
                 extractedText "government warning"
                 Occurrence.warning_normalized E).
Qed.

Lemma warning_found_by_both_engines_witness :
  statusOf GovernmentWarning Scenario.fullSuccessReport = Some Match.
Proof.
  apply (warning_found_by_both_engines
           Scenario.labelText Scenario.fullSuccess
           (Scenario.reportOf
              (Legacy.performVerification Scenario.labelText
                                          Scenario.fullSuccess))
           Scenario.fullSuccessReport);
    vm_compute; reflexivity.
Defined.

(** X21.  In the earlier engine a form without alcohol content, or with
    the alcohol content 0, never has an overall match: its Alcohol
    Content row is Not Found/Mismatch on every text. *)
Theorem legacy_zero_alcoholContent_never_matches
    (extractedText : string) (formInput : Form.t) (report : VerificationReport) :
  truthy (Form.alcoholContent formInput) = false ->
  Legacy.performVerification extractedText formInput = Returns report ->
  overall_match report = false
  /\ statusOf AlcoholContent report = Some NotFoundOrMismatch.
Proof.
  intros Ha H.
  destruct (LegacyFacts.legacy_performVerification_returns _ _ _ H)
    as (lowered & re & _ & _ & ->).
  cbv zeta.
  replace (declaredAbv formInput) with "0"
    by (unfold declaredAbv, orElse; now rewrite Ha).
  change (negb (String.eqb "0" "0")) with false.
  cbn [andb overall_match]. split; [now rewrite andb_false_r|reflexivity].
Qed.

Lemma legacy_zero_alcoholContent_never_matches_witness :
  overall_match
    (Scenario.reportOf
       (Legacy.performVerification Scenario.labelText Scenario.abvAbsent))
  = false
  /\ statusOf AlcoholContent
       (Scenario.reportOf
          (Legacy.performVerification Scenario.labelText Scenario.abvAbsent))
     = Some NotFoundOrMismatch.
Proof.
  apply (legacy_zero_alcoholContent_never_matches
           Scenario.labelText Scenario.abvAbsent);
    vm_compute; reflexivity.
Defined.

(** X22.  The four tests of the suite pass with what the server file in
    src/unnamed exports.  With what src/server.js exports as it stands,
    which is nothing, the call in every test throws a TypeError; were its
    engine exported, the first three tests would pass and the fourth
    fail.  The assertion of the first test on the status texts holds of a
    row exactly when its status is Match. *)
Theorem test_suite_passes :
  (Tests.test1 Tests.exportsOfPresent = Returns true
   /\ Tests.test2 Tests.exportsOfPresent = Returns true
   /\ Tests.test3 Tests.exportsOfPresent = Returns true
   /\ Tests.test4 Tests.exportsOfPresent = Returns true)
  /\ (Tests.test1 Tests.exportsOfEarlier = Throws TypeError
      /\ Tests.test2 Tests.exportsOfEarlier = Throws TypeError
      /\ Tests.test3 Tests.exportsOfEarlier = Throws TypeError
      /\ Tests.test4 Tests.exportsOfEarlier = Throws TypeError)
  /\ (Tests.test1 (Some Legacy.performVerification) = Returns true
      /\ Tests.test2 (Some Legacy.performVerification) = Returns true
      /\ Tests.test3 (Some Legacy.performVerification) = Returns true
      /\ Tests.test4 (Some Legacy.performVerification) = Returns false)
  /\ (forall s, Str.includes (statusText s) "Match" = isMatch s).
Proof.
  split; [repeat split; vm_compute; reflexivity|].
  split; [repeat split; reflexivity|].
  split; [repeat split; vm_compute; reflexivity|].
  intros []; reflexivity.
Qed.
